(** * BGAPI backend of pygatt: the protocol engine of [bgapi.py]

    A shallow embedding of [BGAPIBackend]
    (src/bluetooth_adapter/backends/bgapi/bgapi.py): the packet handlers,
    the polling wait [_process_packets_until] and the synchronous
    operations built on it, with the properties the specification states
    about them.

    Conventions of the embedding.
    - Python integers are [Z]; a byte is a [Z] in [0, 256).
    - A decoded packet (the pair [packet_type, args] that
      [BGLib.decode_packet] returns) is a value of [Packet.t]; the
      argument dictionary is the list of fields of its constructor.
    - A Python dictionary is a [gmap]; a Python list is a [list].
    - The attributes of [self] form the record [Backend]; an operation is
      a function of the state and of the environment, returning an
      [Outcome]: it returned, it raised, or it is still waiting.
    - Logging is not modelled. *)

From Stdlib Require Import ZArith String Ascii List Bool Lia.
From stdpp Require Import base decidable option list gmap strings fin_maps.

Local Open Scope string_scope.
Local Open Scope list_scope.
Local Open Scope Z_scope.

(** ** Python exceptions *)

(** The exception classes the modelled code can raise.  Messages are not
    modelled: a caller distinguishes failures by class. *)
Inductive Exn : Type :=
  | BGAPIError
  | NotConnectedError
  | NotImplementedError
  | AssertionError
  | IndexError
  | AttributeError
  | UnicodeDecodeError.

#[global] Instance Exn_eq_dec : EqDecision Exn.
Proof. solve_decision. Defined.

(** ** Packet kinds: [bglib.PacketType] *)

Module PacketType.

(** The members of the enumeration that [__init__] gives a handler of
    their own, and [other n] for each of the remaining members, which
    keep [_generic_handler]. *)
Inductive t : Type :=
  | ble_rsp_attclient_attribute_write
  | ble_rsp_attclient_find_information
  | ble_rsp_attclient_read_by_handle
  | ble_rsp_connection_disconnect
  | ble_rsp_connection_get_rssi
  | ble_rsp_gap_connect_direct
  | ble_rsp_gap_discover
  | ble_rsp_gap_end_procedure
  | ble_rsp_gap_set_mode
  | ble_rsp_gap_set_scan_parameters
  | ble_rsp_sm_delete_bonding
  | ble_rsp_sm_encrypt_start
  | ble_rsp_sm_get_bonds
  | ble_rsp_sm_set_bondable_mode
  | ble_evt_attclient_attribute_value
  | ble_evt_attclient_find_information_found
  | ble_evt_attclient_procedure_completed
  | ble_evt_connection_status
  | ble_evt_connection_disconnected
  | ble_evt_gap_scan_response
  | ble_evt_sm_bond_status
  | ble_evt_sm_bonding_fail
  | other (n : nat).

#[global] Instance eq_dec : EqDecision t.
Proof. solve_decision. Defined.

End PacketType.

(** ** Decoded packets *)

Module Packet.

(** One constructor per packet kind, carrying the entries of [args]
    under the names the handlers read them by. *)
Inductive t : Type :=
  | ble_rsp_attclient_attribute_write (connection result : Z)
  | ble_rsp_attclient_find_information (connection result : Z)
  | ble_rsp_attclient_read_by_handle (connection result : Z)
  | ble_rsp_connection_disconnect (connection result : Z)
  | ble_rsp_connection_get_rssi (connection rssi : Z)
  | ble_rsp_gap_connect_direct (result connection_handle : Z)
  | ble_rsp_gap_discover (result : Z)
  | ble_rsp_gap_end_procedure (result : Z)
  | ble_rsp_gap_set_mode (result : Z)
  | ble_rsp_gap_set_scan_parameters (result : Z)
  | ble_rsp_sm_delete_bonding (result : Z)
  | ble_rsp_sm_encrypt_start (handle result : Z)
  | ble_rsp_sm_get_bonds (bonds : Z)
  | ble_rsp_sm_set_bondable_mode
  | ble_evt_attclient_attribute_value
      (connection atthandle type : Z) (value : list Z)
  | ble_evt_attclient_find_information_found
      (connection chrhandle : Z) (uuid : list Z)
  | ble_evt_attclient_procedure_completed (connection result chrhandle : Z)
  | ble_evt_connection_status
      (connection flags : Z) (address : list Z)
      (address_type conn_interval timeout latency bonding : Z)
  | ble_evt_connection_disconnected (connection reason : Z)
  | ble_evt_gap_scan_response
      (rssi packet_type : Z) (sender : list Z)
      (address_type bond : Z) (data : list Z)
  | ble_evt_sm_bond_status (bond keysize mitm keys : Z)
  | ble_evt_sm_bonding_fail (result : Z)
  | other (n : nat).

(** The first component of [decode_packet]'s result. *)
Definition packet_type (p : t) : PacketType.t :=
  match p with
  | ble_rsp_attclient_attribute_write _ _ =>
      PacketType.ble_rsp_attclient_attribute_write
  | ble_rsp_attclient_find_information _ _ =>
      PacketType.ble_rsp_attclient_find_information
  | ble_rsp_attclient_read_by_handle _ _ =>
      PacketType.ble_rsp_attclient_read_by_handle
  | ble_rsp_connection_disconnect _ _ =>
      PacketType.ble_rsp_connection_disconnect
  | ble_rsp_connection_get_rssi _ _ =>
      PacketType.ble_rsp_connection_get_rssi
  | ble_rsp_gap_connect_direct _ _ => PacketType.ble_rsp_gap_connect_direct
  | ble_rsp_gap_discover _ => PacketType.ble_rsp_gap_discover
  | ble_rsp_gap_end_procedure _ => PacketType.ble_rsp_gap_end_procedure
  | ble_rsp_gap_set_mode _ => PacketType.ble_rsp_gap_set_mode
  | ble_rsp_gap_set_scan_parameters _ =>
      PacketType.ble_rsp_gap_set_scan_parameters
  | ble_rsp_sm_delete_bonding _ => PacketType.ble_rsp_sm_delete_bonding
  | ble_rsp_sm_encrypt_start _ _ => PacketType.ble_rsp_sm_encrypt_start
  | ble_rsp_sm_get_bonds _ => PacketType.ble_rsp_sm_get_bonds
  | ble_rsp_sm_set_bondable_mode => PacketType.ble_rsp_sm_set_bondable_mode
  | ble_evt_attclient_attribute_value _ _ _ _ =>
      PacketType.ble_evt_attclient_attribute_value
  | ble_evt_attclient_find_information_found _ _ _ =>
      PacketType.ble_evt_attclient_find_information_found
  | ble_evt_attclient_procedure_completed _ _ _ =>
      PacketType.ble_evt_attclient_procedure_completed
  | ble_evt_connection_status _ _ _ _ _ _ _ _ =>
      PacketType.ble_evt_connection_status
  | ble_evt_connection_disconnected _ _ =>
      PacketType.ble_evt_connection_disconnected
  | ble_evt_gap_scan_response _ _ _ _ _ _ =>
      PacketType.ble_evt_gap_scan_response
  | ble_evt_sm_bond_status _ _ _ _ => PacketType.ble_evt_sm_bond_status
  | ble_evt_sm_bonding_fail _ => PacketType.ble_evt_sm_bonding_fail
  | other n => PacketType.other n
  end.

End Packet.

(** ** Commands written to the serial port *)

(** The commands [self._lib.ble_cmd_*] builds in the modelled operations,
    with their arguments. *)
Inductive Command : Type :=
  | ble_cmd_attclient_attribute_write (connection atthandle : Z) (data : list Z)
  | ble_cmd_connection_disconnect (connection : Z)
  | ble_cmd_connection_get_rssi (connection : Z)
  | ble_cmd_gap_connect_direct
      (address : list Z)
      (addr_type conn_interval_min conn_interval_max timeout latency : Z)
  | ble_cmd_sm_encrypt_start (handle bonding : Z)
  | ble_cmd_sm_set_bondable_mode (bondable : Z).

#[global] Instance Command_eq_dec : EqDecision Command.
Proof. solve_decision. Defined.

(** ** The GATT catalogue: module [gatt] *)

Module gatt.

(** Modelled from the spec: the module [bluetooth_adapter.gatt] is not
    among the sources.  [Uuid] keeps the string its constructor is given;
    the three type enumerations have the members the backend tests for
    by identity and one constructor for all the others. *)
Record Uuid : Type := mkUuid { uuid_str_arg : string }.

#[global] Instance Uuid_eq_dec : EqDecision Uuid.
Proof. solve_decision. Defined.

Inductive AttributeType : Type :=
  | primary_service
  | secondary_service
  | characteristic
  | other_attribute_type (name : string).

Inductive CharacteristicType : Type :=
  | characteristic_type (name : string).

Inductive DescriptorType : Type :=
  | client_characteristic_configuration
  | other_descriptor_type (name : string).

#[global] Instance AttributeType_eq_dec : EqDecision AttributeType.
Proof. solve_decision. Defined.
#[global] Instance CharacteristicType_eq_dec : EqDecision CharacteristicType.
Proof. solve_decision. Defined.
#[global] Instance DescriptorType_eq_dec : EqDecision DescriptorType.
Proof. solve_decision. Defined.

(** Modelled from the spec: "an ordered sequence of Service records,
    each owning an ordered sequence of Characteristic records, each
    owning an ordered sequence of Descriptor records". *)
Record Descriptor : Type := mkDescriptor {
  d_handle : Z;
  d_uuid : Uuid;
  descriptor_type : DescriptorType
}.

Record Characteristic : Type := mkCharacteristic {
  c_handle : Z;
  c_uuid : Uuid;
  custom : bool;
  characteristic_type_of : option CharacteristicType;
  descriptors : list Descriptor
}.

Record Service : Type := mkService {
  s_handle : Z;
  s_uuid : Uuid;
  secondary : bool;
  characteristics : list Characteristic
}.

(** [gatt.Descriptor(handle, uuid=, descriptor_type=)],
    [gatt.Characteristic(handle, uuid=)] and
    [gatt.Service(handle, uuid=, secondary=)]: fresh objects with empty
    child lists. *)
Definition new_Characteristic (handle : Z) (uuid : Uuid) : Characteristic :=
  mkCharacteristic handle uuid false None [].

Definition new_Service (handle : Z) (uuid : Uuid) (sec : bool) : Service :=
  mkService handle uuid sec [].

End gatt.

(** ** Constants and lookup tables of the collaborating modules *)

(** A member of a Python [Enum]. *)
Record EnumMember : Type := mkEnumMember { name : string; value : Z }.

#[global] Instance EnumMember_eq_dec : EqDecision EnumMember.
Proof. solve_decision. Defined.

(** What the backend reads from the modules [constants] and [gatt] and from
    the codec of [bytearray.decode], none of which is among the sources.
    The development is parametric in them. *)
Class Catalogue : Type := {
  (** [constants.ConnectionStatusFlag.connected.value] and
      [constants.ConnectionStatusFlag.encrypted.value] *)
  ConnectionStatusFlag_connected : Z;
  ConnectionStatusFlag_encrypted : Z;
  (** [constants.Bondable.yes.value] and
      [constants.Bonding.create_bonding.value] *)
  Bondable_yes : Z;
  Bonding_create_bonding : Z;
  (** the members of [constants.ScanResponsePacketType] and of
      [constants.ScanResponseDataType], in definition order *)
  ScanResponsePacketType : list EnumMember;
  ScanResponseDataType : list EnumMember;
  complete_local_name : EnumMember;
  shortened_local_name : EnumMember;
  complete_list_128_bit_service_class_uuids : EnumMember;
  (** [bytearray(l).decode("utf-8")]; [None] when it raises *)
  decode_utf8 : list Z -> option string;
  (** [len(uuid)] and [str(uuid)] of a [gatt.Uuid] *)
  Uuid_len : gatt.Uuid -> Z;
  Uuid_str : gatt.Uuid -> string;
  (** the three classification tables of [gatt] *)
  UUID_STRING_TO_ATTRIBUTE_TYPE : gmap string gatt.AttributeType;
  UUID_STRING_TO_CHARACTERISTIC_TYPE : gmap string gatt.CharacteristicType;
  UUID_STRING_TO_DESCRIPTOR_TYPE : gmap string gatt.DescriptorType
}.

(** ** Byte formatting *)

Definition hex_digit (n : Z) : ascii :=
  match n with
  | 0 => "0" | 1 => "1" | 2 => "2" | 3 => "3" | 4 => "4" | 5 => "5"
  | 6 => "6" | 7 => "7" | 8 => "8" | 9 => "9" | 10 => "a" | 11 => "b"
  | 12 => "c" | 13 => "d" | 14 => "e" | _ => "f"
  end%char.

(** [format(b, '02x')] for a byte [b]. *)
Definition format_02x (b : Z) : string :=
  String (hex_digit (b / 16)) (String (hex_digit (b mod 16)) EmptyString).

(** [hexlify(bytearray(l))] *)
Definition hexlify (l : list Z) : string :=
  fold_right (fun b s => format_02x b +:+ s) EmptyString l.

(** [sep.join(l)] *)
Fixpoint join (sep : string) (l : list string) : string :=
  match l with
  | [] => EmptyString
  | [s] => s
  | s :: l' => s +:+ sep +:+ join sep l'
  end.

(** ** Driver state *)

(** A value stored in the dictionary [_scan_rsp_data] builds: a decoded
    local name, a list of [gatt.Uuid], or a [bytearray]. *)
Inductive FieldValue : Type :=
  | field_str (s : string)
  | field_uuids (l : list gatt.Uuid)
  | field_bytearray (l : list Z).

(** An entry of [self._devices_discovered].  The keys of ['packet_data']
    are names of [ScanResponsePacketType] members, or [None]. *)
Record Device : Type := mkDevice {
  dev_name : string;
  dev_address : string;
  dev_rssi : Z;
  packet_data : gmap (option string) (gmap string FieldValue)
}.

(** A notification callback, identified by a number; [None] is Python's
    [None]. *)
Definition Callback : Type := nat.

Record Backend : Type := mkBackend {
  (* attribute handle: callback function *)
  _callbacks : gmap Z Callback;
  (* expected handle after a read *)
  _expected_attribute_handle : option Z;
  (* number of bonds stored on the dongle *)
  _num_bonds : Z;
  (* bond handles stored on the dongle *)
  _stored_bonds : list Z;
  (* handle for the device connection *)
  _connection_handle : Z;
  (* address: device *)
  _devices_discovered : gmap string Device;
  (* attribute_value event value *)
  _attribute_value : option (list Z);
  (* used for device attribute discovery *)
  _services : list gatt.Service;
  (* event return code *)
  _event_return : Z;
  (* command response return code *)
  _response_return : Z;
  (* device is bonded *)
  _bonded : bool;
  (* device is connected *)
  _connected : bool;
  (* connection is encrypted *)
  _encrypted : bool;
  (* tell bond_status handler to set _bonded *)
  _bond_expected : bool;
  (* attribute_value event occurred *)
  _attribute_value_received : bool;
  (* procedure_completed event occurred *)
  _procedure_completed : bool;
  (* bonding with device failed *)
  _bonding_fail : bool;
  (* commands written to the serial port, oldest first *)
  _ser : list Command
}.

Definition set_callbacks (v : gmap Z Callback) (self : Backend) : Backend :=
  {| _callbacks := v;
     _expected_attribute_handle := _expected_attribute_handle self;
     _num_bonds := _num_bonds self; _stored_bonds := _stored_bonds self;
     _connection_handle := _connection_handle self;
     _devices_discovered := _devices_discovered self;
     _attribute_value := _attribute_value self; _services := _services self;
     _event_return := _event_return self;
     _response_return := _response_return self; _bonded := _bonded self;
     _connected := _connected self; _encrypted := _encrypted self;
     _bond_expected := _bond_expected self;
     _attribute_value_received := _attribute_value_received self;
     _procedure_completed := _procedure_completed self;
     _bonding_fail := _bonding_fail self; _ser := _ser self |}.

Definition set_num_bonds (v : Z) (self : Backend) : Backend :=
  {| _callbacks := _callbacks self;
     _expected_attribute_handle := _expected_attribute_handle self;
     _num_bonds := v; _stored_bonds := _stored_bonds self;
     _connection_handle := _connection_handle self;
     _devices_discovered := _devices_discovered self;
     _attribute_value := _attribute_value self; _services := _services self;
     _event_return := _event_return self;
     _response_return := _response_return self; _bonded := _bonded self;
     _connected := _connected self; _encrypted := _encrypted self;
     _bond_expected := _bond_expected self;
     _attribute_value_received := _attribute_value_received self;
     _procedure_completed := _procedure_completed self;
     _bonding_fail := _bonding_fail self; _ser := _ser self |}.

Definition set_stored_bonds (v : list Z) (self : Backend) : Backend :=
  {| _callbacks := _callbacks self;
     _expected_attribute_handle := _expected_attribute_handle self;
     _num_bonds := _num_bonds self; _stored_bonds := v;
     _connection_handle := _connection_handle self;
     _devices_discovered := _devices_discovered self;
     _attribute_value := _attribute_value self; _services := _services self;
     _event_return := _event_return self;
     _response_return := _response_return self; _bonded := _bonded self;
     _connected := _connected self; _encrypted := _encrypted self;
     _bond_expected := _bond_expected self;
     _attribute_value_received := _attribute_value_received self;
     _procedure_completed := _procedure_completed self;
     _bonding_fail := _bonding_fail self; _ser := _ser self |}.

Definition set_connection_handle (v : Z) (self : Backend) : Backend :=
  {| _callbacks := _callbacks self;
     _expected_attribute_handle := _expected_attribute_handle self;
     _num_bonds := _num_bonds self; _stored_bonds := _stored_bonds self;
     _connection_handle := v;
     _devices_discovered := _devices_discovered self;
     _attribute_value := _attribute_value self; _services := _services self;
     _event_return := _event_return self;
     _response_return := _response_return self; _bonded := _bonded self;
     _connected := _connected self; _encrypted := _encrypted self;
     _bond_expected := _bond_expected self;
     _attribute_value_received := _attribute_value_received self;
     _procedure_completed := _procedure_completed self;
     _bonding_fail := _bonding_fail self; _ser := _ser self |}.

Definition set_devices_discovered (v : gmap string Device) (self : Backend) : Backend :=
  {| _callbacks := _callbacks self;
     _expected_attribute_handle := _expected_attribute_handle self;
     _num_bonds := _num_bonds self; _stored_bonds := _stored_bonds self;
     _connection_handle := _connection_handle self; _devices_discovered := v;
     _attribute_value := _attribute_value self; _services := _services self;
     _event_return := _event_return self;
     _response_return := _response_return self; _bonded := _bonded self;
     _connected := _connected self; _encrypted := _encrypted self;
     _bond_expected := _bond_expected self;
     _attribute_value_received := _attribute_value_received self;
     _procedure_completed := _procedure_completed self;
     _bonding_fail := _bonding_fail self; _ser := _ser self |}.

Definition set_attribute_value (v : option (list Z)) (self : Backend) : Backend :=
  {| _callbacks := _callbacks self;
     _expected_attribute_handle := _expected_attribute_handle self;
     _num_bonds := _num_bonds self; _stored_bonds := _stored_bonds self;
     _connection_handle := _connection_handle self;
     _devices_discovered := _devices_discovered self; _attribute_value := v;
     _services := _services self; _event_return := _event_return self;
     _response_return := _response_return self; _bonded := _bonded self;
     _connected := _connected self; _encrypted := _encrypted self;
     _bond_expected := _bond_expected self;
     _attribute_value_received := _attribute_value_received self;
     _procedure_completed := _procedure_completed self;
     _bonding_fail := _bonding_fail self; _ser := _ser self |}.

Definition set_services (v : list gatt.Service) (self : Backend) : Backend :=
  {| _callbacks := _callbacks self;
     _expected_attribute_handle := _expected_attribute_handle self;
     _num_bonds := _num_bonds self; _stored_bonds := _stored_bonds self;
     _connection_handle := _connection_handle self;
     _devices_discovered := _devices_discovered self;
     _attribute_value := _attribute_value self; _services := v;
     _event_return := _event_return self;
     _response_return := _response_return self; _bonded := _bonded self;
     _connected := _connected self; _encrypted := _encrypted self;
     _bond_expected := _bond_expected self;
     _attribute_value_received := _attribute_value_received self;
     _procedure_completed := _procedure_completed self;
     _bonding_fail := _bonding_fail self; _ser := _ser self |}.

Definition set_event_return (v : Z) (self : Backend) : Backend :=
  {| _callbacks := _callbacks self;
     _expected_attribute_handle := _expected_attribute_handle self;
     _num_bonds := _num_bonds self; _stored_bonds := _stored_bonds self;
     _connection_handle := _connection_handle self;
     _devices_discovered := _devices_discovered self;
     _attribute_value := _attribute_value self; _services := _services self;
     _event_return := v; _response_return := _response_return self;
     _bonded := _bonded self; _connected := _connected self;
     _encrypted := _encrypted self; _bond_expected := _bond_expected self;
     _attribute_value_received := _attribute_value_received self;
     _procedure_completed := _procedure_completed self;
     _bonding_fail := _bonding_fail self; _ser := _ser self |}.

Definition set_response_return (v : Z) (self : Backend) : Backend :=
  {| _callbacks := _callbacks self;
     _expected_attribute_handle := _expected_attribute_handle self;
     _num_bonds := _num_bonds self; _stored_bonds := _stored_bonds self;
     _connection_handle := _connection_handle self;
     _devices_discovered := _devices_discovered self;
     _attribute_value := _attribute_value self; _services := _services self;
     _event_return := _event_return self; _response_return := v;
     _bonded := _bonded self; _connected := _connected self;
     _encrypted := _encrypted self; _bond_expected := _bond_expected self;
     _attribute_value_received := _attribute_value_received self;
     _procedure_completed := _procedure_completed self;
     _bonding_fail := _bonding_fail self; _ser := _ser self |}.

Definition set_bonded (v : bool) (self : Backend) : Backend :=
  {| _callbacks := _callbacks self;
     _expected_attribute_handle := _expected_attribute_handle self;
     _num_bonds := _num_bonds self; _stored_bonds := _stored_bonds self;
     _connection_handle := _connection_handle self;
     _devices_discovered := _devices_discovered self;
     _attribute_value := _attribute_value self; _services := _services self;
     _event_return := _event_return self;
     _response_return := _response_return self; _bonded := v;
     _connected := _connected self; _encrypted := _encrypted self;
     _bond_expected := _bond_expected self;
     _attribute_value_received := _attribute_value_received self;
     _procedure_completed := _procedure_completed self;
     _bonding_fail := _bonding_fail self; _ser := _ser self |}.

Definition set_connected (v : bool) (self : Backend) : Backend :=
  {| _callbacks := _callbacks self;
     _expected_attribute_handle := _expected_attribute_handle self;
     _num_bonds := _num_bonds self; _stored_bonds := _stored_bonds self;
     _connection_handle := _connection_handle self;
     _devices_discovered := _devices_discovered self;
     _attribute_value := _attribute_value self; _services := _services self;
     _event_return := _event_return self;
     _response_return := _response_return self; _bonded := _bonded self;
     _connected := v; _encrypted := _encrypted self;
     _bond_expected := _bond_expected self;
     _attribute_value_received := _attribute_value_received self;
     _procedure_completed := _procedure_completed self;
     _bonding_fail := _bonding_fail self; _ser := _ser self |}.

Definition set_encrypted (v : bool) (self : Backend) : Backend :=
  {| _callbacks := _callbacks self;
     _expected_attribute_handle := _expected_attribute_handle self;
     _num_bonds := _num_bonds self; _stored_bonds := _stored_bonds self;
     _connection_handle := _connection_handle self;
     _devices_discovered := _devices_discovered self;
     _attribute_value := _attribute_value self; _services := _services self;
     _event_return := _event_return self;
     _response_return := _response_return self; _bonded := _bonded self;
     _connected := _connected self; _encrypted := v;
     _bond_expected := _bond_expected self;
     _attribute_value_received := _attribute_value_received self;
     _procedure_completed := _procedure_completed self;
     _bonding_fail := _bonding_fail self; _ser := _ser self |}.

Definition set_bond_expected (v : bool) (self : Backend) : Backend :=
  {| _callbacks := _callbacks self;
     _expected_attribute_handle := _expected_attribute_handle self;
     _num_bonds := _num_bonds self; _stored_bonds := _stored_bonds self;
     _connection_handle := _connection_handle self;
     _devices_discovered := _devices_discovered self;
     _attribute_value := _attribute_value self; _services := _services self;
     _event_return := _event_return self;
     _response_return := _response_return self; _bonded := _bonded self;
     _connected := _connected self; _encrypted := _encrypted self;
     _bond_expected := v;
     _attribute_value_received := _attribute_value_received self;
     _procedure_completed := _procedure_completed self;
     _bonding_fail := _bonding_fail self; _ser := _ser self |}.

Definition set_attribute_value_received (v : bool) (self : Backend) : Backend :=
  {| _callbacks := _callbacks self;
     _expected_attribute_handle := _expected_attribute_handle self;
     _num_bonds := _num_bonds self; _stored_bonds := _stored_bonds self;
     _connection_handle := _connection_handle self;
     _devices_discovered := _devices_discovered self;
     _attribute_value := _attribute_value self; _services := _services self;
     _event_return := _event_return self;
     _response_return := _response_return self; _bonded := _bonded self;
     _connected := _connected self; _encrypted := _encrypted self;
     _bond_expected := _bond_expected self; _attribute_value_received := v;
     _procedure_completed := _procedure_completed self;
     _bonding_fail := _bonding_fail self; _ser := _ser self |}.

Definition set_procedure_completed (v : bool) (self : Backend) : Backend :=
  {| _callbacks := _callbacks self;
     _expected_attribute_handle := _expected_attribute_handle self;
     _num_bonds := _num_bonds self; _stored_bonds := _stored_bonds self;
     _connection_handle := _connection_handle self;
     _devices_discovered := _devices_discovered self;
     _attribute_value := _attribute_value self; _services := _services self;
     _event_return := _event_return self;
     _response_return := _response_return self; _bonded := _bonded self;
     _connected := _connected self; _encrypted := _encrypted self;
     _bond_expected := _bond_expected self;
     _attribute_value_received := _attribute_value_received self;
     _procedure_completed := v; _bonding_fail := _bonding_fail self;
     _ser := _ser self |}.

Definition set_bonding_fail (v : bool) (self : Backend) : Backend :=
  {| _callbacks := _callbacks self;
     _expected_attribute_handle := _expected_attribute_handle self;
     _num_bonds := _num_bonds self; _stored_bonds := _stored_bonds self;
     _connection_handle := _connection_handle self;
     _devices_discovered := _devices_discovered self;
     _attribute_value := _attribute_value self; _services := _services self;
     _event_return := _event_return self;
     _response_return := _response_return self; _bonded := _bonded self;
     _connected := _connected self; _encrypted := _encrypted self;
     _bond_expected := _bond_expected self;
     _attribute_value_received := _attribute_value_received self;
     _procedure_completed := _procedure_completed self; _bonding_fail := v;
     _ser := _ser self |}.

Definition set_ser (v : list Command) (self : Backend) : Backend :=
  {| _callbacks := _callbacks self;
     _expected_attribute_handle := _expected_attribute_handle self;
     _num_bonds := _num_bonds self; _stored_bonds := _stored_bonds self;
     _connection_handle := _connection_handle self;
     _devices_discovered := _devices_discovered self;
     _attribute_value := _attribute_value self; _services := _services self;
     _event_return := _event_return self;
     _response_return := _response_return self; _bonded := _bonded self;
     _connected := _connected self; _encrypted := _encrypted self;
     _bond_expected := _bond_expected self;
     _attribute_value_received := _attribute_value_received self;
     _procedure_completed := _procedure_completed self;
     _bonding_fail := _bonding_fail self; _ser := v |}.
(** The state [__init__] sets up. *)
Definition init : Backend :=
  {| _callbacks := ∅; _expected_attribute_handle := None; _num_bonds := 0;
     _stored_bonds := []; _connection_handle := 0;
     _devices_discovered := ∅; _attribute_value := None; _services := [];
     _event_return := 0; _response_return := 0; _bonded := false;
     _connected := false; _encrypted := false; _bond_expected := false;
     _attribute_value_received := false; _procedure_completed := false;
     _bonding_fail := false; _ser := [] |}.

(** ** Results of handlers *)

(** A handler either completes with a new state or raises. *)
Definition Result (A : Type) : Type := Exn + A.

Definition Ok {A : Type} (a : A) : Result A := inr a.
Definition Err {A : Type} (e : Exn) : Result A := inl e.

Definition and_then {A B : Type} (r : Result A) (k : A -> Result B)
  : Result B :=
  match r with
  | inl e => inl e
  | inr a => k a
  end.

(** [l[-1]] with the rest of the list: [None] when [l] is empty. *)
Fixpoint unsnoc {A : Type} (l : list A) : option (list A * A) :=
  match l with
  | [] => None
  | x :: l' =>
      match unsnoc l' with
      | None => Some ([], x)
      | Some (front, y) => Some (x :: front, y)
      end
  end.

(** An in-place update of the object [l[-1]]; indexing an empty list
    raises [IndexError]. *)
Definition update_last {A : Type} (f : A -> Result A) (l : list A)
  : Result (list A) :=
  match unsnoc l with
  | None => Err IndexError
  | Some (front, x) => and_then (f x) (fun x' => Ok (front ++ [x']))
  end.

Section Handlers.

Context {cat : Catalogue}.

(** *** Helpers *)

(** [_connection_status_flag]: is the flag in the status flags? *)
Definition _connection_status_flag (flags flag_to_find : Z) : bool :=
  Z.land flags flag_to_find =? flag_to_find.

(** The end of a field in [_scan_rsp_data]: [field_value] holds the type
    byte followed by the payload. *)
Fixpoint uuid_list (n : nat) (i : Z) (field_value : list Z)
    (uuid_str : string) : list gatt.Uuid :=
  match n with
  | O => []
  | S n' =>
      let uuid_str' :=
        uuid_str +:+
        hexlify (rev (take 16 (drop (Z.to_nat (i * 16)) field_value))) in
      gatt.mkUuid uuid_str' :: uuid_list n' (i + 1) field_value uuid_str'
  end.

Definition end_of_field (field_value : list Z)
    (acc : string * gmap string FieldValue)
  : Result (string * gmap string FieldValue) :=
  let '(dev_name, data_dict) := acc in
  match field_value with
  | [] => Err IndexError
  | type_byte :: field_value =>
      let field_type :=
        find (fun s => value s =? type_byte) ScanResponseDataType in
      if bool_decide (field_type = Some complete_local_name)
         || bool_decide (field_type = Some shortened_local_name)
      then
        match decode_utf8 field_value, field_type with
        | Some dev_name, Some ft =>
            Ok (dev_name, <[name ft := field_str dev_name]> data_dict)
        | _, _ => Err UnicodeDecodeError
        end
      else if bool_decide
                (field_type = Some complete_list_128_bit_service_class_uuids)
      then
        match field_type with
        | Some ft =>
            let n := Z.to_nat (Z.of_nat (length field_value) / 16) in
            Ok (dev_name,
                <[name ft := field_uuids (uuid_list n 0 field_value "0x")]>
                  data_dict)
        | None => Err AttributeError
        end
      else
        match field_type with
        | Some ft =>
            Ok (dev_name,
                <[name ft := field_bytearray field_value]> data_dict)
        | None => Err AttributeError
        end
  end.

(** The loop of [_scan_rsp_data] over the data bytes, with the loop
    variables [bytes_left_in_field], [field_value], [dev_name] and
    [data_dict]. *)
Fixpoint scan_rsp_loop (data : list Z) (bytes_left_in_field : Z)
    (field_value : list Z) (acc : string * gmap string FieldValue)
  : Result (string * gmap string FieldValue) :=
  match data with
  | [] => Ok acc
  | b :: data' =>
      if bytes_left_in_field =? 0 then
        scan_rsp_loop data' b [] acc
      else
        let field_value := field_value ++ [b] in
        let bytes_left_in_field := bytes_left_in_field - 1 in
        if bytes_left_in_field =? 0 then
          and_then (end_of_field field_value acc)
            (fun acc' => scan_rsp_loop data' 0 (tl field_value) acc')
        else scan_rsp_loop data' bytes_left_in_field field_value acc
  end.

(** [_scan_rsp_data]: the device name and the parsed fields. *)
Definition _scan_rsp_data (data : list Z)
  : Result (string * gmap string FieldValue) :=
  scan_rsp_loop data 0 [] (EmptyString, ∅).

(** *** Event handlers *)

(** [_generic_handler]: packets that need no specific action. *)
Definition _generic_handler (self : Backend) : Result Backend := Ok self.

Definition _ble_evt_attclient_attribute_value (value : list Z)
    (self : Backend) : Result Backend :=
  Ok (set_attribute_value (Some value)
        (set_attribute_value_received true self)).

(** The four branches of [_ble_evt_attclient_find_information_found]
    that touch [self._services[-1]], as updates of that service. *)
Definition mark_custom (uuid : gatt.Uuid) (chrhandle : Z)
    (c : gatt.Characteristic) : Result gatt.Characteristic :=
  Ok (gatt.mkCharacteristic chrhandle uuid true
        (gatt.characteristic_type_of c) (gatt.descriptors c)).

Definition set_characteristic_type (char_type : gatt.CharacteristicType)
    (c : gatt.Characteristic) : Result gatt.Characteristic :=
  Ok (gatt.mkCharacteristic (gatt.c_handle c) (gatt.c_uuid c)
        (gatt.custom c) (Some char_type) (gatt.descriptors c)).

Definition append_descriptor (desc : gatt.Descriptor)
    (c : gatt.Characteristic) : Result gatt.Characteristic :=
  Ok (gatt.mkCharacteristic (gatt.c_handle c) (gatt.c_uuid c)
        (gatt.custom c) (gatt.characteristic_type_of c)
        (gatt.descriptors c ++ [desc])).

Definition on_last_characteristic
    (f : gatt.Characteristic -> Result gatt.Characteristic)
    (s : gatt.Service) : Result gatt.Service :=
  and_then (update_last f (gatt.characteristics s))
    (fun cs =>
       Ok (gatt.mkService (gatt.s_handle s) (gatt.s_uuid s)
             (gatt.secondary s) cs)).

Definition append_characteristic (char : gatt.Characteristic)
    (s : gatt.Service) : Result gatt.Service :=
  Ok (gatt.mkService (gatt.s_handle s) (gatt.s_uuid s) (gatt.secondary s)
        (gatt.characteristics s ++ [char])).

Definition _ble_evt_attclient_find_information_found
    (chrhandle : Z) (uuid_arg : list Z) (self : Backend)
  : Result Backend :=
  (* uuid comes in as a reversed list of bytes *)
  let uuid_str := hexlify (rev uuid_arg) in
  let uuid := gatt.mkUuid uuid_str in
  if Uuid_len uuid =? 128 then
    and_then
      (update_last (on_last_characteristic (mark_custom uuid chrhandle))
         (_services self))
      (fun ss => Ok (set_services ss self))
  else
    match UUID_STRING_TO_ATTRIBUTE_TYPE !! Uuid_str uuid with
    | Some att_type =>
        match att_type with
        | gatt.characteristic =>
            let char := gatt.new_Characteristic chrhandle uuid in
            and_then
              (update_last (append_characteristic char) (_services self))
              (fun ss => Ok (set_services ss self))
        | gatt.primary_service =>
            let serv := gatt.new_Service chrhandle uuid false in
            Ok (set_services (_services self ++ [serv]) self)
        | gatt.secondary_service =>
            let serv := gatt.new_Service chrhandle uuid true in
            Ok (set_services (_services self ++ [serv]) self)
        | gatt.other_attribute_type _ => Ok self
        end
    | None =>
        match UUID_STRING_TO_CHARACTERISTIC_TYPE !! Uuid_str uuid with
        | Some char_type =>
            and_then
              (update_last
                 (on_last_characteristic (set_characteristic_type char_type))
                 (_services self))
              (fun ss => Ok (set_services ss self))
        | None =>
            match UUID_STRING_TO_DESCRIPTOR_TYPE !! Uuid_str uuid with
            | Some desc_type =>
                let desc := gatt.mkDescriptor chrhandle uuid desc_type in
                and_then
                  (update_last
                     (on_last_characteristic (append_descriptor desc))
                     (_services self))
                  (fun ss => Ok (set_services ss self))
            | None => Ok self
            end
        end
    end.

Definition _ble_evt_attclient_procedure_completed (result : Z)
    (self : Backend) : Result Backend :=
  Ok (set_event_return result (set_procedure_completed true self)).

Definition _ble_evt_connection_disconnected (reason : Z)
    (self : Backend) : Result Backend :=
  Ok (set_event_return reason
        (set_bonded false (set_encrypted false (set_connected false self)))).

Definition _ble_evt_connection_status (connection flags : Z)
    (self : Backend) : Result Backend :=
  let self := set_connection_handle connection self in
  let self :=
    if _connection_status_flag flags ConnectionStatusFlag_connected
    then set_connected true self else self in
  let self :=
    if _connection_status_flag flags ConnectionStatusFlag_encrypted
    then set_encrypted true self else self in
  Ok self.

(** The name of the last member of [ScanResponsePacketType] whose value
    is [v]; [None] when there is none (the loop has no [break]). *)
Definition scan_response_packet_type (v : Z) : option string :=
  fold_left
    (fun packet_type pt => if value pt =? v then Some (name pt)
                           else packet_type)
    ScanResponsePacketType None.

Definition _ble_evt_gap_scan_response
    (rssi packet_type_arg : Z) (sender data : list Z) (self : Backend)
  : Result Backend :=
  let packet_type := scan_response_packet_type packet_type_arg in
  let address := join ":" (rev (map format_02x sender)) in
  and_then (_scan_rsp_data data) (fun '(name, data_dict) =>
    (* Store device information *)
    let dev :=
      match _devices_discovered self !! address with
      | Some dev => dev
      | None => mkDevice name address rssi ∅
      end in
    let dev :=
      if bool_decide (dev_name dev = EmptyString)
      then mkDevice name (dev_address dev) (dev_rssi dev) (packet_data dev)
      else dev in
    let dev :=
      match packet_data dev !! packet_type with
      | Some stored =>
          if bool_decide (size stored < size data_dict)%nat
          then mkDevice (dev_name dev) (dev_address dev) (dev_rssi dev)
                 (<[packet_type := data_dict]> (packet_data dev))
          else dev
      | None =>
          mkDevice (dev_name dev) (dev_address dev) (dev_rssi dev)
            (<[packet_type := data_dict]> (packet_data dev))
      end in
    Ok (set_devices_discovered
          (<[address := dev]> (_devices_discovered self)) self)).

Definition _ble_evt_sm_bond_status (bond : Z) (self : Backend)
  : Result Backend :=
  if _bond_expected self
  then Ok (set_bonded true (set_bond_expected false self))
  else Ok (set_stored_bonds (_stored_bonds self ++ [bond]) self).

Definition _ble_evt_sm_bonding_fail (result : Z) (self : Backend)
  : Result Backend :=
  Ok (set_event_return result (set_bonding_fail true self)).

(** *** Response handlers *)

Definition _ble_rsp_attclient_attribute_write (result : Z)
    (self : Backend) : Result Backend :=
  Ok (set_response_return result self).

Definition _ble_rsp_attclient_find_information (result : Z)
    (self : Backend) : Result Backend :=
  Ok (set_response_return result self).

Definition _ble_rsp_attclient_read_by_handle (result : Z)
    (self : Backend) : Result Backend :=
  Ok (set_response_return result self).

Definition _ble_rsp_connection_disconnect (result : Z)
    (self : Backend) : Result Backend :=
  Ok (set_response_return result self).

Definition _ble_rsp_connection_get_rssi (rssi : Z)
    (self : Backend) : Result Backend :=
  Ok (set_response_return rssi self).

Definition _ble_rsp_gap_connect_direct (result : Z)
    (self : Backend) : Result Backend :=
  Ok (set_response_return result self).

Definition _ble_rsp_gap_discover (result : Z)
    (self : Backend) : Result Backend :=
  Ok (set_response_return result self).

Definition _ble_rsp_gap_end_procedure (result : Z)
    (self : Backend) : Result Backend :=
  Ok (set_response_return result self).

Definition _ble_rsp_gap_set_mode (result : Z)
    (self : Backend) : Result Backend :=
  Ok (set_response_return result self).

Definition _ble_rsp_gap_set_scan_parameters (result : Z)
    (self : Backend) : Result Backend :=
  Ok (set_response_return result self).

Definition _ble_rsp_sm_delete_bonding (result : Z)
    (self : Backend) : Result Backend :=
  Ok (set_response_return result self).

Definition _ble_rsp_sm_encrypt_start (result : Z)
    (self : Backend) : Result Backend :=
  Ok (set_response_return result self).

Definition _ble_rsp_sm_get_bonds (bonds : Z)
    (self : Backend) : Result Backend :=
  Ok (set_num_bonds bonds self).

Definition _ble_rsp_sm_set_bondable_mode (self : Backend)
  : Result Backend :=
  Ok self.

(** *** The handler table *)

(** [self._packet_handlers[packet_type](args)]: every member of
    [PacketType] has an entry, [_generic_handler] by default. *)
Definition _packet_handlers (packet : Packet.t) (self : Backend)
  : Result Backend :=
  match packet with
  | Packet.ble_rsp_attclient_attribute_write _ result =>
      _ble_rsp_attclient_attribute_write result self
  | Packet.ble_rsp_attclient_find_information _ result =>
      _ble_rsp_attclient_find_information result self
  | Packet.ble_rsp_attclient_read_by_handle _ result =>
      _ble_rsp_attclient_read_by_handle result self
  | Packet.ble_rsp_connection_disconnect _ result =>
      _ble_rsp_connection_disconnect result self
  | Packet.ble_rsp_connection_get_rssi _ rssi =>
      _ble_rsp_connection_get_rssi rssi self
  | Packet.ble_rsp_gap_connect_direct result _ =>
      _ble_rsp_gap_connect_direct result self
  | Packet.ble_rsp_gap_discover result => _ble_rsp_gap_discover result self
  | Packet.ble_rsp_gap_end_procedure result =>
      _ble_rsp_gap_end_procedure result self
  | Packet.ble_rsp_gap_set_mode result => _ble_rsp_gap_set_mode result self
  | Packet.ble_rsp_gap_set_scan_parameters result =>
      _ble_rsp_gap_set_scan_parameters result self
  | Packet.ble_rsp_sm_delete_bonding result =>
      _ble_rsp_sm_delete_bonding result self
  | Packet.ble_rsp_sm_encrypt_start _ result =>
      _ble_rsp_sm_encrypt_start result self
  | Packet.ble_rsp_sm_get_bonds bonds => _ble_rsp_sm_get_bonds bonds self
  | Packet.ble_rsp_sm_set_bondable_mode =>
      _ble_rsp_sm_set_bondable_mode self
  | Packet.ble_evt_attclient_attribute_value _ _ _ value =>
      _ble_evt_attclient_attribute_value value self
  | Packet.ble_evt_attclient_find_information_found _ chrhandle uuid =>
      _ble_evt_attclient_find_information_found chrhandle uuid self
  | Packet.ble_evt_attclient_procedure_completed _ result _ =>
      _ble_evt_attclient_procedure_completed result self
  | Packet.ble_evt_connection_status connection flags _ _ _ _ _ _ =>
      _ble_evt_connection_status connection flags self
  | Packet.ble_evt_connection_disconnected _ reason =>
      _ble_evt_connection_disconnected reason self
  | Packet.ble_evt_gap_scan_response rssi packet_type sender _ _ data =>
      _ble_evt_gap_scan_response rssi packet_type sender data self
  | Packet.ble_evt_sm_bond_status bond _ _ _ =>
      _ble_evt_sm_bond_status bond self
  | Packet.ble_evt_sm_bonding_fail result =>
      _ble_evt_sm_bonding_fail result self
  | Packet.other _ => _generic_handler self
  end.

End Handlers.

(** ** The environment of the caller's thread *)

(** One call [self._recvr_queue.get(block=True, timeout=0.1)]: the time it
    took, in milliseconds, and the packet it returned, [None] when it
    raised [Queue.Empty]. *)
Record Poll : Type := mkPoll { took : Z; item : option Packet.t }.

(** The reading of [time.time()], in milliseconds, and the results of the
    calls of [get] to come, in order.  Time passes in [get] and in
    [time.sleep] only.  The list is what is observed of the receiver
    thread: an operation that has used it up and polls again is reported
    as still waiting. *)
Record Env : Type := mkEnv { clock : Z; polls : list Poll }.

(** How a call of an operation ends within the observed polls. *)
Inductive Outcome (A : Type) : Type :=
  | Returned (a : A) (self : Backend) (env : Env)
  | Raised (e : Exn) (self : Backend) (env : Env)
  | Waiting (self : Backend).

Arguments Returned {A} a self env.
Arguments Raised {A} e self env.
Arguments Waiting {A} self.

(** An operation of the backend. *)
Definition Op (A : Type) : Type := Backend -> Env -> Outcome A.

#[global] Instance Op_ret : MRet Op :=
  fun A a self env => Returned a self env.

#[global] Instance Op_bind : MBind Op :=
  fun A B k m self env =>
    match m self env with
    | Returned a self' env' => k a self' env'
    | Raised e self' env' => Raised e self' env'
    | Waiting self' => Waiting self'
    end.

Definition raise {A : Type} (e : Exn) : Op A :=
  fun self env => Raised e self env.

Definition get_self : Op Backend :=
  fun self env => Returned self self env.

Definition modify (f : Backend -> Backend) : Op unit :=
  fun self env => Returned tt (f self) env.

(** [self._lib.send_command(self._ser, cmd)] *)
Definition send_command (cmd : Command) : Op unit :=
  modify (fun self => set_ser (_ser self ++ [cmd]) self).

(** [time.sleep(ms / 1000)] *)
Definition sleep (ms : Z) : Op unit :=
  fun self env => Returned tt self (mkEnv (clock env + ms) (polls env)).

Section Operations.

Context {cat : Catalogue}.

(** *** Waiting for a packet *)

(** The test at the head of the loop of [_process_packets_until]. *)
Definition timed_out (timeout : option Z) (start_time now : Z) : bool :=
  match timeout with
  | Some t => bool_decide (t <= now - start_time)
  | None => false
  end.

(** The loop [while not found] of [_process_packets_until], one
    iteration per poll. *)
Fixpoint process_packets (expected_packet_choices : list PacketType.t)
    (timeout : option Z) (exception_type : Exn) (start_time : Z)
    (queue : list Poll) (now : Z) (self : Backend) : Outcome unit :=
  if timed_out timeout start_time now
  then Raised exception_type self (mkEnv now queue)
  else
    match queue with
    | [] => Waiting self
    | poll :: queue' =>
        let now' := now + took poll in
        match item poll with
        | None =>
            process_packets expected_packet_choices timeout exception_type
              start_time queue' now' self
        | Some packet =>
            let found :=
              bool_decide
                (Packet.packet_type packet ∈ expected_packet_choices) in
            match _packet_handlers packet self with
            | inl e => Raised e self (mkEnv now' queue')
            | inr self' =>
                if found then Returned tt self' (mkEnv now' queue')
                else
                  process_packets expected_packet_choices timeout
                    exception_type start_time queue' now' self'
            end
        end
    end.

Definition _process_packets_until
    (expected_packet_choices : list PacketType.t) (timeout : option Z)
    (exception_type : Exn) : Op unit :=
  fun self env =>
    process_packets expected_packet_choices timeout exception_type
      (clock env) (polls env) (clock env) self.

Definition _check_connection (check_if_connected : bool) : Op unit :=
  self ← get_self;
  if negb (_connected self) && check_if_connected
  then raise NotConnectedError
  else if _connected self && negb check_if_connected
  then raise BGAPIError
  else mret tt.

(** *** Operations *)

Definition connect (address : list Z) (timeout : Z) (addr_type : Z)
  : Op unit :=
  let bd_addr := address in
  let interval_min := 6 in
  let interval_max := 30 in
  let supervision_timeout := 20 in
  let latency := 0 in
  send_command
    (ble_cmd_gap_connect_direct bd_addr addr_type interval_min interval_max
       supervision_timeout latency);;
  (* Wait for response *)
  _process_packets_until [PacketType.ble_rsp_gap_connect_direct]
    None BGAPIError;;
  self ← get_self;
  if negb (_response_return self =? 0) then raise BGAPIError
  else
    (* Wait for event *)
    _process_packets_until [PacketType.ble_evt_connection_status]
      (Some timeout) NotConnectedError.

Definition disconnect (fail_quietly : bool) : Op unit :=
  self ← get_self;
  send_command (ble_cmd_connection_disconnect (_connection_handle self));;
  (* Wait for response *)
  _process_packets_until [PacketType.ble_rsp_connection_disconnect]
    None BGAPIError;;
  self ← get_self;
  if negb (_response_return self =? 0) then
    if fail_quietly then mret tt else raise BGAPIError
  else
    (* Wait for event *)
    _process_packets_until [PacketType.ble_evt_connection_disconnected]
      None BGAPIError.

Definition _get_rssi_once : Op Z :=
  _check_connection true;;
  self ← get_self;
  send_command (ble_cmd_connection_get_rssi (_connection_handle self));;
  (* Wait for response *)
  _process_packets_until
    [PacketType.ble_rsp_connection_get_rssi;
     PacketType.ble_evt_connection_disconnected] None BGAPIError;;
  _check_connection true;;
  self ← get_self;
  mret (_response_return self).

(** The loop [for i in range(0, num_attempts)] of [get_rssi] with
    [attempts_left] iterations to go, and what follows it. *)
Fixpoint get_rssi_attempts (attempts_left : nat) : Op Z :=
  match attempts_left with
  | O => raise BGAPIError
  | S attempts_left' =>
      rssi ← _get_rssi_once;
      if negb (rssi =? 25) then mret rssi
      else sleep 100;; get_rssi_attempts attempts_left'
  end.

Definition get_rssi : Op Z :=
  let num_attempts := 3%nat in
  get_rssi_attempts num_attempts.

(** The condition of the loop [while] of [bond]. *)
Definition bond_pending (self : Backend) : bool :=
  negb (_bonding_fail self) && _connected self
  && negb (_bonded self) && negb (_encrypted self).

(** The loop [while] of [bond].  Every iteration that completes takes at
    least one poll, so the number of polls at hand bounds the number of
    iterations: [fuel] is that bound, and running out of it coincides
    with polling an exhausted queue. *)
Fixpoint bond_wait_for_event (fuel : nat) : Op unit :=
  fun self env =>
    if bond_pending self then
      match fuel with
      | O => Waiting self
      | S fuel' =>
          (_process_packets_until
             [PacketType.ble_evt_connection_status;
              PacketType.ble_evt_sm_bonding_fail;
              PacketType.ble_evt_connection_disconnected] None BGAPIError;;
           bond_wait_for_event fuel') self env
      end
    else Returned tt self env.

(** [bond], up to and including the check of the response to
    [encrypt_start]. *)
Definition bond_begin : Op unit :=
  (* Make sure there is a connection *)
  _check_connection true;;
  (* Set to bondable mode *)
  modify (set_bond_expected true);;
  send_command (ble_cmd_sm_set_bondable_mode Bondable_yes);;
  (* Wait for response *)
  _process_packets_until
    [PacketType.ble_rsp_sm_set_bondable_mode;
     PacketType.ble_evt_connection_disconnected] None BGAPIError;;
  _check_connection true;;
  (* Begin encryption and bonding *)
  modify (set_bonding_fail false);;
  self ← get_self;
  send_command
    (ble_cmd_sm_encrypt_start (_connection_handle self)
       Bonding_create_bonding);;
  (* Wait for response *)
  _process_packets_until
    [PacketType.ble_rsp_sm_encrypt_start;
     PacketType.ble_evt_connection_disconnected] None BGAPIError;;
  _check_connection true;;
  self ← get_self;
  if negb (_response_return self =? 0) then raise BGAPIError
  else mret tt.

(** [bond], from the loop [while] to the end. *)
Definition bond_end : Op unit :=
  (* Wait for event *)
  (fun self env => bond_wait_for_event (length (polls env)) self env);;
  _check_connection true;;
  self ← get_self;
  if _bonding_fail self then raise BGAPIError
  else mret tt.

Definition bond : Op unit := bond_begin;; bond_end.

(** [attribute_write(attribute, value)], with [attribute.handle] for
    [attribute]. *)
Definition attribute_write (attribute_handle : Z) (value : list Z)
  : Op unit :=
  (* Make sure there is a connection *)
  _check_connection true;;
  (* Write to characteristic *)
  let value_list := value in
  self ← get_self;
  send_command
    (ble_cmd_attclient_attribute_write (_connection_handle self)
       attribute_handle value_list);;
  (* Wait for response *)
  _process_packets_until
    [PacketType.ble_rsp_attclient_attribute_write;
     PacketType.ble_evt_connection_disconnected] None BGAPIError;;
  _check_connection true;;
  self ← get_self;
  if negb (_response_return self =? 0) then raise BGAPIError
  else
    (* Wait for event *)
    _process_packets_until
      [PacketType.ble_evt_attclient_procedure_completed;
       PacketType.ble_evt_connection_disconnected] None BGAPIError;;
    modify (set_procedure_completed false);;
    _check_connection true;;
    self ← get_self;
    if negb (_event_return self =? 0) then raise BGAPIError
    else mret tt.

(** The search for the client characteristic configuration descriptor
    in [subscribe]: the first one in the list, [None] when there is
    none. *)
Definition find_cccd (descriptors : list gatt.Descriptor)
  : option gatt.Descriptor :=
  find
    (fun d =>
       bool_decide
         (gatt.descriptor_type d = gatt.client_characteristic_configuration))
    descriptors.

Definition subscribe (characteristic : gatt.Characteristic)
    (notifications indications : bool) (callback : option Callback)
  : Op unit :=
  if negb (notifications || indications) then raise AssertionError
  else if indications then raise NotImplementedError
  else
    match find_cccd (gatt.descriptors characteristic) with
    | None => raise BGAPIError
    | Some cccd =>
        let config_byte := 0 in
        let config_byte :=
          if notifications then Z.lor config_byte 1 else config_byte in
        let config_byte :=
          if indications then Z.lor config_byte 2 else config_byte in
        let config_val := [config_byte; 0] in
        attribute_write (gatt.d_handle cccd) config_val;;
        match callback with
        | Some cb =>
            modify
              (fun self =>
                 set_callbacks
                   (<[gatt.c_handle characteristic := cb]>
                      (_callbacks self)) self)
        | None => mret tt
        end
    end.

End Operations.

(** ** Vocabulary of the statements *)

Section Vocabulary.

Context {cat : Catalogue}.

(** The handlers of a list of packets, applied in order; the first
    exception ends the run. *)
Fixpoint apply_all (packets : list Packet.t) (self : Backend)
  : Result Backend :=
  match packets with
  | [] => Ok self
  | packet :: packets' =>
      and_then (_packet_handlers packet self) (apply_all packets')
  end.

(** The packets a list of polls delivers. *)
Definition delivered (queue : list Poll) : list Packet.t :=
  omap item queue.

(** The time a list of polls takes. *)
Definition elapsed (queue : list Poll) : Z :=
  foldr (fun poll t => took poll + t) 0 queue.

(** Popping [queue] off the front of the polls and applying the handler
    of each packet in it, [rest] being left in the queue: the run
    returns after the last poll, or raises what the first failing
    handler raises. *)
Fixpoint apply_handlers (queue rest : list Poll) (now : Z)
    (self : Backend) : Outcome unit :=
  match queue with
  | [] => Returned tt self (mkEnv now rest)
  | poll :: queue' =>
      let now' := now + took poll in
      match item poll with
      | None => apply_handlers queue' rest now' self
      | Some packet =>
          match _packet_handlers packet self with
          | inl e => Raised e self (mkEnv now' (queue' ++ rest))
          | inr self' => apply_handlers queue' rest now' self'
          end
      end
  end.

(** A poll that does not deliver a packet of one of the kinds waited
    for. *)
Definition unexpected (expected_packet_choices : list PacketType.t)
    (poll : Poll) : Prop :=
  forall packet,
    item poll = Some packet ->
    Packet.packet_type packet ∉ expected_packet_choices.

(** The wait has not timed out at the head of any of the iterations that
    pop the polls of [queue], nor at the head of the next one. *)
Definition in_time (timeout : option Z) (queue : list Poll) : Prop :=
  forall k, (k <= length queue)%nat ->
    timed_out timeout 0 (elapsed (take k queue)) = false.

(** The state in which a call ends or is left waiting. *)
Definition final_state {A : Type} (o : Outcome A) : Backend :=
  match o with
  | Returned _ self _ => self
  | Raised _ self _ => self
  | Waiting self => self
  end.

(** The [gatt.Uuid] the find-information handler builds from the bytes
    of the event. *)
Definition uuid_of (uuid_arg : list Z) : gatt.Uuid :=
  gatt.mkUuid (hexlify (rev uuid_arg)).

(** The key of a device in [_devices_discovered]. *)
Definition address_of (sender : list Z) : string :=
  join ":" (rev (map format_02x sender)).

(** [self._devices_discovered[address]['packet_data'][packet_type]] *)
Definition stored_packet_data (self : Backend) (address : string)
    (packet_type : option string) : option (gmap string FieldValue) :=
  match _devices_discovered self !! address with
  | Some dev => packet_data dev !! packet_type
  | None => None
  end.

(** [self._devices_discovered[address]['name']] *)
Definition stored_name (self : Backend) (address : string)
  : option string :=
  dev_name <$> _devices_discovered self !! address.

(** The state after the handlers of a list of packets, a handler that
    raises leaving the state as it was. *)
Definition after_handlers (packets : list Packet.t) (self : Backend)
  : Backend :=
  fold_left
    (fun self packet =>
       match _packet_handlers packet self with
       | inr self' => self'
       | inl _ => self
       end)
    packets self.

(** The events of the life of a connection. *)
Definition lifecycle (packet : Packet.t) : bool :=
  match packet with
  | Packet.ble_evt_connection_status _ _ _ _ _ _ _ _ => true
  | Packet.ble_evt_connection_disconnected _ _ => true
  | _ => false
  end.

Definition is_disconnection (packet : Packet.t) : bool :=
  match packet with
  | Packet.ble_evt_connection_disconnected _ _ => true
  | _ => false
  end.

(** The most recent life-cycle event of a history, oldest first. *)
Definition last_lifecycle (history : list Packet.t) : option Packet.t :=
  last (filter (fun p => lifecycle p = true) history).

(** The branches of the find-information handler that index
    [self._services[-1].characteristics[-1]], and those that index
    [self._services[-1]]. *)
Definition indexes_last_characteristic (uuid : gatt.Uuid) : bool :=
  (Uuid_len uuid =? 128)
  || match UUID_STRING_TO_ATTRIBUTE_TYPE !! Uuid_str uuid with
     | Some _ => false
     | None =>
         match UUID_STRING_TO_CHARACTERISTIC_TYPE !! Uuid_str uuid with
         | Some _ => true
         | None =>
             bool_decide
               (is_Some (UUID_STRING_TO_DESCRIPTOR_TYPE !! Uuid_str uuid))
         end
     end.

Definition indexes_last_service (uuid : gatt.Uuid) : bool :=
  indexes_last_characteristic uuid
  || bool_decide
       (UUID_STRING_TO_ATTRIBUTE_TYPE !! Uuid_str uuid
        = Some gatt.characteristic).

(** The number of [get_rssi] commands in a list of commands. *)
Definition is_get_rssi (cmd : Command) : bool :=
  match cmd with
  | ble_cmd_connection_get_rssi _ => true
  | _ => false
  end.

Definition count_get_rssi (cmds : list Command) : nat :=
  length (filter (fun cmd => is_get_rssi cmd = true) cmds).

(** The state after [connect] has written its command. *)
Definition connect_sent (address : list Z) (addr_type : Z) (self : Backend)
  : Backend :=
  set_ser
    (_ser self ++ [ble_cmd_gap_connect_direct address addr_type 6 30 20 0])
    self.

(** The exceptions a handler can raise. *)
Definition handler_exn (e : Exn) : Prop :=
  e = IndexError \/ e = AttributeError \/ e = UnicodeDecodeError.

(** The state after [disconnect] has written its command. *)
Definition disconnect_sent (self : Backend) : Backend :=
  set_ser
    (_ser self ++ [ble_cmd_connection_disconnect (_connection_handle self)])
    self.

(** The environment after the [time.sleep(0.1)] of [get_rssi]. *)
Definition slept (env : Env) : Env := mkEnv (clock env + 100) (polls env).

(** The UUIDs that take the find-information handler to the branch that
    appends a service, a characteristic, or a descriptor. *)
Definition is_service_uuid (sec : bool) (uuid : gatt.Uuid) : Prop :=
  Uuid_len uuid <> 128
  /\ UUID_STRING_TO_ATTRIBUTE_TYPE !! Uuid_str uuid
     = Some (if sec then gatt.secondary_service else gatt.primary_service).

Definition is_characteristic_uuid (uuid : gatt.Uuid) : Prop :=
  Uuid_len uuid <> 128
  /\ UUID_STRING_TO_ATTRIBUTE_TYPE !! Uuid_str uuid = Some gatt.characteristic.

Definition is_descriptor_uuid (desc_type : gatt.DescriptorType)
    (uuid : gatt.Uuid) : Prop :=
  Uuid_len uuid <> 128
  /\ UUID_STRING_TO_ATTRIBUTE_TYPE !! Uuid_str uuid = None
  /\ UUID_STRING_TO_CHARACTERISTIC_TYPE !! Uuid_str uuid = None
  /\ UUID_STRING_TO_DESCRIPTOR_TYPE !! Uuid_str uuid = Some desc_type.

(** A service with one more characteristic, and a characteristic with one
    more descriptor. *)
Definition with_characteristic (s : gatt.Service) (c : gatt.Characteristic)
  : gatt.Service :=
  gatt.mkService (gatt.s_handle s) (gatt.s_uuid s) (gatt.secondary s)
    (gatt.characteristics s ++ [c]).

Definition with_descriptor (c : gatt.Characteristic) (d : gatt.Descriptor)
  : gatt.Characteristic :=
  gatt.mkCharacteristic (gatt.c_handle c) (gatt.c_uuid c) (gatt.custom c)
    (gatt.characteristic_type_of c) (gatt.descriptors c ++ [d]).

(** A service with its last characteristic replaced. *)
Definition with_last_characteristic (s : gatt.Service)
    (front : list gatt.Characteristic) (c : gatt.Characteristic)
  : gatt.Service :=
  gatt.mkService (gatt.s_handle s) (gatt.s_uuid s) (gatt.secondary s)
    (front ++ [c]).

(** The loop [while] of [bond] as [bond] runs it. *)
Definition bond_loop : Op unit :=
  fun self env => bond_wait_for_event (length (polls env)) self env.

(** The kinds the loop of [bond] waits for. *)
Definition bond_events : list PacketType.t :=
  [PacketType.ble_evt_connection_status;
   PacketType.ble_evt_sm_bonding_fail;
   PacketType.ble_evt_connection_disconnected].

(** The polls of a bonding in which the status event that reports the
    encryption arrives before the bond-status event. *)
Definition bonding_polls : list Poll :=
  [ mkPoll 10 (Some Packet.ble_rsp_sm_set_bondable_mode);
    mkPoll 10 (Some (Packet.ble_rsp_sm_encrypt_start 0 0));
    mkPoll 50 (Some (Packet.ble_evt_connection_status 0 3 [] 0 0 0 0 0));
    mkPoll 50 (Some (Packet.ble_evt_sm_bond_status 0 16 0 7)) ].

(** The registration that ends [subscribe]. *)
Definition register_callback (characteristic : gatt.Characteristic)
    (callback : option Callback) : Op unit :=
  match callback with
  | Some cb =>
      modify
        (fun self =>
           set_callbacks
             (<[gatt.c_handle characteristic := cb]> (_callbacks self)) self)
  | None => mret tt
  end.

(** A characteristic with a client characteristic configuration
    descriptor, a connected state, and the polls of a write that
    succeeds. *)
Definition heart_rate_measurement : gatt.Characteristic :=
  gatt.mkCharacteristic 2 (gatt.mkUuid "2a37") false None
    [ gatt.mkDescriptor 3 (gatt.mkUuid "2902")
        gatt.client_characteristic_configuration ].

Definition write_succeeds : list Poll :=
  [ mkPoll 10 (Some (Packet.ble_rsp_attclient_attribute_write 0 0));
    mkPoll 40 (Some (Packet.ble_evt_attclient_procedure_completed 0 0 3)) ].

(** *** Further operations *)

(** [encrypt].  [bondable_no] and [do_not_create_bonding] stand for
    [constants.Bondable.no.value] and
    [constants.Bonding.do_not_create_bonding.value]. *)
Definition encrypt (bondable_no do_not_create_bonding : Z) : Op unit :=
  (* Make sure there is a connection *)
  _check_connection true;;
  (* Set to non-bondable mode *)
  send_command (ble_cmd_sm_set_bondable_mode bondable_no);;
  (* Wait for response *)
  _process_packets_until
    [PacketType.ble_rsp_sm_set_bondable_mode;
     PacketType.ble_evt_connection_disconnected] None BGAPIError;;
  _check_connection true;;
  (* Start encryption *)
  self ← get_self;
  send_command
    (ble_cmd_sm_encrypt_start (_connection_handle self)
       do_not_create_bonding);;
  (* Wait for response *)
  _process_packets_until
    [PacketType.ble_rsp_sm_encrypt_start;
     PacketType.ble_evt_connection_disconnected] None BGAPIError;;
  _check_connection true;;
  self ← get_self;
  if negb (_response_return self =? 0) then raise BGAPIError
  else
    (* Wait for event *)
    _process_packets_until
      [PacketType.ble_evt_connection_status;
       PacketType.ble_evt_connection_disconnected] None BGAPIError;;
    _check_connection true;;
    self ← get_self;
    if negb (_encrypted self) then raise BGAPIError
    else mret tt.

(** *** The receiver thread *)

(** What the receiver thread has done with the packets it completed: the
    packets put on [_recvr_queue], oldest first, and the callback threads
    started, each with its callback and the value it is given. *)
Record Receiver : Type := mkReceiver {
  queued : list Packet.t;
  started : list (Callback * list Z)
}.

(** The body of the loop of [_recv_packets] for a completed packet:
    [callbacks] is the copy of [self._callbacks] taken under the lock. *)
Definition recv_packet (callbacks : gmap Z Callback) (packet : Packet.t)
    (r : Receiver) : Receiver :=
  match packet with
  | Packet.ble_evt_attclient_attribute_value _ atthandle _ value =>
      match callbacks !! atthandle with
      | Some callback =>
          (* This is a notification/indication. Handle now. *)
          mkReceiver (queued r) (started r ++ [(callback, value)])
      | None => mkReceiver (queued r ++ [packet]) (started r)
      end
  | _ => mkReceiver (queued r ++ [packet]) (started r)
  end.

(** The loop of [_recv_packets] over the packets [parse_byte] completes,
    each with the registry as it is when the lock is taken for it. *)
Definition _recv_packets (arrivals : list (gmap Z Callback * Packet.t))
    (r : Receiver) : Receiver :=
  fold_left (fun r '(callbacks, packet) => recv_packet callbacks packet r)
    arrivals r.

(** Is the packet a notification for the registry? *)
Definition is_notification (callbacks : gmap Z Callback)
    (packet : Packet.t) : bool :=
  match packet with
  | Packet.ble_evt_attclient_attribute_value _ atthandle _ _ =>
      bool_decide (is_Some (callbacks !! atthandle))
  | _ => false
  end.

(** The packets a wait pops that can make a handler raise. *)
Definition fragile (packet : Packet.t) : bool :=
  match packet with
  | Packet.ble_evt_attclient_find_information_found _ _ _ => true
  | Packet.ble_evt_gap_scan_response _ _ _ _ _ _ => true
  | _ => false
  end.

(** [self._devices_discovered[address]['rssi']] *)
Definition stored_rssi (self : Backend) (address : string) : option Z :=
  dev_rssi <$> _devices_discovered self !! address.

(** The bond-status events with the given handles. *)
Definition bond_status_events (bonds : list Z) : list Packet.t :=
  map (fun bond => Packet.ble_evt_sm_bond_status bond 0 0 0) bonds.

(** *** Advertising data *)

(** A field of advertising data on the wire: the length of what follows,
    the type byte, the payload. *)
Definition encode_field (type_byte : Z) (payload : list Z) : list Z :=
  (Z.of_nat (length payload) + 1) :: type_byte :: payload.

Definition encode_fields (fields : list (Z * list Z)) : list Z :=
  concat (map (fun '(type_byte, payload) => encode_field type_byte payload)
            fields).

(** The member of [ScanResponseDataType] the parser finds for a type
    byte. *)
Definition data_type_of (type_byte : Z) : option EnumMember :=
  find (fun s => value s =? type_byte) ScanResponseDataType.

(** A type byte of a member that the parser stores as a [bytearray]:
    neither a local name nor the list of 128-bit UUIDs. *)
Definition plain_type (type_byte : Z) (member : EnumMember) : Prop :=
  data_type_of type_byte = Some member
  /\ member <> complete_local_name
  /\ member <> shortened_local_name
  /\ member <> complete_list_128_bit_service_class_uuids.

(** The dictionary of plain fields: a later field replaces an earlier one
    of the same name. *)
Definition store_plain (fields : list (EnumMember * list Z))
    (data_dict : gmap string FieldValue) : gmap string FieldValue :=
  fold_left
    (fun d '(member, payload) =>
       <[name member := field_bytearray payload]> d)
    fields data_dict.

(** A field cut short: the length byte announces more bytes than
    follow. *)
Definition truncated (tail : list Z) : Prop :=
  tail = []
  \/ exists len partial,
       tail = len :: partial /\ Z.of_nat (length partial) < len.

(** The callback and the value of the thread the receiver starts for a
    packet, [None] when it starts none. *)
Definition notification_of (callbacks : gmap Z Callback)
    (packet : Packet.t) : option (Callback * list Z) :=
  match packet with
  | Packet.ble_evt_attclient_attribute_value _ atthandle _ value =>
      (fun callback => (callback, value)) <$> callbacks !! atthandle
  | _ => None
  end.

(** *** Runs of operations *)

(** The state after a command has been written to the dongle. *)
Definition after_send (cmd : Command) (self : Backend) : Backend :=
  set_ser (_ser self ++ [cmd]) self.

(** A wait for [expected] from [self] pops the polls [pre], none of which
    delivers an expected packet, then pops the expected packet [m], and no
    handler raises: [self'] is the state after the handler of [m]. *)
Definition leads_to (expected : list PacketType.t) (pre : list Poll)
    (m : Packet.t) (self self' : Backend) : Prop :=
  Forall (unexpected expected) pre
  /\ Packet.packet_type m ∈ expected
  /\ apply_all (delivered pre ++ [m]) self = Ok self'.

(** The kinds the waits for a response and for the end of a procedure
    accept, the disconnected event being one of them. *)
Definition or_disconnected (kind : PacketType.t) : list PacketType.t :=
  [kind; PacketType.ble_evt_connection_disconnected].

(** The name a scan-response event brings for [address]: the one its data
    parse to, when the event is of that address and its handler
    completes. *)
Definition advertised_name (address : string) (packet : Packet.t)
  : option string :=
  match packet with
  | Packet.ble_evt_gap_scan_response _ _ sender _ _ data =>
      if bool_decide (address_of sender = address)
      then
        match _scan_rsp_data data with
        | inr (name, _) => Some name
        | inl _ => None
        end
      else None
  | _ => None
  end.

(** The first name of a list that is not empty; the empty name when all
    are empty, and no name when there is none. *)
Fixpoint first_name (names : list string) : option string :=
  match names with
  | [] => None
  | name :: names' =>
      Some (if bool_decide (name = EmptyString)
            then default EmptyString (first_name names')
            else name)
  end.

Definition is_bond_status (packet : Packet.t) : bool :=
  match packet with
  | Packet.ble_evt_sm_bond_status _ _ _ _ => true
  | _ => false
  end.

(** The events that write [_bonded]: the disconnected event and the
    bond-status event. *)
Definition bonding (packet : Packet.t) : bool :=
  is_disconnection packet || is_bond_status packet.

(** The most recent of them in a history, oldest first. *)
Definition last_bonding (history : list Packet.t) : option Packet.t :=
  last (filter (fun p => bonding p = true) history).

End Vocabulary.

(** ** A catalogue to run the model on *)

(** ASCII, the part of UTF-8 the examples need: a byte above 127 is
    rejected. *)
Fixpoint decode_ascii (l : list Z) : option string :=
  match l with
  | [] => Some EmptyString
  | b :: l' =>
      if (0 <=? b) && (b <? 128)
      then String (ascii_of_nat (Z.to_nat b)) <$> decode_ascii l'
      else None
  end.

(** The values of the Bluegiga API for the constants, the 16-bit UUIDs of
    the GATT declarations for the tables, and a [Uuid] whose length is
    that of its hexadecimal string, in bits. *)
Definition bluegiga : Catalogue :=
  {| ConnectionStatusFlag_connected := 1;
     ConnectionStatusFlag_encrypted := 2;
     Bondable_yes := 1;
     Bonding_create_bonding := 1;
     ScanResponsePacketType :=
       [ mkEnumMember "connectable_advertisement_packet" 0;
         mkEnumMember "non-connectable_advertisement_packet" 2;
         mkEnumMember "scan_response_packet" 4;
         mkEnumMember "discoverable_advertisement_packet" 6 ];
     ScanResponseDataType :=
       [ mkEnumMember "flags" 1;
         mkEnumMember "complete_list_128_bit_service_class_uuids" 7;
         mkEnumMember "shortened_local_name" 8;
         mkEnumMember "complete_local_name" 9;
         mkEnumMember "tx_power_level" 10;
         mkEnumMember "manufacturer_specific_data" 255 ];
     complete_local_name := mkEnumMember "complete_local_name" 9;
     shortened_local_name := mkEnumMember "shortened_local_name" 8;
     complete_list_128_bit_service_class_uuids :=
       mkEnumMember "complete_list_128_bit_service_class_uuids" 7;
     decode_utf8 := decode_ascii;
     Uuid_len := fun u => 4 * Z.of_nat (String.length (gatt.uuid_str_arg u));
     Uuid_str := gatt.uuid_str_arg;
     UUID_STRING_TO_ATTRIBUTE_TYPE :=
       list_to_map
         [ ("2800", gatt.primary_service);
           ("2801", gatt.secondary_service);
           ("2802", gatt.other_attribute_type "include");
           ("2803", gatt.characteristic) ];
     UUID_STRING_TO_CHARACTERISTIC_TYPE :=
       list_to_map [ ("2a00", gatt.characteristic_type "device_name") ];
     UUID_STRING_TO_DESCRIPTOR_TYPE :=
       list_to_map
         [ ("2901", gatt.other_descriptor_type "characteristic_user_description");
           ("2902", gatt.client_characteristic_configuration) ] |}.

(** * Properties *)

(** ** The wait loop *)

Section Waiter.

Context {cat : Catalogue}.

Lemma timed_out_shift timeout start x :
  timed_out timeout start (start + x) = timed_out timeout 0 x.
Proof.
  destruct timeout as [t|]; simpl; [|reflexivity].
  apply bool_decide_ext. lia.
Qed.

Lemma elapsed_app q1 q2 : elapsed (q1 ++ q2) = elapsed q1 + elapsed q2.
Proof.
  induction q1 as [|poll q1 IH]; simpl; [reflexivity|].
  unfold elapsed in *. simpl. rewrite IH. lia.
Qed.

Lemma elapsed_cons poll q : elapsed (poll :: q) = took poll + elapsed q.
Proof. reflexivity. Qed.

(** As long as no expected packet is popped and the wait is in time, the
    loop is the plain application of the handlers. *)
Lemma process_packets_match expected timeout exn start dt m post :
  Packet.packet_type m ∈ expected ->
  forall pre now self,
    Forall (unexpected expected) pre ->
    (forall k, (k <= length pre)%nat ->
       timed_out timeout start (now + elapsed (take k pre)) = false) ->
    process_packets expected timeout exn start
      (pre ++ mkPoll dt (Some m) :: post) now self
    = apply_handlers (pre ++ [mkPoll dt (Some m)]) post now self.
Proof.
  intros Hm pre. induction pre as [|poll pre IH]; intros now self Hpre Ht.
  - simpl. specialize (Ht 0%nat (le_n _)). simpl in Ht.
    unfold elapsed in Ht. simpl in Ht. rewrite Z.add_0_r in Ht. rewrite Ht.
    destruct (_packet_handlers m self) as [e|self']; [reflexivity|].
    rewrite bool_decide_eq_true_2 by exact Hm. reflexivity.
  - inversion Hpre as [|? ? Hpoll Hpre']; subst.
    assert (Hnow : timed_out timeout start now = false).
    { specialize (Ht 0%nat (Nat.le_0_l _)). simpl in Ht.
      unfold elapsed in Ht. simpl in Ht. rewrite Z.add_0_r in Ht. exact Ht. }
    assert (Hnext : forall k, (k <= length pre)%nat ->
              timed_out timeout start (now + took poll + elapsed (take k pre))
              = false).
    { intros k Hk. specialize (Ht (S k) (le_n_S _ _ Hk)).
      rewrite firstn_cons, elapsed_cons in Ht. rewrite <- Z.add_assoc. exact Ht. }
    simpl. rewrite Hnow.
    destruct (item poll) as [packet|] eqn:Hitem.
    + destruct (_packet_handlers packet self) as [e|self'].
      * rewrite <- app_assoc. reflexivity.
      * rewrite bool_decide_eq_false_2 by (apply Hpoll; exact Hitem).
        apply IH; assumption.
    + apply IH; assumption.
Qed.

(** When no handler raises, the run returns with the state the handlers
    built, at the time the polls took. *)
Lemma apply_handlers_ok queue rest :
  forall now self self',
    apply_all (delivered queue) self = Ok self' ->
    apply_handlers queue rest now self
    = Returned tt self' (mkEnv (now + elapsed queue) rest).
Proof.
  induction queue as [|poll queue IH]; intros now self self' H.
  - simpl in *. inversion H; subst. unfold elapsed; simpl.
    rewrite Z.add_0_r. reflexivity.
  - rewrite elapsed_cons, Z.add_assoc. simpl.
    unfold delivered in H. simpl in H.
    destruct (item poll) as [packet|].
    + simpl in H. destruct (_packet_handlers packet self) as [e|self1].
      * discriminate.
      * apply IH. exact H.
    + apply IH. exact H.
Qed.

(** What a wait does up to the first packet of an accepted kind. *)
Lemma wait_match
    expected timeout exn self env pre dt m post :
  polls env = pre ++ mkPoll dt (Some m) :: post ->
  Forall (unexpected expected) pre ->
  Packet.packet_type m ∈ expected ->
  in_time timeout pre ->
  _process_packets_until expected timeout exn self env
  = apply_handlers (pre ++ [mkPoll dt (Some m)]) post (clock env) self
  /\ (forall self',
        apply_all (delivered pre ++ [m]) self = Ok self' ->
        _process_packets_until expected timeout exn self env
        = Returned tt self'
            (mkEnv (clock env + elapsed pre + dt) post)).
Proof.
  intros Hq Hpre Hm Ht.
  assert (Heq : _process_packets_until expected timeout exn self env
                = apply_handlers (pre ++ [mkPoll dt (Some m)]) post
                    (clock env) self).
  { unfold _process_packets_until. rewrite Hq.
    apply process_packets_match; [exact Hm|exact Hpre|].
    intros k Hk. rewrite timed_out_shift. apply Ht. exact Hk. }
  split; [exact Heq|].
  intros self' Hok. rewrite Heq.
  rewrite (apply_handlers_ok _ _ _ _ self').
  - rewrite elapsed_app. unfold elapsed at 2. simpl.
    rewrite Z.add_0_r, Z.add_assoc. reflexivity.
  - unfold delivered. rewrite omap_app. simpl. exact Hok.
Qed.


End Waiter.

Section WaiterExamples.

#[local] Existing Instance bluegiga.


End WaiterExamples.

(** ** What handlers raise and what they leave alone *)

Section HandlerFacts.

Context {cat : Catalogue}.

Lemma update_last_raises {A : Type} (f : A -> Result A) (l : list A) e :
  (forall x e', f x = inl e' -> e' = IndexError) ->
  update_last f l = inl e -> e = IndexError.
Proof.
  intros Hf. unfold update_last.
  destruct (unsnoc l) as [[front x]|]; simpl.
  - destruct (f x) as [e'|x'] eqn:Hx; simpl; [|discriminate].
    intros [= <-]. eapply Hf. exact Hx.
  - intros [= <-]. reflexivity.
Qed.

Lemma on_last_characteristic_raises f s e :
  (forall c e', f c = inl e' -> e' = IndexError) ->
  on_last_characteristic f s = inl e -> e = IndexError.
Proof.
  intros Hf. unfold on_last_characteristic.
  destruct (update_last f (gatt.characteristics s)) as [e'|cs] eqn:Hu; simpl.
  - intros [= <-]. eapply update_last_raises; eassumption.
  - discriminate.
Qed.

Lemma find_information_found_raises chrhandle uuid self e :
  _ble_evt_attclient_find_information_found chrhandle uuid self = inl e ->
  e = IndexError.
Proof.
  unfold _ble_evt_attclient_find_information_found.
  assert (Hchain : forall f,
    (forall c e', f c = inl e' -> e' = IndexError) ->
    and_then (update_last (on_last_characteristic f) (_services self))
      (fun ss => Ok (set_services ss self)) = inl e -> e = IndexError).
  { intros f Hf.
    destruct (update_last (on_last_characteristic f) (_services self))
      as [e'|ss] eqn:Hu; simpl; [|discriminate].
    intros [= <-]. eapply update_last_raises; [|exact Hu].
    intros s e''. apply on_last_characteristic_raises. exact Hf. }
  destruct (Uuid_len _ =? 128).
  { apply Hchain. discriminate. }
  destruct (UUID_STRING_TO_ATTRIBUTE_TYPE !! _) as [[| | |?]|].
  - discriminate.
  - discriminate.
  - destruct (update_last _ (_services self)) as [e'|ss] eqn:Hu; simpl;
      [|discriminate].
    intros [= <-]. eapply update_last_raises; [|exact Hu]. discriminate.
  - discriminate.
  - destruct (UUID_STRING_TO_CHARACTERISTIC_TYPE !! _).
    { apply Hchain. discriminate. }
    destruct (UUID_STRING_TO_DESCRIPTOR_TYPE !! _).
    { apply Hchain. discriminate. }
    discriminate.
Qed.

Lemma end_of_field_raises field_value acc e :
  end_of_field field_value acc = inl e -> handler_exn e.
Proof.
  unfold end_of_field, handler_exn. destruct acc as [dev_name data_dict].
  destruct field_value as [|type_byte field_value]; [intros [= <-]; auto|].
  set (field_type := find _ ScanResponseDataType).
  destruct (_ || _).
  { destruct (decode_utf8 _), field_type; intros [= <-]; auto. }
  destruct (bool_decide _); destruct field_type; intros [= <-]; auto.
Qed.

Lemma scan_rsp_loop_raises data :
  forall bytes_left_in_field field_value acc e,
    scan_rsp_loop data bytes_left_in_field field_value acc = inl e ->
    handler_exn e.
Proof.
  induction data as [|b data IH]; intros left fv acc e; simpl.
  - discriminate.
  - destruct (left =? 0); [apply IH|].
    destruct (left - 1 =? 0); [|apply IH].
    destruct (end_of_field (fv ++ [b]) acc) as [e'|acc'] eqn:He; simpl.
    + intros [= <-]. eapply end_of_field_raises. exact He.
    + apply IH.
Qed.

Lemma handler_raises packet self e :
  _packet_handlers packet self = inl e -> handler_exn e.
Proof.
  destruct packet; cbn [_packet_handlers]; try discriminate.
  - intros H. left. eapply find_information_found_raises. exact H.
  - unfold _ble_evt_gap_scan_response, _scan_rsp_data.
    destruct (scan_rsp_loop data 0 [] _) as [e'|[n d]] eqn:Hs; simpl.
    + intros [= <-]. eapply scan_rsp_loop_raises. exact Hs.
    + discriminate.
  - unfold _ble_evt_sm_bond_status. destruct (_bond_expected self); discriminate.
Qed.

(** A wait without a timeout raises only what a handler raises. *)
Lemma process_packets_raises expected exn start :
  forall queue now self e s env',
    process_packets expected None exn start queue now self = Raised e s env' ->
    handler_exn e.
Proof.
  induction queue as [|poll queue IH]; intros now self e s env'; simpl.
  - discriminate.
  - destruct (item poll) as [packet|]; [|apply IH].
    destruct (_packet_handlers packet self) as [e'|self'] eqn:Hh.
    + intros [= <- _ _]. eapply handler_raises. exact Hh.
    + destruct (bool_decide _); [discriminate|apply IH].
Qed.

Lemma wait_raises expected exn self env e s env' :
  _process_packets_until expected None exn self env = Raised e s env' ->
  handler_exn e.
Proof. apply process_packets_raises. Qed.

End HandlerFacts.

(** Unfolding of the plumbing of operations. *)
Ltac op_unfold :=
  cbv beta iota delta
    [mbind Op_bind mret Op_ret get_self send_command modify raise sleep
     _check_connection].

(** ** Sequencing *)

Section Sequencing.

Context {cat : Catalogue}.

Lemma bind_unfold {A B : Type} (m : Op A) (k : A -> Op B) self env :
  (m ≫= k) self env
  = match m self env with
    | Returned a self' env' => k a self' env'
    | Raised e self' env' => Raised e self' env'
    | Waiting self' => Waiting self'
    end.
Proof. reflexivity. Qed.

Lemma bind_returned {A B : Type} (m : Op A) (k : A -> Op B) self env a s e :
  m self env = Returned a s e -> (m ≫= k) self env = k a s e.
Proof. intros H. rewrite bind_unfold, H. reflexivity. Qed.

Lemma bind_raised {A B : Type} (m : Op A) (k : A -> Op B) self env x s e :
  m self env = Raised x s e -> (m ≫= k) self env = Raised x s e.
Proof. intros H. rewrite bind_unfold, H. reflexivity. Qed.

Lemma bind_waiting {A B : Type} (m : Op A) (k : A -> Op B) self env s :
  m self env = Waiting s -> (m ≫= k) self env = Waiting s.
Proof. intros H. rewrite bind_unfold, H. reflexivity. Qed.

Lemma apply_all_app l1 l2 self :
  apply_all (l1 ++ l2) self = and_then (apply_all l1 self) (apply_all l2).
Proof.
  revert self. induction l1 as [|p l1 IH]; intros self; simpl.
  - reflexivity.
  - destruct (_packet_handlers p self) as [e|self']; simpl; [reflexivity|].
    apply IH.
Qed.

Lemma delivered_app q1 q2 : delivered (q1 ++ q2) = delivered q1 ++ delivered q2.
Proof. unfold delivered. apply omap_app. Qed.

(** A wait that runs out of time after the polls of [wait], none of which
    delivers an expected packet: the handlers are applied and the
    exception of the caller's choice is raised. *)
Lemma process_packets_timeout expected timeout exn start post :
  forall wait now self,
    Forall (unexpected expected) wait ->
    (forall k, (k < length wait)%nat ->
       timed_out timeout start (now + elapsed (take k wait)) = false) ->
    timed_out timeout start (now + elapsed wait) = true ->
    process_packets expected timeout exn start (wait ++ post) now self
    = match apply_handlers wait post now self with
      | Returned _ self' env' => Raised exn self' env'
      | o => o
      end.
Proof.
  intros wait. induction wait as [|poll wait IH]; intros now self Hw Hlt Hge.
  - simpl. unfold elapsed in Hge. simpl in Hge. rewrite Z.add_0_r in Hge.
    destruct post; simpl; rewrite Hge; reflexivity.
  - inversion Hw as [|? ? Hpoll Hw']; subst.
    assert (Hnow : timed_out timeout start now = false).
    { specialize (Hlt 0%nat (Nat.lt_0_succ _)). simpl in Hlt.
      unfold elapsed in Hlt. simpl in Hlt. rewrite Z.add_0_r in Hlt.
      exact Hlt. }
    assert (Hnext : forall k, (k < length wait)%nat ->
              timed_out timeout start (now + took poll + elapsed (take k wait))
              = false).
    { intros k Hk. specialize (Hlt (S k) (proj1 (Nat.succ_lt_mono _ _) Hk)).
      rewrite firstn_cons, elapsed_cons in Hlt.
      rewrite <- Z.add_assoc. exact Hlt. }
    rewrite elapsed_cons, Z.add_assoc in Hge.
    simpl. rewrite Hnow.
    destruct (item poll) as [packet|] eqn:Hitem.
    + destruct (_packet_handlers packet self) as [e|self']; [reflexivity|].
      rewrite bool_decide_eq_false_2 by (apply Hpoll; exact Hitem).
      apply IH; assumption.
    + apply IH; assumption.
Qed.

(** A wait that has used up the polls without an expected packet and
    without timing out is still waiting. *)
Lemma process_packets_waiting expected timeout exn start :
  forall queue now self,
    Forall (unexpected expected) queue ->
    (forall k, (k <= length queue)%nat ->
       timed_out timeout start (now + elapsed (take k queue)) = false) ->
    process_packets expected timeout exn start queue now self
    = match apply_handlers queue [] now self with
      | Returned _ self' _ => Waiting self'
      | o => o
      end.
Proof.
  intros queue. induction queue as [|poll queue IH]; intros now self Hq Hlt.
  - simpl. specialize (Hlt 0%nat (le_n _)). simpl in Hlt.
    unfold elapsed in Hlt. simpl in Hlt. rewrite Z.add_0_r in Hlt.
    rewrite Hlt. reflexivity.
  - inversion Hq as [|? ? Hpoll Hq']; subst.
    assert (Hnow : timed_out timeout start now = false).
    { specialize (Hlt 0%nat (Nat.le_0_l _)). simpl in Hlt.
      unfold elapsed in Hlt. simpl in Hlt. rewrite Z.add_0_r in Hlt.
      exact Hlt. }
    assert (Hnext : forall k, (k <= length queue)%nat ->
              timed_out timeout start (now + took poll + elapsed (take k queue))
              = false).
    { intros k Hk. specialize (Hlt (S k) (le_n_S _ _ Hk)).
      rewrite firstn_cons, elapsed_cons in Hlt.
      rewrite <- Z.add_assoc. exact Hlt. }
    simpl. rewrite Hnow.
    destruct (item poll) as [packet|] eqn:Hitem.
    + destruct (_packet_handlers packet self) as [e|self'].
      * rewrite app_nil_r. reflexivity.
      * rewrite bool_decide_eq_false_2 by (apply Hpoll; exact Hitem).
        apply IH; assumption.
    + apply IH; assumption.
Qed.

(** How the application of the handlers of a run of polls ends: it
    returns when every handler completes, and raises what the first
    failing handler raises. *)
Lemma apply_handlers_outcome queue rest :
  forall now self,
    match apply_handlers queue rest now self with
    | Returned _ s env' =>
        apply_all (delivered queue) self = Ok s
        /\ env' = mkEnv (now + elapsed queue) rest
    | Raised e _ _ =>
        apply_all (delivered queue) self = inl e /\ handler_exn e
    | Waiting _ => False
    end.
Proof.
  induction queue as [|poll queue IH]; intros now self.
  - cbn. unfold elapsed. cbn. rewrite Z.add_0_r. auto.
  - cbn [apply_handlers]. unfold delivered. cbn [omap list_omap].
    rewrite elapsed_cons, Z.add_assoc.
    destruct (item poll) as [packet|]; [|apply IH].
    cbn [apply_all].
    destruct (_packet_handlers packet self) as [e|self'] eqn:Hh;
      cbn [and_then].
    + split; [reflexivity|]. eapply handler_raises. exact Hh.
    + apply IH.
Qed.

Lemma apply_handlers_app queue1 queue2 rest :
  forall now self,
    apply_handlers (queue1 ++ queue2) rest now self
    = match apply_handlers queue1 (queue2 ++ rest) now self with
      | Returned _ s env1 => apply_handlers queue2 rest (clock env1) s
      | o => o
      end.
Proof.
  induction queue1 as [|poll queue1 IH]; intros now self.
  - reflexivity.
  - cbn [app apply_handlers].
    destruct (item poll) as [packet|]; [|apply IH].
    destruct (_packet_handlers packet self) as [e|self'].
    + rewrite <- app_assoc. reflexivity.
    + apply IH.
Qed.

Lemma apply_all_snoc packets m self self' :
  apply_all (packets ++ [m]) self = Ok self' ->
  exists s, apply_all packets self = Ok s /\ _packet_handlers m s = Ok self'.
Proof.
  rewrite apply_all_app.
  destruct (apply_all packets self) as [e|s]; cbn [and_then]; [discriminate|].
  cbn [apply_all]. destruct (_packet_handlers m s) as [e|s'] eqn:Hm;
    cbn [and_then]; [discriminate|].
  intros H. exists s. split; [reflexivity|]. rewrite Hm. exact H.
Qed.

End Sequencing.

(** ** Connect *)

Section Connect.

Context {cat : Catalogue}.

Lemma connect_unfold address timeout addr_type self env :
  connect address timeout addr_type self env
  = match
      _process_packets_until [PacketType.ble_rsp_gap_connect_direct] None
        BGAPIError (connect_sent address addr_type self) env
    with
    | Returned _ s1 env1 =>
        if negb (_response_return s1 =? 0) then Raised BGAPIError s1 env1
        else
          _process_packets_until [PacketType.ble_evt_connection_status]
            (Some timeout) NotConnectedError s1 env1
    | Raised e s1 env1 => Raised e s1 env1
    | Waiting s1 => Waiting s1
    end.
Proof.
  unfold connect. cbv zeta. op_unfold.
  change (set_ser _ self) with (connect_sent address addr_type self).
  destruct (_process_packets_until _ None BGAPIError _ env)
    as [[] s1 env1|e s1 env1|s1]; try reflexivity.
  destruct (negb (_response_return s1 =? 0)); reflexivity.
Qed.

(** What [connect] does once the response with result 0 has been
    popped: the second wait, on the polls that follow. *)
Lemma connect_response address timeout addr_type self now pre dt h rest :
  Forall (unexpected [PacketType.ble_rsp_gap_connect_direct]) pre ->
  connect address timeout addr_type self
    (mkEnv now
       (pre ++ mkPoll dt (Some (Packet.ble_rsp_gap_connect_direct 0 h))
            :: rest))
  = match apply_all (delivered pre) (connect_sent address addr_type self) with
    | inr self1 =>
        _process_packets_until [PacketType.ble_evt_connection_status]
          (Some timeout) NotConnectedError (set_response_return 0 self1)
          (mkEnv (now + elapsed pre + dt) rest)
    | inl e =>
        apply_handlers pre
          (mkPoll dt (Some (Packet.ble_rsp_gap_connect_direct 0 h)) :: rest)
          now (connect_sent address addr_type self)
    end.
Proof.
  intros Hpre.
  set (rsp := Packet.ble_rsp_gap_connect_direct 0 h).
  assert (Hrsp : Packet.packet_type rsp
                 ∈ [PacketType.ble_rsp_gap_connect_direct]).
  { apply list_elem_of_singleton. reflexivity. }
  rewrite connect_unfold.
  rewrite (proj1 (wait_match _ None BGAPIError
                    (connect_sent address addr_type self)
                    (mkEnv now _) pre dt rsp rest eq_refl Hpre Hrsp
                    (fun k _ => eq_refl))).
  cbn [clock]. rewrite (apply_handlers_app pre [mkPoll dt (Some rsp)] rest).
  change ([mkPoll dt (Some rsp)] ++ rest) with (mkPoll dt (Some rsp) :: rest).
  pose proof (apply_handlers_outcome pre (mkPoll dt (Some rsp) :: rest) now
                (connect_sent address addr_type self)) as Ho.
  destruct (apply_handlers pre (mkPoll dt (Some rsp) :: rest) now
              (connect_sent address addr_type self))
    as [[] s env1|e s env1|s] eqn:Ha.
  - destruct Ho as [-> ->]. reflexivity.
  - destruct Ho as [-> _]. reflexivity.
  - contradiction.
Qed.

(** C2.  [connect] meets the response to [connect_direct] with result 0,
    and after it polls that deliver no connection-status event: [wait] is
    the shortest run of them to take [timeout] or longer.  When none of
    the handlers applied on the way raises, the call raises
    [NotConnectedError] – not [BGAPIError] – with the state these handlers
    built, at the head of the iteration that follows [wait]; and as long
    as less than [wait] has been observed the call has not raised: it is
    still waiting.  Whatever the handlers do, the call raises, and what it
    raises is [NotConnectedError] or the exception of a handler: the
    former exactly when every handler completes.  On a shorter
    observation it raises nothing but the exception of a handler. *)
Theorem connect_times_out_not_connected
    address timeout addr_type self env pre dt h wait post :
  polls env
  = pre ++ mkPoll dt (Some (Packet.ble_rsp_gap_connect_direct 0 h))
        :: wait ++ post ->
  Forall (unexpected [PacketType.ble_rsp_gap_connect_direct]) pre ->
  Forall (unexpected [PacketType.ble_evt_connection_status]) wait ->
  (forall k, (k < length wait)%nat -> elapsed (take k wait) < timeout) ->
  timeout <= elapsed wait ->
  (forall self1 self2,
     apply_all (delivered pre) (connect_sent address addr_type self)
     = Ok self1 ->
     apply_all (delivered wait) (set_response_return 0 self1) = Ok self2 ->
     connect address timeout addr_type self env
     = Raised NotConnectedError self2
         (mkEnv (clock env + elapsed pre + dt + elapsed wait) post)
     /\ (forall k, (k < length wait)%nat ->
           exists self',
             connect address timeout addr_type self
               (mkEnv (clock env)
                  (pre
                   ++ mkPoll dt (Some (Packet.ble_rsp_gap_connect_direct 0 h))
                   :: take k wait))
             = Waiting self'))
  /\ (exists e s env',
        connect address timeout addr_type self env = Raised e s env'
        /\ (e = NotConnectedError \/ handler_exn e)
        /\ (e = NotConnectedError
            <-> exists self1 self2,
                  apply_all (delivered pre)
                    (connect_sent address addr_type self) = Ok self1
                  /\ apply_all (delivered wait) (set_response_return 0 self1)
                     = Ok self2))
  /\ (forall k e s env',
        (k < length wait)%nat ->
        connect address timeout addr_type self
          (mkEnv (clock env)
             (pre ++ mkPoll dt (Some (Packet.ble_rsp_gap_connect_direct 0 h))
                  :: take k wait))
        = Raised e s env' ->
        handler_exn e).
Proof.
  intros Hq Hpre Hwait Hlt Hge.
  destruct env as [now q]. simpl in Hq. subst q. simpl (clock _).
  assert (Hfull : forall self1,
    _process_packets_until [PacketType.ble_evt_connection_status]
      (Some timeout) NotConnectedError (set_response_return 0 self1)
      (mkEnv (now + elapsed pre + dt) (wait ++ post))
    = match apply_handlers wait post (now + elapsed pre + dt)
              (set_response_return 0 self1) with
      | Returned _ self' env' => Raised NotConnectedError self' env'
      | o => o
      end).
  { intros self1. unfold _process_packets_until. simpl (clock _).
    simpl (polls _). apply process_packets_timeout.
    - exact Hwait.
    - intros k Hk. rewrite timed_out_shift. simpl.
      apply bool_decide_eq_false_2. specialize (Hlt k Hk). lia.
    - rewrite timed_out_shift. simpl. apply bool_decide_eq_true_2. lia. }
  assert (Hshort : forall self1 k, (k < length wait)%nat ->
    _process_packets_until [PacketType.ble_evt_connection_status]
      (Some timeout) NotConnectedError (set_response_return 0 self1)
      (mkEnv (now + elapsed pre + dt) (take k wait))
    = match apply_handlers (take k wait) [] (now + elapsed pre + dt)
              (set_response_return 0 self1) with
      | Returned _ self' _ => Waiting self'
      | o => o
      end).
  { intros self1 k Hk. unfold _process_packets_until. simpl (clock _).
    simpl (polls _). apply process_packets_waiting.
    - apply Forall_take. exact Hwait.
    - intros j Hj. rewrite timed_out_shift. simpl.
      apply bool_decide_eq_false_2.
      rewrite length_take in Hj. rewrite take_take.
      assert (Hjk : (j `min` k < length wait)%nat) by lia.
      specialize (Hlt _ Hjk). lia. }
  split; [|split].
  - intros self1 self2 Hs1 Hs2. split.
    + rewrite (connect_response _ _ _ _ _ _ _ _ _ Hpre), Hs1.
      cbv beta iota delta [Ok]. rewrite Hfull.
      rewrite (apply_handlers_ok _ _ _ _ self2) by exact Hs2. reflexivity.
    + intros k Hk.
      rewrite (connect_response _ _ _ _ _ _ _ _ _ Hpre), Hs1.
      cbv beta iota delta [Ok]. rewrite Hshort by exact Hk.
      assert (Hsplit : wait = take k wait ++ drop k wait)
        by (symmetry; apply take_drop).
      rewrite Hsplit, delivered_app, apply_all_app in Hs2.
      destruct (apply_all (delivered (take k wait))
                  (set_response_return 0 self1))
        as [e|s] eqn:Hs; [discriminate|].
      rewrite (apply_handlers_ok _ _ _ _ s) by exact Hs. eauto.
  - rewrite (connect_response _ _ _ _ _ _ _ _ _ Hpre).
    destruct (apply_all (delivered pre) (connect_sent address addr_type self))
      as [e1|self1] eqn:Hs1.
    + pose proof (apply_handlers_outcome pre
                    (mkPoll dt (Some (Packet.ble_rsp_gap_connect_direct 0 h))
                     :: wait ++ post) now
                    (connect_sent address addr_type self)) as Ho.
      destruct (apply_handlers pre _ now _) as [[] s env1|e s env1|s].
      * destruct Ho as [Ho _]. rewrite Hs1 in Ho. discriminate.
      * destruct Ho as [_ He]. exists e, s, env1.
        split; [reflexivity|]. split; [right; exact He|].
        split.
        -- intros ->. destruct He as [He|[He|He]]; discriminate.
        -- intros (self1 & self2 & H1 & _). discriminate.
      * contradiction.
    + rewrite Hfull.
      pose proof (apply_handlers_outcome wait post (now + elapsed pre + dt)
                    (set_response_return 0 self1)) as Ho.
      destruct (apply_handlers wait post _ _) as [[] s env1|e s env1|s].
      * destruct Ho as [Ho _]. exists NotConnectedError, s, env1.
        split; [reflexivity|]. split; [left; reflexivity|].
        split; [|reflexivity]. intros _. exists self1, s. auto.
      * destruct Ho as [Ho He]. exists e, s, env1.
        split; [reflexivity|]. split; [right; exact He|].
        split.
        -- intros ->. destruct He as [He|[He|He]]; discriminate.
        -- intros (self1' & self2 & H1 & H2).
           injection H1 as <-. rewrite Ho in H2. discriminate.
      * contradiction.
  - intros k e s env' Hk.
    rewrite (connect_response _ _ _ _ _ _ _ _ _ Hpre).
    destruct (apply_all (delivered pre) (connect_sent address addr_type self))
      as [e1|self1] eqn:Hs1.
    + pose proof (apply_handlers_outcome pre
                    (mkPoll dt (Some (Packet.ble_rsp_gap_connect_direct 0 h))
                     :: take k wait) now
                    (connect_sent address addr_type self)) as Ho.
      destruct (apply_handlers pre _ now _) as [[] s' env1|e' s' env1|s'].
      * discriminate.
      * intros [= <- _ _]. apply Ho.
      * discriminate.
    + rewrite Hshort by exact Hk.
      pose proof (apply_handlers_outcome (take k wait) []
                    (now + elapsed pre + dt)
                    (set_response_return 0 self1)) as Ho.
      destruct (apply_handlers (take k wait) [] _ _)
        as [[] s' env1|e' s' env1|s'].
      * discriminate.
      * intros [= <- _ _]. apply Ho.
      * discriminate.
Qed.

End Connect.

Section ConnectExamples.

#[local] Existing Instance bluegiga.

(** C2, as the specification has it, fails.  The response carries result
    0, no connection-status event is delivered, the timeout is five
    seconds: a find-information event for a characteristic declaration,
    popped 20 ms into the call while no service is known, makes its
    handler raise [IndexError], and that is what leaves [connect]. *)
Lemma connect_raises_handler_error :
  connect [1; 2; 3; 4; 5; 6] 5000 0 init
    (mkEnv 0
       [ mkPoll 10 (Some (Packet.ble_rsp_gap_connect_direct 0 0));
         mkPoll 10
           (Some (Packet.ble_evt_attclient_find_information_found 0 3
                    [3; 40])) ])
  = Raised IndexError
      (set_response_return 0 (connect_sent [1; 2; 3; 4; 5; 6] 0 init))
      (mkEnv 20 []).
Proof. vm_compute. reflexivity. Qed.

(** A connect with a timeout of 300 ms: the response arrives, then an
    unrelated response and empty polls that take 350 ms together. *)
Lemma connect_times_out_not_connected_witness :
  connect [1; 2; 3; 4; 5; 6] 300 0 init
    (mkEnv 0
       [ mkPoll 10 (Some (Packet.ble_rsp_gap_connect_direct 0 0));
         mkPoll 100 None;
         mkPoll 50 (Some (Packet.ble_rsp_gap_set_mode 0));
         mkPoll 100 None;
         mkPoll 100 None;
         mkPoll 100 None ])
  = Raised NotConnectedError
      (set_response_return 0
         (set_response_return 0 (connect_sent [1; 2; 3; 4; 5; 6] 0 init)))
      (mkEnv 360 [ mkPoll 100 None ]).
Proof.
  refine (proj1
    (proj1
       (connect_times_out_not_connected [1; 2; 3; 4; 5; 6] 300 0 init
          (mkEnv 0 _) [] 10 0
          [ mkPoll 100 None; mkPoll 50 (Some (Packet.ble_rsp_gap_set_mode 0));
            mkPoll 100 None; mkPoll 100 None ]
          [ mkPoll 100 None ] _ _ _ _ _) _ _ _ _)).
  - reflexivity.
  - constructor.
  - repeat constructor; intros packet [= <-]; simpl;
      rewrite list_elem_of_singleton; discriminate.
  - intros k Hk.
    destruct k as [|[|[|[|k]]]]; try reflexivity. simpl in Hk. lia.
  - discriminate.
  - reflexivity.
  - reflexivity.
Defined.

End ConnectExamples.

(** ** Disconnect *)

Section Disconnect.

Context {cat : Catalogue}.

(** The first wait of [disconnect]. *)
Lemma disconnect_response fail_quietly self now pre dt c r rest self1 :
  Forall (unexpected [PacketType.ble_rsp_connection_disconnect]) pre ->
  apply_all (delivered pre) (disconnect_sent self) = Ok self1 ->
  disconnect fail_quietly self
    (mkEnv now
       (pre ++ mkPoll dt (Some (Packet.ble_rsp_connection_disconnect c r))
            :: rest))
  = (if negb (r =? 0)
     then if fail_quietly then mret tt else raise BGAPIError
     else _process_packets_until [PacketType.ble_evt_connection_disconnected]
            None BGAPIError)
      (set_response_return r self1) (mkEnv (now + elapsed pre + dt) rest).
Proof.
  intros Hpre Hs1.
  set (rsp := Packet.ble_rsp_connection_disconnect c r).
  assert (Hrsp : Packet.packet_type rsp
                 ∈ [PacketType.ble_rsp_connection_disconnect]).
  { apply list_elem_of_singleton. reflexivity. }
  assert (Hfirst :
    _process_packets_until [PacketType.ble_rsp_connection_disconnect] None
      BGAPIError (disconnect_sent self)
      (mkEnv now (pre ++ mkPoll dt (Some rsp) :: rest))
    = Returned tt (set_response_return r self1)
        (mkEnv (now + elapsed pre + dt) rest)).
  { refine (proj2 (wait_match _ None BGAPIError _
                     (mkEnv now _) pre dt rsp rest eq_refl Hpre Hrsp _) _ _).
    - intros k _. reflexivity.
    - rewrite apply_all_app, Hs1. reflexivity. }
  unfold disconnect.
  rewrite (bind_returned _ _ _ _ self self (mkEnv now _)) by reflexivity.
  rewrite (bind_returned _ _ _ _ tt (disconnect_sent self) (mkEnv now _))
    by reflexivity.
  rewrite (bind_returned _ _ _ _ _ _ _ Hfirst).
  reflexivity.
Qed.

Lemma disconnect_unfold fail_quietly self env :
  disconnect fail_quietly self env
  = match
      _process_packets_until [PacketType.ble_rsp_connection_disconnect] None
        BGAPIError (disconnect_sent self) env
    with
    | Returned _ s1 env1 =>
        if negb (_response_return s1 =? 0)
        then
          if fail_quietly then Returned tt s1 env1
          else Raised BGAPIError s1 env1
        else
          _process_packets_until [PacketType.ble_evt_connection_disconnected]
            None BGAPIError s1 env1
    | Raised e s1 env1 => Raised e s1 env1
    | Waiting s1 => Waiting s1
    end.
Proof.
  unfold disconnect. op_unfold.
  change (set_ser _ self) with (disconnect_sent self).
  destruct (_process_packets_until _ None BGAPIError _ env)
    as [[] s1 env1|e s1 env1|s1]; try reflexivity.
  destruct (negb (_response_return s1 =? 0)), fail_quietly; reflexivity.
Qed.

(** The first wait of [disconnect], whatever the handlers do. *)
Lemma disconnect_first_wait self now pre dt c r rest :
  Forall (unexpected [PacketType.ble_rsp_connection_disconnect]) pre ->
  match
    _process_packets_until [PacketType.ble_rsp_connection_disconnect] None
      BGAPIError (disconnect_sent self)
      (mkEnv now
         (pre ++ mkPoll dt (Some (Packet.ble_rsp_connection_disconnect c r))
              :: rest))
  with
  | Returned _ s1 env1 =>
      apply_handlers
        (pre ++ [mkPoll dt (Some (Packet.ble_rsp_connection_disconnect c r))])
        rest now (disconnect_sent self)
      = Returned tt s1 env1
      /\ _response_return s1 = r
  | o =>
      apply_handlers
        (pre ++ [mkPoll dt (Some (Packet.ble_rsp_connection_disconnect c r))])
        rest now (disconnect_sent self)
      = o
  end.
Proof.
  intros Hpre.
  set (rsp := Packet.ble_rsp_connection_disconnect c r).
  assert (Hrsp : Packet.packet_type rsp
                 ∈ [PacketType.ble_rsp_connection_disconnect]).
  { apply list_elem_of_singleton. reflexivity. }
  rewrite (proj1 (wait_match _ None BGAPIError (disconnect_sent self)
                    (mkEnv now _) pre dt rsp rest eq_refl Hpre Hrsp
                    (fun k _ => eq_refl))).
  cbn [clock].
  pose proof (apply_handlers_outcome (pre ++ [mkPoll dt (Some rsp)]) rest now
                (disconnect_sent self)) as Ho.
  destruct (apply_handlers (pre ++ [mkPoll dt (Some rsp)]) rest now
              (disconnect_sent self)) as [[] s1 env1|e s1 env1|s1];
    try reflexivity.
  split; [reflexivity|].
  destruct Ho as [Ho _]. rewrite delivered_app in Ho.
  apply apply_all_snoc in Ho. destruct Ho as (s & _ & Hh).
  injection Hh as <-. reflexivity.
Qed.

(** C3.  [disconnect(fail_quietly=True)] raises nothing of its own: an
    exception that leaves it is one a packet handler raised, never
    [BGAPIError].  When the response to the disconnect command carries a
    result other than 0 the call is the application of the handlers of
    the packets popped up to the response, and no more: when they
    complete it returns right after the handler of the response, the
    result recorded and swallowed.  When the result is 0 the call goes on
    to the disconnected event: it is the application of the handlers of
    the packets popped up to that event, and returns after its handler
    when they complete. *)
Theorem disconnect_fail_quietly_never_raises :
  (forall self env e s env',
     disconnect true self env = Raised e s env' -> handler_exn e)
  /\ (forall self env pre dt c r post self1,
        polls env
        = pre ++ mkPoll dt (Some (Packet.ble_rsp_connection_disconnect c r))
              :: post ->
        Forall (unexpected [PacketType.ble_rsp_connection_disconnect]) pre ->
        apply_all (delivered pre) (disconnect_sent self) = Ok self1 ->
        r <> 0 ->
        disconnect true self env
        = Returned tt (set_response_return r self1)
            (mkEnv (clock env + elapsed pre + dt) post))
  /\ (forall self env pre dt c wait dt' c' reason post self1 self2,
        polls env
        = pre ++ mkPoll dt (Some (Packet.ble_rsp_connection_disconnect c 0))
              :: wait
              ++ mkPoll dt'
                   (Some (Packet.ble_evt_connection_disconnected c' reason))
              :: post ->
        Forall (unexpected [PacketType.ble_rsp_connection_disconnect]) pre ->
        Forall (unexpected [PacketType.ble_evt_connection_disconnected]) wait ->
        apply_all (delivered pre) (disconnect_sent self) = Ok self1 ->
        apply_all (delivered wait) (set_response_return 0 self1) = Ok self2 ->
        disconnect true self env
        = Returned tt
            (set_event_return reason
               (set_bonded false
                  (set_encrypted false (set_connected false self2))))
            (mkEnv (clock env + elapsed pre + dt + elapsed wait + dt') post))
  /\ (forall self env pre dt c r post,
        polls env
        = pre ++ mkPoll dt (Some (Packet.ble_rsp_connection_disconnect c r))
              :: post ->
        Forall (unexpected [PacketType.ble_rsp_connection_disconnect]) pre ->
        r <> 0 ->
        disconnect true self env
        = apply_handlers
            (pre
             ++ [mkPoll dt (Some (Packet.ble_rsp_connection_disconnect c r))])
            post (clock env) (disconnect_sent self))
  /\ (forall self env pre dt c wait dt' c' reason post,
        polls env
        = pre ++ mkPoll dt (Some (Packet.ble_rsp_connection_disconnect c 0))
              :: wait
              ++ mkPoll dt'
                   (Some (Packet.ble_evt_connection_disconnected c' reason))
              :: post ->
        Forall (unexpected [PacketType.ble_rsp_connection_disconnect]) pre ->
        Forall (unexpected [PacketType.ble_evt_connection_disconnected]) wait ->
        disconnect true self env
        = apply_handlers
            (pre
             ++ mkPoll dt (Some (Packet.ble_rsp_connection_disconnect c 0))
             :: wait
             ++ [mkPoll dt'
                   (Some (Packet.ble_evt_connection_disconnected c' reason))])
            post (clock env) (disconnect_sent self)).
Proof.
  split; [|split; [|split; [|split]]].
  - intros self env e s env'. unfold disconnect.
    rewrite (bind_returned _ _ _ _ self self env) by reflexivity.
    rewrite (bind_returned _ _ _ _ tt (disconnect_sent self) env)
      by reflexivity.
    rewrite bind_unfold.
    destruct (_process_packets_until _ None BGAPIError (disconnect_sent self) env)
      as [[] s1 env1|e1 s1 env1|s1] eqn:Hw.
    + rewrite (bind_returned _ _ _ _ s1 s1 env1) by reflexivity.
      destruct (negb (_response_return s1 =? 0)).
      * discriminate.
      * apply wait_raises.
    + intros [= <- _ _]. eapply wait_raises. exact Hw.
    + discriminate.
  - intros self [now q] pre dt c r post self1 Hq Hpre Hs1 Hr.
    simpl in Hq. subst q. simpl (clock _).
    rewrite (disconnect_response true self now pre dt c r post self1 Hpre Hs1).
    destruct (Z.eqb_spec r 0) as [->|_]; [contradiction|]. reflexivity.
  - intros self [now q] pre dt c wait dt' c' reason post self1 self2
      Hq Hpre Hwait Hs1 Hs2.
    simpl in Hq. subst q. simpl (clock _).
    rewrite (disconnect_response true self now pre dt c 0 _ self1 Hpre Hs1).
    simpl (negb _). cbv iota.
    refine (proj2 (wait_match _ None BGAPIError _
                     (mkEnv _ _) wait dt' _ post eq_refl Hwait _ _) _ _).
    + apply list_elem_of_singleton. reflexivity.
    + intros k _. reflexivity.
    + rewrite apply_all_app, Hs2. reflexivity.
  - intros self [now q] pre dt c r post Hq Hpre Hr.
    simpl in Hq. subst q. simpl (clock _).
    rewrite disconnect_unfold.
    pose proof (disconnect_first_wait self now pre dt c r post Hpre) as Hw.
    destruct (_process_packets_until _ None BGAPIError (disconnect_sent self) _)
      as [[] s1 env1|e s1 env1|s1].
    + destruct Hw as [-> ->].
      destruct (Z.eqb_spec r 0) as [->|_]; [contradiction|]. reflexivity.
    + symmetry. exact Hw.
    + symmetry. exact Hw.
  - intros self [now q] pre dt c wait dt' c' reason post Hq Hpre Hwait.
    simpl in Hq. subst q. simpl (clock _).
    set (rsp := mkPoll dt (Some (Packet.ble_rsp_connection_disconnect c 0))).
    set (evt := mkPoll dt'
                  (Some (Packet.ble_evt_connection_disconnected c' reason))).
    change (pre ++ rsp :: wait ++ [evt])
      with (pre ++ [rsp] ++ (wait ++ [evt])).
    rewrite app_assoc, apply_handlers_app.
    rewrite <- (app_assoc wait [evt] post).
    change ([evt] ++ post) with (evt :: post).
    rewrite disconnect_unfold.
    pose proof (disconnect_first_wait self now pre dt c 0 (wait ++ evt :: post)
                  Hpre) as Hw.
    fold rsp in Hw.
    destruct (_process_packets_until _ None BGAPIError (disconnect_sent self) _)
      as [[] s1 env1|e s1 env1|s1].
    + destruct Hw as [Ha Hr].
      pose proof (apply_handlers_outcome (pre ++ [rsp]) (wait ++ evt :: post)
                    now (disconnect_sent self)) as Ho.
      rewrite Ha in Ho. destruct Ho as [_ ->].
      rewrite Ha, Hr. simpl (negb _). cbv iota.
      refine (proj1 (wait_match _ None BGAPIError _
                       (mkEnv _ _) wait dt' _ post eq_refl Hwait _ _)).
      * apply list_elem_of_singleton. reflexivity.
      * intros k _. reflexivity.
    + rewrite Hw. reflexivity.
    + rewrite Hw. reflexivity.
Qed.

(** With [fail_quietly=False] the same response makes the call raise. *)
Lemma disconnect_raises_when_not_quiet self env pre dt c r post self1 :
  polls env
  = pre ++ mkPoll dt (Some (Packet.ble_rsp_connection_disconnect c r))
        :: post ->
  Forall (unexpected [PacketType.ble_rsp_connection_disconnect]) pre ->
  apply_all (delivered pre) (disconnect_sent self) = Ok self1 ->
  r <> 0 ->
  disconnect false self env
  = Raised BGAPIError (set_response_return r self1)
      (mkEnv (clock env + elapsed pre + dt) post).
Proof.
  destruct env as [now q]. intros Hq Hpre Hs1 Hr.
  simpl in Hq. subst q. simpl (clock _).
  rewrite (disconnect_response false self now pre dt c r post self1 Hpre Hs1).
  destruct (Z.eqb_spec r 0) as [->|_]; [contradiction|]. reflexivity.
Qed.

End Disconnect.

Section DisconnectExamples.

#[local] Existing Instance bluegiga.

(** C3, as the specification has it, fails: [disconnect(fail_quietly=True)]
    raises.  After a response with result 0, a find-information event for
    a characteristic declaration is popped while no service is known, and
    the [IndexError] of its handler leaves the call.  The same event
    popped ahead of a response with result 0x0186 does the same, before
    the response is looked at. *)
Lemma disconnect_fail_quietly_raises :
  disconnect true init
    (mkEnv 0
       [ mkPoll 10 (Some (Packet.ble_rsp_connection_disconnect 0 0));
         mkPoll 10
           (Some (Packet.ble_evt_attclient_find_information_found 0 3
                    [3; 40])) ])
  = Raised IndexError (set_response_return 0 (disconnect_sent init))
      (mkEnv 20 [])
  /\ disconnect true init
       (mkEnv 0
          [ mkPoll 10
              (Some (Packet.ble_evt_attclient_find_information_found 0 3
                       [3; 40]));
            mkPoll 10 (Some (Packet.ble_rsp_connection_disconnect 0 390)) ])
     = Raised IndexError (disconnect_sent init)
         (mkEnv 10
            [ mkPoll 10 (Some (Packet.ble_rsp_connection_disconnect 0 390)) ]).
Proof. split; vm_compute; reflexivity. Qed.

(** The dongle answers the disconnect command with result 0x0186 (not
    connected): the call returns and leaves the rest of the queue. *)
Lemma disconnect_fail_quietly_never_raises_witness :
  disconnect true init
    (mkEnv 0
       [ mkPoll 100 None;
         mkPoll 10 (Some (Packet.ble_rsp_connection_disconnect 0 390));
         mkPoll 10 (Some (Packet.ble_rsp_gap_set_mode 0)) ])
  = Returned tt (set_response_return 390 (disconnect_sent init))
      (mkEnv 110 [ mkPoll 10 (Some (Packet.ble_rsp_gap_set_mode 0)) ]).
Proof.
  refine (proj1 (proj2 disconnect_fail_quietly_never_raises) init
            (mkEnv 0 _) [ mkPoll 100 None ] 10 0 390
            [ mkPoll 10 (Some (Packet.ble_rsp_gap_set_mode 0)) ] _ _ _ _ _).
  - reflexivity.
  - repeat constructor; intros packet [= <-].
  - reflexivity.
  - discriminate.
Defined.

End DisconnectExamples.

(** ** Get RSSI *)

Section GetRssi.

Context {cat : Catalogue}.

Lemma handler_ser packet self self' :
  _packet_handlers packet self = inr self' -> _ser self' = _ser self.
Proof.
  destruct packet; cbn [_packet_handlers];
    try (intros [= <-]; reflexivity).
  - unfold _ble_evt_attclient_find_information_found.
    assert (Hset : forall r : Result (list gatt.Service),
      and_then r (fun ss => Ok (set_services ss self)) = inr self' ->
      _ser self' = _ser self).
    { intros [e|ss]; simpl; [discriminate|]. intros [= <-]. reflexivity. }
    destruct (Uuid_len _ =? 128); [apply Hset|].
    destruct (UUID_STRING_TO_ATTRIBUTE_TYPE !! _) as [[| | |?]|];
      try (intros [= <-]; reflexivity); try apply Hset.
    destruct (UUID_STRING_TO_CHARACTERISTIC_TYPE !! _); [apply Hset|].
    destruct (UUID_STRING_TO_DESCRIPTOR_TYPE !! _); [apply Hset|].
    intros [= <-]. reflexivity.
  - unfold _ble_evt_connection_status.
    destruct (_connection_status_flag _ _), (_connection_status_flag _ _);
      intros [= <-]; reflexivity.
  - unfold _ble_evt_gap_scan_response.
    destruct (_scan_rsp_data data) as [e|[n d]]; simpl; [discriminate|].
    intros [= <-]. reflexivity.
  - unfold _ble_evt_sm_bond_status. destruct (_bond_expected self);
      intros [= <-]; reflexivity.
Qed.

(** A wait writes nothing to the serial port. *)
Lemma process_packets_ser expected timeout exn start :
  forall queue now self,
    _ser (final_state
            (process_packets expected timeout exn start queue now self))
    = _ser self.
Proof.
  induction queue as [|poll queue IH]; intros now self; simpl.
  - destruct (timed_out _ _ _); reflexivity.
  - destruct (timed_out _ _ _); [reflexivity|].
    destruct (item poll) as [packet|]; [|apply IH].
    destruct (_packet_handlers packet self) as [e|self'] eqn:Hh; [reflexivity|].
    apply handler_ser in Hh.
    destruct (bool_decide _); [exact Hh|]. rewrite IH. exact Hh.
Qed.

Lemma wait_ser expected timeout exn self env :
  _ser (final_state (_process_packets_until expected timeout exn self env))
  = _ser self.
Proof. apply process_packets_ser. Qed.

Lemma count_get_rssi_snoc cmds connection :
  count_get_rssi (cmds ++ [ble_cmd_connection_get_rssi connection])
  = S (count_get_rssi cmds).
Proof.
  unfold count_get_rssi. rewrite filter_app, length_app. simpl.
  rewrite Nat.add_1_r. reflexivity.
Qed.

(** One attempt writes at most one command, and exactly one when it
    returns. *)
Lemma get_rssi_once_ser self env :
  (count_get_rssi (_ser (final_state (_get_rssi_once self env)))
   <= S (count_get_rssi (_ser self)))%nat
  /\ (forall rssi s e,
        _get_rssi_once self env = Returned rssi s e ->
        _ser s
        = _ser self ++ [ble_cmd_connection_get_rssi (_connection_handle self)]
        /\ rssi = _response_return s).
Proof.
  unfold _get_rssi_once. op_unfold.
  destruct (_connected self) eqn:Hc; cbn [negb andb].
  2:{ cbn [final_state]. split; [lia|discriminate]. }
  pose proof (wait_ser
    [PacketType.ble_rsp_connection_get_rssi;
     PacketType.ble_evt_connection_disconnected] None BGAPIError
    (set_ser (_ser self ++ [ble_cmd_connection_get_rssi (_connection_handle self)])
       self) env) as Hw.
  destruct (_process_packets_until _ None BGAPIError _ env)
    as [[] s1 env1|e1 s1 env1|s1]; cbn [final_state] in Hw |- *.
  - destruct (_connected s1); cbn [negb andb final_state].
    + rewrite Hw. cbn [_ser set_ser]. rewrite count_get_rssi_snoc.
      split; [lia|].
      intros rssi s e [= <- <- <-]. auto.
    + rewrite Hw. cbn [_ser set_ser]. rewrite count_get_rssi_snoc.
      split; [lia|discriminate].
  - rewrite Hw. cbn [_ser set_ser]. rewrite count_get_rssi_snoc.
    split; [lia|discriminate].
  - rewrite Hw. cbn [_ser set_ser]. rewrite count_get_rssi_snoc.
    split; [lia|discriminate].
Qed.

(** One attempt does not raise [BGAPIError]. *)
Lemma get_rssi_once_raises self env e s env' :
  _get_rssi_once self env = Raised e s env' ->
  e = NotConnectedError \/ handler_exn e.
Proof.
  unfold _get_rssi_once. op_unfold.
  destruct (_connected self) eqn:Hc; cbn [negb andb].
  2:{ intros [= <- _ _]. auto. }
  destruct (_process_packets_until _ None BGAPIError _ env)
    as [[] s1 env1|e1 s1 env1|s1] eqn:Hw.
  - destruct (_connected s1); cbn [negb andb]; [discriminate|].
    intros [= <- _ _]. auto.
  - intros [= <- _ _]. right. eapply wait_raises. exact Hw.
  - discriminate.
Qed.

Lemma get_rssi_attempts_step n self env :
  get_rssi_attempts (S n) self env
  = match _get_rssi_once self env with
    | Returned rssi s e =>
        if negb (rssi =? 25) then Returned rssi s e
        else get_rssi_attempts n s (slept e)
    | Raised x s e => Raised x s e
    | Waiting s => Waiting s
    end.
Proof.
  cbn [get_rssi_attempts]. rewrite bind_unfold.
  destruct (_get_rssi_once self env) as [rssi s e|x s e|s]; try reflexivity.
  destruct (negb (rssi =? 25)); reflexivity.
Qed.

Lemma get_rssi_attempts_ser n :
  forall self env,
    (count_get_rssi (_ser (final_state (get_rssi_attempts n self env)))
     <= count_get_rssi (_ser self) + n)%nat.
Proof.
  induction n as [|n IH]; intros self env.
  - simpl. lia.
  - rewrite get_rssi_attempts_step.
    destruct (get_rssi_once_ser self env) as [Hle Hret].
    destruct (_get_rssi_once self env) as [rssi s e|x s e|s];
      cbn [final_state] in Hle |- *; try lia.
    destruct (negb (rssi =? 25)); cbn [final_state]; [lia|].
    specialize (IH s (slept e)). lia.
Qed.

(** C4.  [get_rssi] makes at most 3 attempts: however the call ends, it
    has written at most 3 [get_rssi] commands.  It returns a value exactly
    when that value is not 25 and is the result of the first attempt, or
    of the second after a first that gave 25, or of the third after two
    that gave 25, the call ending with that attempt.  It raises
    [BGAPIError] exactly when three attempts in a row gave 25. *)
Theorem get_rssi_three_attempts :
  (forall self env,
     (count_get_rssi (_ser (final_state (get_rssi self env)))
      <= count_get_rssi (_ser self) + 3)%nat)
  /\ (forall self env rssi s e,
        get_rssi self env = Returned rssi s e <->
        rssi <> 25
        /\ (_get_rssi_once self env = Returned rssi s e
            \/ exists s1 e1,
                 _get_rssi_once self env = Returned 25 s1 e1
                 /\ (_get_rssi_once s1 (slept e1) = Returned rssi s e
                     \/ exists s2 e2,
                          _get_rssi_once s1 (slept e1) = Returned 25 s2 e2
                          /\ _get_rssi_once s2 (slept e2)
                             = Returned rssi s e)))
  /\ (forall self env s e,
        get_rssi self env = Raised BGAPIError s e <->
        exists s1 e1 s2 e2 s3 e3,
          _get_rssi_once self env = Returned 25 s1 e1
          /\ _get_rssi_once s1 (slept e1) = Returned 25 s2 e2
          /\ _get_rssi_once s2 (slept e2) = Returned 25 s3 e3
          /\ s = s3 /\ e = slept e3).
Proof.
  split; [|split].
  - intros self env. apply get_rssi_attempts_ser.
  - intros self env rssi s e. unfold get_rssi. cbv zeta.
    rewrite get_rssi_attempts_step. split.
    + destruct (_get_rssi_once self env) as [r1 s1 e1|x s1 e1|s1];
        [|discriminate|discriminate].
      destruct (Z.eqb_spec r1 25) as [->|Hr1]; cbn [negb].
      2:{ intros [= <- <- <-]. auto. }
      rewrite get_rssi_attempts_step.
      destruct (_get_rssi_once s1 (slept e1)) as [r2 s2 e2|x s2 e2|s2] eqn:H2;
        [|discriminate|discriminate].
      destruct (Z.eqb_spec r2 25) as [->|Hr2]; cbn [negb].
      2:{ intros [= <- <- <-]. split; [exact Hr2|]. right. eauto. }
      rewrite get_rssi_attempts_step.
      destruct (_get_rssi_once s2 (slept e2)) as [r3 s3 e3|x s3 e3|s3] eqn:H3;
        [|discriminate|discriminate].
      destruct (Z.eqb_spec r3 25) as [->|Hr3]; cbn [negb].
      2:{ intros [= <- <- <-]. split; [exact Hr3|]. right.
          exists s1, e1. split; [reflexivity|]. right. eauto. }
      discriminate.
    + intros [Hr [H1|(s1 & e1 & H1 & [H2|(s2 & e2 & H2 & H3)])]].
      * rewrite H1. destruct (Z.eqb_spec rssi 25); [contradiction|].
        reflexivity.
      * rewrite H1. cbn [Z.eqb Pos.eqb negb]. rewrite get_rssi_attempts_step, H2.
        destruct (Z.eqb_spec rssi 25); [contradiction|]. reflexivity.
      * rewrite H1. cbn [Z.eqb Pos.eqb negb]. rewrite get_rssi_attempts_step, H2.
        cbn [Z.eqb Pos.eqb negb]. rewrite get_rssi_attempts_step, H3.
        destruct (Z.eqb_spec rssi 25); [contradiction|]. reflexivity.
  - intros self env s e. unfold get_rssi. cbv zeta.
    rewrite get_rssi_attempts_step. split.
    + assert (Hno : forall s0 e0 x s' e',
                _get_rssi_once s0 e0 = Raised x s' e' -> x <> BGAPIError).
      { intros s0 e0 x s' e' H.
        destruct (get_rssi_once_raises _ _ _ _ _ H) as [->|[->|[->| ->]]];
          discriminate. }
      destruct (_get_rssi_once self env) as [r1 s1 e1|x s1 e1|s1] eqn:H1;
        [| intros [= -> _ _]; exfalso; eapply Hno; eauto | discriminate].
      destruct (Z.eqb_spec r1 25) as [->|Hr1]; cbn [negb]; [|discriminate].
      rewrite get_rssi_attempts_step.
      destruct (_get_rssi_once s1 (slept e1)) as [r2 s2 e2|x s2 e2|s2] eqn:H2;
        [| intros [= -> _ _]; exfalso; eapply Hno; eauto | discriminate].
      destruct (Z.eqb_spec r2 25) as [->|Hr2]; cbn [negb]; [|discriminate].
      rewrite get_rssi_attempts_step.
      destruct (_get_rssi_once s2 (slept e2)) as [r3 s3 e3|x s3 e3|s3] eqn:H3;
        [| intros [= -> _ _]; exfalso; eapply Hno; eauto | discriminate].
      destruct (Z.eqb_spec r3 25) as [->|Hr3]; cbn [negb]; [|discriminate].
      cbn [get_rssi_attempts]. unfold raise. intros [= <- <-].
      exists s1, e1, s2, e2, s3, e3. auto.
    + intros (s1 & e1 & s2 & e2 & s3 & e3 & H1 & H2 & H3 & -> & ->).
      rewrite H1. cbn [Z.eqb Pos.eqb negb]. rewrite get_rssi_attempts_step, H2.
      cbn [Z.eqb Pos.eqb negb]. rewrite get_rssi_attempts_step, H3.
      reflexivity.
Qed.

End GetRssi.

Section GetRssiExamples.

#[local] Existing Instance bluegiga.

(** The first attempt reads the spurious 25, the second -60: the call
    returns -60 and leaves the third response in the queue. *)
Lemma get_rssi_three_attempts_witness :
  exists s,
    get_rssi (set_connected true init)
      (mkEnv 0
         [ mkPoll 10 (Some (Packet.ble_rsp_connection_get_rssi 0 25));
           mkPoll 10 (Some (Packet.ble_rsp_connection_get_rssi 0 (-60)));
           mkPoll 10 (Some (Packet.ble_rsp_connection_get_rssi 0 (-61))) ])
    = Returned (-60) s
        (mkEnv 120
           [ mkPoll 10 (Some (Packet.ble_rsp_connection_get_rssi 0 (-61))) ])
    /\ _ser s = [ ble_cmd_connection_get_rssi 0; ble_cmd_connection_get_rssi 0 ].
Proof.
  eexists. split.
  - apply (proj1 (proj2 get_rssi_three_attempts)).
    split; [discriminate|]. right. eexists _, _. split; [reflexivity|].
    left. reflexivity.
  - reflexivity.
Defined.

End GetRssiExamples.

(** ** Scan responses *)

Section ScanResponse.

Context {cat : Catalogue}.

(** The device entry the handler stores, given what is stored and what
    the packet parsed to. *)
Lemma scan_response_stores rssi pt sender data self name data_dict :
  _scan_rsp_data data = Ok (name, data_dict) ->
  exists dev,
    _ble_evt_gap_scan_response rssi pt sender data self
    = Ok (set_devices_discovered
            (<[address_of sender := dev]> (_devices_discovered self)) self)
    /\ dev_name dev
       = match _devices_discovered self !! address_of sender with
         | Some old =>
             if bool_decide (dev_name old = EmptyString) then name
             else dev_name old
         | None => name
         end
    /\ packet_data dev !! scan_response_packet_type pt
       = match stored_packet_data self (address_of sender)
                 (scan_response_packet_type pt) with
         | Some stored =>
             Some (if bool_decide (size stored < size data_dict)%nat
                   then data_dict else stored)
         | None => Some data_dict
         end.
Proof.
  intros Hdata.
  unfold _ble_evt_gap_scan_response, stored_packet_data.
  fold (address_of sender). rewrite Hdata. cbn [and_then Ok].
  set (kind := scan_response_packet_type pt).
  set (addr := address_of sender).
  destruct (_devices_discovered self !! addr) as [old|].
  - destruct (bool_decide (dev_name old = EmptyString)); cbn [packet_data].
    + destruct (packet_data old !! kind) as [stored|] eqn:Hst.
      * destruct (bool_decide (size stored < size data_dict)%nat);
          eexists; split; [reflexivity| |reflexivity|]; cbn;
          (split; [reflexivity|]); [apply lookup_insert_eq|exact Hst].
      * eexists; split; [reflexivity|]. cbn.
        split; [reflexivity|apply lookup_insert_eq].
    + destruct (packet_data old !! kind) as [stored|] eqn:Hst.
      * destruct (bool_decide (size stored < size data_dict)%nat);
          eexists; split; [reflexivity| |reflexivity|]; cbn;
          (split; [reflexivity|]); [apply lookup_insert_eq|exact Hst].
      * eexists; split; [reflexivity|]. cbn.
        split; [reflexivity|apply lookup_insert_eq].
  - cbn [dev_name].
    destruct (bool_decide (name = EmptyString));
      cbn [packet_data]; rewrite lookup_empty;
      eexists; (split; [reflexivity|]); cbn;
      (split; [reflexivity|apply lookup_insert_eq]).
Qed.

Lemma scan_response_raises rssi pt sender data self e :
  _scan_rsp_data data = inl e ->
  _ble_evt_gap_scan_response rssi pt sender data self = inl e.
Proof.
  intros H. unfold _ble_evt_gap_scan_response. rewrite H. reflexivity.
Qed.

(** No handler overwrites a name that is not empty. *)
Lemma handler_keeps_name packet self self' address name :
  _packet_handlers packet self = inr self' ->
  stored_name self address = Some name ->
  name <> EmptyString ->
  stored_name self' address = Some name.
Proof.
  unfold stored_name.
  destruct packet; cbn [_packet_handlers];
    try (intros [= <-]; intros H _; exact H).
  - unfold _ble_evt_attclient_find_information_found.
    assert (Hset : forall r : Result (list gatt.Service),
      and_then r (fun ss => Ok (set_services ss self)) = inr self' ->
      _devices_discovered self' = _devices_discovered self).
    { intros [e|ss]; simpl; [discriminate|]. intros [= <-]. reflexivity. }
    assert (Hgoal :
      _devices_discovered self' = _devices_discovered self ->
      dev_name <$> _devices_discovered self !! address = Some name ->
      name <> EmptyString ->
      dev_name <$> _devices_discovered self' !! address = Some name).
    { intros ->. auto. }
    destruct (Uuid_len _ =? 128); [intros H; apply Hgoal; exact (Hset _ H)|].
    destruct (UUID_STRING_TO_ATTRIBUTE_TYPE !! _) as [[| | |?]|];
      try (intros [= <-]; intros H _; exact H);
      try (intros H; apply Hgoal; exact (Hset _ H)).
    destruct (UUID_STRING_TO_CHARACTERISTIC_TYPE !! _);
      [intros H; apply Hgoal; exact (Hset _ H)|].
    destruct (UUID_STRING_TO_DESCRIPTOR_TYPE !! _);
      [intros H; apply Hgoal; exact (Hset _ H)|].
    intros [= <-]; intros H _; exact H.
  - unfold _ble_evt_connection_status.
    destruct (_connection_status_flag _ _), (_connection_status_flag _ _);
      intros [= <-]; intros H _; exact H.
  - destruct (_scan_rsp_data data) as [e|[n d]] eqn:Hd.
    { rewrite (scan_response_raises _ _ _ _ _ _ Hd). discriminate. }
    destruct (scan_response_stores rssi packet_type sender data self n d Hd)
      as (dev & -> & Hname & _).
    intros [= <-] Hold Hne. cbn [_devices_discovered set_devices_discovered].
    destruct (decide (address_of sender = address)) as [<-|Hneq].
    + rewrite lookup_insert_eq. cbn. rewrite Hname.
      destruct (_devices_discovered self !! address_of sender) as [old|];
        [|discriminate].
      cbn in Hold. injection Hold as Hold.
      rewrite bool_decide_eq_false_2 by congruence. congruence.
    + rewrite lookup_insert_ne by exact Hneq. exact Hold.
  - unfold _ble_evt_sm_bond_status. destruct (_bond_expected self);
      intros [= <-]; intros H _; exact H.
Qed.

Lemma first_name_stored (stored : option string) :
  first_name (option_list stored) = stored.
Proof.
  destruct stored as [name|]; [|reflexivity]. cbn.
  destruct (bool_decide_reflect (name = EmptyString)) as [->|_]; reflexivity.
Qed.

Lemma first_name_app names1 names2 :
  first_name (option_list (first_name names1) ++ names2)
  = first_name (names1 ++ names2).
Proof.
  induction names1 as [|name names1 IH]; [reflexivity|].
  cbn [first_name option_list option_rect app].
  destruct (bool_decide_reflect (name = EmptyString)) as [->|Hne].
  - rewrite <- IH.
    destruct (first_name names1) as [m|];
      cbn [default option_list option_rect app first_name]; [reflexivity|].
    rewrite bool_decide_eq_true_2 by reflexivity. reflexivity.
  - rewrite bool_decide_eq_false_2 by exact Hne. reflexivity.
Qed.

(** The handlers of the packets other than scan responses leave the
    devices alone. *)
Lemma handler_keeps_devices packet self self' :
  Packet.packet_type packet <> PacketType.ble_evt_gap_scan_response ->
  _packet_handlers packet self = inr self' ->
  _devices_discovered self' = _devices_discovered self.
Proof.
  intros Hne.
  destruct packet; cbn [_packet_handlers];
    try (intros [= <-]; reflexivity).
  - unfold _ble_evt_attclient_find_information_found.
    assert (Hset : forall r : Result (list gatt.Service),
      and_then r (fun ss => Ok (set_services ss self)) = inr self' ->
      _devices_discovered self' = _devices_discovered self).
    { intros [e|ss]; simpl; [discriminate|]. intros [= <-]. reflexivity. }
    destruct (Uuid_len _ =? 128); [apply Hset|].
    destruct (UUID_STRING_TO_ATTRIBUTE_TYPE !! _) as [[| | |?]|];
      try (intros [= <-]; reflexivity); try apply Hset.
    destruct (UUID_STRING_TO_CHARACTERISTIC_TYPE !! _); [apply Hset|].
    destruct (UUID_STRING_TO_DESCRIPTOR_TYPE !! _); [apply Hset|].
    intros [= <-]; reflexivity.
  - unfold _ble_evt_connection_status.
    destruct (_connection_status_flag _ _), (_connection_status_flag _ _);
      intros [= <-]; reflexivity.
  - contradiction Hne. reflexivity.
  - unfold _ble_evt_sm_bond_status. destruct (_bond_expected self);
      intros [= <-]; reflexivity.
Qed.

(** The name stored for an address after one handler. *)
Lemma handler_stores_name packet self address :
  stored_name (after_handlers [packet] self) address
  = first_name (option_list (stored_name self address)
                ++ option_list (advertised_name address packet)).
Proof.
  cbn [after_handlers fold_left].
  destruct (decide (Packet.packet_type packet
                    = PacketType.ble_evt_gap_scan_response)) as [Hk|Hk].
  - destruct packet; try discriminate Hk. clear Hk.
    cbn [_packet_handlers advertised_name].
    destruct (_scan_rsp_data data) as [e|[n d]] eqn:Hd.
    + rewrite (scan_response_raises _ _ _ _ _ _ Hd).
      destruct (bool_decide _); cbn [option_list option_rect]; rewrite app_nil_r;
        symmetry; apply first_name_stored.
    + destruct (scan_response_stores rssi packet_type sender data self n d Hd)
        as (dev & -> & Hname & _).
      unfold stored_name. unfold Ok. cbv beta iota.
      cbn [_devices_discovered set_devices_discovered].
      destruct (bool_decide_reflect (address_of sender = address))
        as [<-|Hneq].
      * rewrite lookup_insert_eq. cbn [fmap option_fmap option_map].
        rewrite Hname.
        destruct (_devices_discovered self !! address_of sender) as [old|];
          cbn [fmap option_fmap option_map option_list option_rect app first_name default].
        -- destruct (bool_decide (dev_name old = EmptyString));
             [|reflexivity].
           destruct (bool_decide_reflect (n = EmptyString)) as [->|Hn];
             reflexivity.
        -- destruct (bool_decide_reflect (n = EmptyString)) as [->|Hn];
             reflexivity.
      * rewrite lookup_insert_ne by exact Hneq.
        cbn [option_list option_rect]. rewrite app_nil_r.
        symmetry. apply (first_name_stored (dev_name <$> _)).
  - assert (Hnone : advertised_name address packet = None).
    { destruct packet; try reflexivity. contradiction Hk. reflexivity. }
    rewrite Hnone. cbn [option_list option_rect]. rewrite app_nil_r, first_name_stored.
    destruct (_packet_handlers packet self) as [e|self'] eqn:Hh;
      [reflexivity|].
    unfold stored_name. rewrite (handler_keeps_devices _ _ _ Hk Hh).
    reflexivity.
Qed.

Lemma handlers_store_name packets :
  forall self address,
    stored_name (after_handlers packets self) address
    = first_name (option_list (stored_name self address)
                  ++ omap (advertised_name address) packets).
Proof.
  induction packets as [|packet packets IH]; intros self address.
  - cbn. rewrite app_nil_r, first_name_stored. reflexivity.
  - change (after_handlers (packet :: packets) self)
      with (after_handlers packets (after_handlers [packet] self)).
    rewrite IH, handler_stores_name, first_name_app, <- app_assoc.
    f_equal. f_equal. cbn [omap list_omap].
    destruct (advertised_name address packet); reflexivity.
Qed.

(** C5.  A scan-response event for a device and a packet kind of which a
    field map is stored replaces the stored map by its own exactly when
    its own has strictly more fields, and keeps the stored one otherwise.
    So for two events of one device and one kind, the first of which finds
    nothing stored for the kind, the map stored after the second is the
    second's when it has strictly more fields than the first's, and the
    first's otherwise.  A stored name that is not empty is the stored
    name after the handlers of any later packets; a stored name that is
    empty is replaced by the name of the next scan response of the
    device.  So the name stored for an address after the handlers of any
    packets is the first that is not empty among the name stored before
    and the names of the scan responses of that address, in order of
    arrival. *)
Theorem scan_response_merge_rule :
  (forall self rssi pt sender data name data_dict stored,
     _scan_rsp_data data = Ok (name, data_dict) ->
     stored_packet_data self (address_of sender)
       (scan_response_packet_type pt) = Some stored ->
     exists self',
       _ble_evt_gap_scan_response rssi pt sender data self = Ok self'
       /\ stored_packet_data self' (address_of sender)
            (scan_response_packet_type pt)
          = Some (if bool_decide (size stored < size data_dict)%nat
                  then data_dict else stored))
  /\ (forall self rssi1 rssi2 pt sender data1 data2 name1 dict1 name2 dict2,
        _scan_rsp_data data1 = Ok (name1, dict1) ->
        _scan_rsp_data data2 = Ok (name2, dict2) ->
        stored_packet_data self (address_of sender)
          (scan_response_packet_type pt) = None ->
        exists self1 self2,
          _ble_evt_gap_scan_response rssi1 pt sender data1 self = Ok self1
          /\ _ble_evt_gap_scan_response rssi2 pt sender data2 self1 = Ok self2
          /\ stored_packet_data self1 (address_of sender)
               (scan_response_packet_type pt) = Some dict1
          /\ stored_packet_data self2 (address_of sender)
               (scan_response_packet_type pt)
             = Some (if bool_decide (size dict1 < size dict2)%nat
                     then dict2 else dict1))
  /\ (forall packets self address name,
        stored_name self address = Some name ->
        name <> EmptyString ->
        stored_name (after_handlers packets self) address = Some name)
  /\ (forall self rssi pt sender data name data_dict,
        _scan_rsp_data data = Ok (name, data_dict) ->
        stored_name self (address_of sender) = Some EmptyString ->
        exists self',
          _ble_evt_gap_scan_response rssi pt sender data self = Ok self'
          /\ stored_name self' (address_of sender) = Some name)
  /\ (forall packets self address,
        stored_name (after_handlers packets self) address
        = first_name (option_list (stored_name self address)
                      ++ omap (advertised_name address) packets)).
Proof.
  assert (Hone : forall self rssi pt sender data name data_dict,
    _scan_rsp_data data = Ok (name, data_dict) ->
    exists self',
      _ble_evt_gap_scan_response rssi pt sender data self = Ok self'
      /\ stored_packet_data self' (address_of sender)
           (scan_response_packet_type pt)
         = match stored_packet_data self (address_of sender)
                   (scan_response_packet_type pt) with
           | Some stored =>
               Some (if bool_decide (size stored < size data_dict)%nat
                     then data_dict else stored)
           | None => Some data_dict
           end).
  { intros self rssi pt sender data name data_dict Hd.
    destruct (scan_response_stores rssi pt sender data self name data_dict Hd)
      as (dev & Heq & _ & Hpd).
    eexists. split; [exact Heq|].
    unfold stored_packet_data at 1.
    cbn [_devices_discovered set_devices_discovered].
    rewrite lookup_insert_eq. exact Hpd. }
  split; [|split; [|split; [|split]]].
  - intros self rssi pt sender data name data_dict stored Hd Hst.
    destruct (Hone self rssi pt sender data name data_dict Hd)
      as (self' & Heq & Hpd).
    exists self'. split; [exact Heq|]. rewrite Hpd, Hst. reflexivity.
  - intros self rssi1 rssi2 pt sender data1 data2 name1 dict1 name2 dict2
      Hd1 Hd2 Hnone.
    destruct (Hone self rssi1 pt sender data1 name1 dict1 Hd1)
      as (self1 & Heq1 & Hpd1).
    rewrite Hnone in Hpd1.
    destruct (Hone self1 rssi2 pt sender data2 name2 dict2 Hd2)
      as (self2 & Heq2 & Hpd2).
    rewrite Hpd1 in Hpd2.
    exists self1, self2. auto.
  - intros packets. induction packets as [|packet packets IH];
      intros self address name Hn Hne.
    + exact Hn.
    + cbn [after_handlers fold_left].
      destruct (_packet_handlers packet self) as [e|self'] eqn:Hh.
      * apply IH; assumption.
      * apply IH; [|exact Hne].
        eapply handler_keeps_name; eassumption.
  - intros self rssi pt sender data name data_dict Hd Hempty.
    destruct (scan_response_stores rssi pt sender data self name data_dict Hd)
      as (dev & Heq & Hname & _).
    eexists. split; [exact Heq|].
    unfold stored_name in *.
    cbn [_devices_discovered set_devices_discovered].
    rewrite lookup_insert_eq. cbn [fmap option_fmap option_map].
    rewrite Hname.
    destruct (_devices_discovered self !! address_of sender) as [old|];
      [|discriminate].
    cbn [fmap option_fmap option_map] in Hempty.
    injection Hempty as ->. reflexivity.
  - intros packets self address. apply handlers_store_name.
Qed.

End ScanResponse.

Section ScanResponseExamples.

#[local] Existing Instance bluegiga.

(** An advertisement with the flags alone, then one of the same device and
    kind with the flags and the complete local name: the second, with two
    fields against one, replaces the first, and fills in the name, which
    a third advertisement with another name does not change. *)
Lemma scan_response_merge_rule_witness :
  exists self1 self2,
    _ble_evt_gap_scan_response (-40) 4 [1; 2; 3; 4; 5; 6] [2; 1; 6] init
    = Ok self1
    /\ _ble_evt_gap_scan_response (-38) 4 [1; 2; 3; 4; 5; 6]
         [2; 1; 6; 4; 9; 65; 66; 67] self1
       = Ok self2
    /\ stored_packet_data self1 "06:05:04:03:02:01"
         (Some "scan_response_packet")
       = Some {[ "flags" := field_bytearray [6] ]}
    /\ stored_packet_data self2 "06:05:04:03:02:01"
         (Some "scan_response_packet")
       = Some (<[ "complete_local_name" := field_str "ABC" ]>
                 {[ "flags" := field_bytearray [6] ]})
    /\ stored_name self1 "06:05:04:03:02:01" = Some EmptyString
    /\ stored_name self2 "06:05:04:03:02:01" = Some "ABC"
    /\ stored_name
         (after_handlers
            [ Packet.ble_evt_gap_scan_response (-35) 4 [1; 2; 3; 4; 5; 6]
                0 255 [2; 1; 6; 4; 9; 88; 89; 90] ]
            self2)
         "06:05:04:03:02:01"
       = Some "ABC".
Proof.
  destruct (proj1 (proj2 scan_response_merge_rule) init (-40) (-38) 4
              [1; 2; 3; 4; 5; 6] [2; 1; 6] [2; 1; 6; 4; 9; 65; 66; 67]
              EmptyString {[ "flags" := field_bytearray [6] ]}
              "ABC"
              (<[ "complete_local_name" := field_str "ABC" ]>
                 {[ "flags" := field_bytearray [6] ]}))
    as (self1 & self2 & H1 & H2 & H3 & H4).
  - vm_compute. reflexivity.
  - vm_compute. reflexivity.
  - reflexivity.
  - assert (Hn1 : stored_name self1 "06:05:04:03:02:01" = Some EmptyString).
    { injection H1 as <-. vm_compute. reflexivity. }
    destruct (proj1 (proj2 (proj2 (proj2 scan_response_merge_rule)))
                self1 (-38) 4 [1; 2; 3; 4; 5; 6]
                [2; 1; 6; 4; 9; 65; 66; 67] "ABC"
                (<[ "complete_local_name" := field_str "ABC" ]>
                   {[ "flags" := field_bytearray [6] ]}))
      as (self2' & H2' & Hn2).
    + vm_compute. reflexivity.
    + exact Hn1.
    + assert (self2' = self2) as -> by (unfold Ok in *; congruence).
      exists self1, self2. repeat split; try assumption.
      apply (proj1 (proj2 (proj2 scan_response_merge_rule))).
      * exact Hn2.
      * discriminate.
Defined.

End ScanResponseExamples.

(** ** Attribute discovery *)

Section Discovery.

Context {cat : Catalogue}.

Lemma unsnoc_snoc {A : Type} (l : list A) (x : A) :
  unsnoc (l ++ [x]) = Some (l, x).
Proof.
  induction l as [|y l IH]; simpl; [reflexivity|]. rewrite IH. reflexivity.
Qed.

Lemma unsnoc_None {A : Type} (l : list A) : unsnoc l = None <-> l = [].
Proof.
  split; [|intros ->; reflexivity].
  destruct l as [|x l]; [reflexivity|]. simpl.
  destruct (unsnoc l) as [[front y]|]; discriminate.
Qed.

Lemma update_last_snoc {A : Type} (f : A -> Result A) (l : list A) (x : A) :
  update_last f (l ++ [x]) = and_then (f x) (fun x' => Ok (l ++ [x'])).
Proof. unfold update_last. rewrite unsnoc_snoc. reflexivity. Qed.

Lemma update_last_nil {A : Type} (f : A -> Result A) :
  update_last f [] = Err IndexError.
Proof. reflexivity. Qed.

Lemma neq_128 (n : Z) : n <> 128 -> (n =? 128) = false.
Proof. intros H. apply Z.eqb_neq. exact H. Qed.

Lemma find_information_service self chrhandle uuid sec :
  is_service_uuid sec (uuid_of uuid) ->
  _ble_evt_attclient_find_information_found chrhandle uuid self
  = Ok (set_services
          (_services self ++ [gatt.new_Service chrhandle (uuid_of uuid) sec])
          self).
Proof.
  intros [Hlen Hatt]. unfold _ble_evt_attclient_find_information_found.
  fold (uuid_of uuid). rewrite (neq_128 _ Hlen), Hatt.
  destruct sec; reflexivity.
Qed.

Lemma find_information_characteristic self chrhandle uuid front s :
  is_characteristic_uuid (uuid_of uuid) ->
  _services self = front ++ [s] ->
  _ble_evt_attclient_find_information_found chrhandle uuid self
  = Ok (set_services
          (front ++
           [with_characteristic s
              (gatt.new_Characteristic chrhandle (uuid_of uuid))])
          self).
Proof.
  intros [Hlen Hatt] Hs. unfold _ble_evt_attclient_find_information_found.
  fold (uuid_of uuid). rewrite (neq_128 _ Hlen), Hatt, Hs, update_last_snoc.
  reflexivity.
Qed.

Lemma find_information_descriptor self chrhandle uuid desc_type
    front s cfront c :
  is_descriptor_uuid desc_type (uuid_of uuid) ->
  _services self = front ++ [s] ->
  gatt.characteristics s = cfront ++ [c] ->
  _ble_evt_attclient_find_information_found chrhandle uuid self
  = Ok (set_services
          (front ++
           [with_last_characteristic s cfront
              (with_descriptor c
                 (gatt.mkDescriptor chrhandle (uuid_of uuid) desc_type))])
          self).
Proof.
  intros (Hlen & Hatt & Hchar & Hdesc) Hs Hc.
  unfold _ble_evt_attclient_find_information_found.
  fold (uuid_of uuid).
  rewrite (neq_128 _ Hlen), Hatt, Hchar, Hdesc, Hs, update_last_snoc.
  unfold on_last_characteristic. rewrite Hc, update_last_snoc.
  reflexivity.
Qed.

(** C6.  The find-information handler appends a service for the UUID of a
    primary or secondary service, appends a characteristic to the last
    service for the UUID of a characteristic declaration, and appends a
    descriptor to the last characteristic of the last service for the UUID
    of a descriptor.  So the events {primary service, characteristic,
    descriptor} twice over, handled from an empty accumulator, leave two
    services in the order of arrival, each with one characteristic that
    has one descriptor. *)
Theorem find_information_builds_hierarchy :
  (forall self chrhandle uuid sec,
     is_service_uuid sec (uuid_of uuid) ->
     _ble_evt_attclient_find_information_found chrhandle uuid self
     = Ok (set_services
             (_services self
              ++ [gatt.mkService chrhandle (uuid_of uuid) sec []])
             self))
  /\ (forall self chrhandle uuid front s,
        is_characteristic_uuid (uuid_of uuid) ->
        _services self = front ++ [s] ->
        _ble_evt_attclient_find_information_found chrhandle uuid self
        = Ok (set_services
                (front ++
                 [with_characteristic s
                    (gatt.mkCharacteristic chrhandle (uuid_of uuid)
                       false None [])])
                self))
  /\ (forall self chrhandle uuid desc_type front s cfront c,
        is_descriptor_uuid desc_type (uuid_of uuid) ->
        _services self = front ++ [s] ->
        gatt.characteristics s = cfront ++ [c] ->
        _ble_evt_attclient_find_information_found chrhandle uuid self
        = Ok (set_services
                (front ++
                 [with_last_characteristic s cfront
                    (with_descriptor c
                       (gatt.mkDescriptor chrhandle (uuid_of uuid)
                          desc_type))])
                self))
  /\ (forall self c1 c2 c3 c4 c5 c6 h1 h2 h3 h4 h5 h6 u1 u2 u3 u4 u5 u6 t3 t6,
        _services self = [] ->
        is_service_uuid false (uuid_of u1) ->
        is_characteristic_uuid (uuid_of u2) ->
        is_descriptor_uuid t3 (uuid_of u3) ->
        is_service_uuid false (uuid_of u4) ->
        is_characteristic_uuid (uuid_of u5) ->
        is_descriptor_uuid t6 (uuid_of u6) ->
        apply_all
          [ Packet.ble_evt_attclient_find_information_found c1 h1 u1;
            Packet.ble_evt_attclient_find_information_found c2 h2 u2;
            Packet.ble_evt_attclient_find_information_found c3 h3 u3;
            Packet.ble_evt_attclient_find_information_found c4 h4 u4;
            Packet.ble_evt_attclient_find_information_found c5 h5 u5;
            Packet.ble_evt_attclient_find_information_found c6 h6 u6 ]
          self
        = Ok (set_services
                [ gatt.mkService h1 (uuid_of u1) false
                    [ gatt.mkCharacteristic h2 (uuid_of u2) false None
                        [ gatt.mkDescriptor h3 (uuid_of u3) t3 ] ];
                  gatt.mkService h4 (uuid_of u4) false
                    [ gatt.mkCharacteristic h5 (uuid_of u5) false None
                        [ gatt.mkDescriptor h6 (uuid_of u6) t6 ] ] ]
                self)).
Proof.
  split; [|split; [|split]].
  - intros. apply find_information_service. assumption.
  - intros. apply find_information_characteristic; assumption.
  - intros. apply find_information_descriptor; assumption.
  - intros self c1 c2 c3 c4 c5 c6 h1 h2 h3 h4 h5 h6 u1 u2 u3 u4 u5 u6 t3 t6
      Hempty H1 H2 H3 H4 H5 H6.
    cbn [apply_all _packet_handlers].
    rewrite (find_information_service _ _ _ _ H1), Hempty.
    cbn [and_then Ok app].
    erewrite (find_information_characteristic _ _ _ []);
      [|exact H2|reflexivity].
    cbn [and_then Ok app].
    erewrite (find_information_descriptor _ _ _ _ [] _ []);
      [|exact H3|reflexivity|reflexivity].
    cbn [and_then Ok app].
    rewrite (find_information_service _ _ _ _ H4).
    cbn [and_then Ok app _services set_services].
    erewrite (find_information_characteristic _ _ _ [_]);
      [|exact H5|reflexivity].
    cbn [and_then Ok app].
    erewrite (find_information_descriptor _ _ _ _ [_] _ []);
      [|exact H6|reflexivity|reflexivity].
    reflexivity.
Qed.

End Discovery.

Section DiscoveryExamples.

#[local] Existing Instance bluegiga.

(** Two primary services, each with a characteristic declaration and a
    client characteristic configuration descriptor, discovered from the
    initial state. *)
Lemma find_information_builds_hierarchy_witness :
  apply_all
    [ Packet.ble_evt_attclient_find_information_found 0 1 [0; 40];
      Packet.ble_evt_attclient_find_information_found 0 2 [3; 40];
      Packet.ble_evt_attclient_find_information_found 0 3 [2; 41];
      Packet.ble_evt_attclient_find_information_found 0 4 [0; 40];
      Packet.ble_evt_attclient_find_information_found 0 5 [3; 40];
      Packet.ble_evt_attclient_find_information_found 0 6 [2; 41] ]
    init
  = Ok (set_services
          [ gatt.mkService 1 (gatt.mkUuid "2800") false
              [ gatt.mkCharacteristic 2 (gatt.mkUuid "2803") false None
                  [ gatt.mkDescriptor 3 (gatt.mkUuid "2902")
                      gatt.client_characteristic_configuration ] ];
            gatt.mkService 4 (gatt.mkUuid "2800") false
              [ gatt.mkCharacteristic 5 (gatt.mkUuid "2803") false None
                  [ gatt.mkDescriptor 6 (gatt.mkUuid "2902")
                      gatt.client_characteristic_configuration ] ] ]
          init).
Proof.
  apply (proj2 (proj2 (proj2 find_information_builds_hierarchy)) init
           0 0 0 0 0 0 1 2 3 4 5 6
           [0; 40] [3; 40] [2; 41] [0; 40] [3; 40] [2; 41]
           gatt.client_characteristic_configuration
           gatt.client_characteristic_configuration).
  - reflexivity.
  - split; [discriminate|reflexivity].
  - split; [discriminate|reflexivity].
  - repeat split; try reflexivity. discriminate.
  - split; [discriminate|reflexivity].
  - split; [discriminate|reflexivity].
  - repeat split; try reflexivity. discriminate.
Defined.

End DiscoveryExamples.

(** ** Partiality of attribute discovery *)

Section DiscoveryPartial.

Context {cat : Catalogue}.

Lemma snoc_cases {A : Type} (l : list A) :
  l = [] \/ exists front x, l = front ++ [x].
Proof.
  induction l as [|x l _] using rev_ind; [left; reflexivity|].
  right. eauto.
Qed.

(** The three branches that index the last characteristic of the last
    service, [f] being their update of that characteristic. *)
Lemma on_last_of_last f self :
  (forall c, exists c', f c = Ok c') ->
  (_services self = [] ->
   and_then (update_last (on_last_characteristic f) (_services self))
     (fun ss => Ok (set_services ss self)) = Err IndexError)
  /\ (forall front s,
        _services self = front ++ [s] ->
        gatt.characteristics s = [] ->
        and_then (update_last (on_last_characteristic f) (_services self))
          (fun ss => Ok (set_services ss self)) = Err IndexError)
  /\ (forall front s cfront c,
        _services self = front ++ [s] ->
        gatt.characteristics s = cfront ++ [c] ->
        exists self',
          and_then (update_last (on_last_characteristic f) (_services self))
            (fun ss => Ok (set_services ss self)) = Ok self').
Proof.
  intros Hf. split; [|split].
  - intros ->. reflexivity.
  - intros front s -> Hc. rewrite update_last_snoc.
    unfold on_last_characteristic. rewrite Hc. reflexivity.
  - intros front s cfront c -> Hc. rewrite update_last_snoc.
    unfold on_last_characteristic. rewrite Hc, update_last_snoc.
    destruct (Hf c) as [c' ->]. cbn. eauto.
Qed.

(** C10.  The find-information handler is partial.  It raises nothing but
    [IndexError], and raises it exactly in two situations: the event is
    one whose branch indexes the last service (a 128-bit UUID, a
    characteristic declaration, a characteristic type or a descriptor
    type) and the accumulator is empty; or the event is one whose branch
    indexes the last characteristic (all of these but the characteristic
    declaration) and the last service has no characteristic.  When the
    accumulator ends in a service that has a characteristic, the handler
    completes for every event. *)
Theorem find_information_partial :
  (forall self chrhandle uuid e,
     _ble_evt_attclient_find_information_found chrhandle uuid self = inl e ->
     e = IndexError
     /\ ((indexes_last_service (uuid_of uuid) = true /\ _services self = [])
         \/ (indexes_last_characteristic (uuid_of uuid) = true
             /\ exists front s,
                  _services self = front ++ [s]
                  /\ gatt.characteristics s = [])))
  /\ (forall self chrhandle uuid,
        indexes_last_service (uuid_of uuid) = true ->
        _services self = [] ->
        _ble_evt_attclient_find_information_found chrhandle uuid self
        = Err IndexError)
  /\ (forall self chrhandle uuid front s,
        indexes_last_characteristic (uuid_of uuid) = true ->
        _services self = front ++ [s] ->
        gatt.characteristics s = [] ->
        _ble_evt_attclient_find_information_found chrhandle uuid self
        = Err IndexError)
  /\ (forall self chrhandle uuid front s cfront c,
        _services self = front ++ [s] ->
        gatt.characteristics s = cfront ++ [c] ->
        exists self',
          _ble_evt_attclient_find_information_found chrhandle uuid self
          = Ok self').
Proof.
  assert (Hmark : forall u h c, exists c', mark_custom u h c = Ok c')
    by (intros; eexists; reflexivity).
  assert (Htype : forall t c, exists c', set_characteristic_type t c = Ok c')
    by (intros; eexists; reflexivity).
  assert (Hdesc : forall d c, exists c', append_descriptor d c = Ok c')
    by (intros; eexists; reflexivity).
  split; [|split; [|split]].
  - intros self chrhandle uuid e.
    unfold _ble_evt_attclient_find_information_found,
      indexes_last_service, indexes_last_characteristic.
    fold (uuid_of uuid).
    assert (Hchain : forall f,
      (forall c, exists c', f c = Ok c') ->
      and_then (update_last (on_last_characteristic f) (_services self))
        (fun ss => Ok (set_services ss self)) = inl e ->
      e = IndexError
      /\ (_services self = []
          \/ exists front s,
               _services self = front ++ [s] /\ gatt.characteristics s = [])).
    { intros f Hf He.
      destruct (on_last_of_last f self Hf) as (H0 & H1 & H2).
      destruct (snoc_cases (_services self)) as [Hs|(front & s & Hs)].
      - rewrite (H0 Hs) in He. injection He as <-. auto.
      - destruct (snoc_cases (gatt.characteristics s)) as [Hc|(cf & c & Hc)].
        + rewrite (H1 _ _ Hs Hc) in He. injection He as <-.
          split; [reflexivity|]. right. eauto.
        + destruct (H2 _ _ _ _ Hs Hc) as [self' Hok].
          rewrite Hok in He. discriminate. }
    destruct (Uuid_len (uuid_of uuid) =? 128).
    { intros He. destruct (Hchain _ (Hmark _ _) He) as [-> [Hs|Hs]]; auto. }
    destruct (UUID_STRING_TO_ATTRIBUTE_TYPE !! Uuid_str (uuid_of uuid))
      as [[| | |?]|]; try discriminate.
    + intros He. cbn [orb].
      destruct (snoc_cases (_services self)) as [Hs|(front & s & Hs)].
      * rewrite Hs in He. injection He as <-.
        split; [reflexivity|]. left. split; [|exact Hs].
        apply bool_decide_eq_true_2. reflexivity.
      * rewrite Hs, update_last_snoc in He. discriminate.
    + destruct (UUID_STRING_TO_CHARACTERISTIC_TYPE !! Uuid_str (uuid_of uuid)).
      { intros He. destruct (Hchain _ (Htype _) He) as [-> [Hs|Hs]]; auto. }
      destruct (UUID_STRING_TO_DESCRIPTOR_TYPE !! Uuid_str (uuid_of uuid)).
      { intros He. destruct (Hchain _ (Hdesc _) He) as [-> [Hs|Hs]].
        - split; [reflexivity|]. left. split; [|exact Hs]. reflexivity.
        - split; [reflexivity|]. right. split; [|exact Hs]. reflexivity. }
      discriminate.
  - intros self chrhandle uuid Hidx Hs.
    unfold _ble_evt_attclient_find_information_found.
    unfold indexes_last_service, indexes_last_characteristic in Hidx.
    fold (uuid_of uuid).
    destruct (Uuid_len (uuid_of uuid) =? 128).
    { apply (on_last_of_last _ self (Hmark _ _)). exact Hs. }
    destruct (UUID_STRING_TO_ATTRIBUTE_TYPE !! Uuid_str (uuid_of uuid))
      as [[| | |?]|]; try discriminate.
    + rewrite Hs. reflexivity.
    + destruct (UUID_STRING_TO_CHARACTERISTIC_TYPE !! Uuid_str (uuid_of uuid)).
      { apply (on_last_of_last _ self (Htype _)). exact Hs. }
      destruct (UUID_STRING_TO_DESCRIPTOR_TYPE !! Uuid_str (uuid_of uuid)).
      { apply (on_last_of_last _ self (Hdesc _)). exact Hs. }
      discriminate.
  - intros self chrhandle uuid front s Hidx Hs Hc.
    unfold _ble_evt_attclient_find_information_found.
    unfold indexes_last_characteristic in Hidx.
    fold (uuid_of uuid).
    destruct (Uuid_len (uuid_of uuid) =? 128).
    { eapply (on_last_of_last _ self (Hmark _ _)); eassumption. }
    destruct (UUID_STRING_TO_ATTRIBUTE_TYPE !! Uuid_str (uuid_of uuid))
      as [?|]; [discriminate|].
    destruct (UUID_STRING_TO_CHARACTERISTIC_TYPE !! Uuid_str (uuid_of uuid)).
    { eapply (on_last_of_last _ self (Htype _)); eassumption. }
    destruct (UUID_STRING_TO_DESCRIPTOR_TYPE !! Uuid_str (uuid_of uuid)).
    { eapply (on_last_of_last _ self (Hdesc _)); eassumption. }
    discriminate.
  - intros self chrhandle uuid front s cfront c Hs Hc.
    unfold _ble_evt_attclient_find_information_found.
    fold (uuid_of uuid).
    destruct (Uuid_len (uuid_of uuid) =? 128).
    { eapply (on_last_of_last _ self (Hmark _ _)); eassumption. }
    destruct (UUID_STRING_TO_ATTRIBUTE_TYPE !! Uuid_str (uuid_of uuid))
      as [[| | |?]|]; try (eexists; reflexivity).
    + rewrite Hs, update_last_snoc. eexists. reflexivity.
    + destruct (UUID_STRING_TO_CHARACTERISTIC_TYPE !! Uuid_str (uuid_of uuid)).
      { eapply (on_last_of_last _ self (Htype _)); eassumption. }
      destruct (UUID_STRING_TO_DESCRIPTOR_TYPE !! Uuid_str (uuid_of uuid)).
      { eapply (on_last_of_last _ self (Hdesc _)); eassumption. }
      eexists. reflexivity.
Qed.

End DiscoveryPartial.

Section DiscoveryPartialExamples.

#[local] Existing Instance bluegiga.

(** A descriptor event for an accumulator without a service, and one for
    a service without a characteristic. *)
Lemma find_information_partial_witness :
  _ble_evt_attclient_find_information_found 3 [2; 41] init = Err IndexError
  /\ _ble_evt_attclient_find_information_found 3 [2; 41]
       (set_services [gatt.mkService 1 (gatt.mkUuid "2800") false []] init)
     = Err IndexError.
Proof.
  split.
  - apply (proj1 (proj2 find_information_partial) init 3 [2; 41]);
      reflexivity.
  - apply (proj1 (proj2 (proj2 find_information_partial))
             (set_services [gatt.mkService 1 (gatt.mkUuid "2800") false []]
                init)
             3 [2; 41] [] (gatt.mkService 1 (gatt.mkUuid "2800") false []));
      reflexivity.
Defined.

End DiscoveryPartialExamples.

(** ** Disconnection *)

Section Disconnection.

Context {cat : Catalogue}.

Lemma after_handlers_snoc history packet self :
  after_handlers (history ++ [packet]) self
  = match _packet_handlers packet (after_handlers history self) with
    | inr self' => self'
    | inl _ => after_handlers history self
    end.
Proof. unfold after_handlers. rewrite fold_left_app. reflexivity. Qed.

Lemma last_lifecycle_snoc history packet :
  last_lifecycle (history ++ [packet])
  = if lifecycle packet then Some packet else last_lifecycle history.
Proof.
  unfold last_lifecycle. rewrite filter_app.
  destruct (lifecycle packet) eqn:Hl.
  - rewrite filter_cons_True by exact Hl. rewrite filter_nil.
    apply last_snoc.
  - rewrite filter_cons_False by (rewrite Hl; discriminate).
    rewrite filter_nil, app_nil_r. reflexivity.
Qed.

Lemma last_bonding_snoc history packet :
  last_bonding (history ++ [packet])
  = if bonding packet then Some packet else last_bonding history.
Proof.
  unfold last_bonding. rewrite filter_app.
  destruct (bonding packet) eqn:Hl.
  - rewrite filter_cons_True by exact Hl. rewrite filter_nil.
    apply last_snoc.
  - rewrite filter_cons_False by (rewrite Hl; discriminate).
    rewrite filter_nil, app_nil_r. reflexivity.
Qed.

(** What one handler does to [_encrypted] and to [_bonded]: a handler
    that sets one of them is the handler of a connection-status event,
    respectively of a bond-status event. *)
Lemma handler_flags packet self :
  match _packet_handlers packet self with
  | inr self' =>
      (_encrypted self' = true ->
       (lifecycle packet = false /\ _encrypted self = true)
       \/ (lifecycle packet = true /\ is_disconnection packet = false))
      /\ (_bonded self' = true ->
          (bonding packet = false /\ _bonded self = true)
          \/ (bonding packet = true /\ is_disconnection packet = false))
  | inl _ => lifecycle packet = false /\ bonding packet = false
  end.
Proof.
  destruct packet; cbn [_packet_handlers];
    try (cbn; repeat split; auto; fail).
  - unfold _ble_evt_attclient_find_information_found.
    assert (Hset : forall r : Result (list gatt.Service),
      match and_then r (fun ss => Ok (set_services ss self)) with
      | inr self' =>
          (_encrypted self' = true ->
           (false = false /\ _encrypted self = true)
           \/ (false = true /\ false = false))
          /\ (_bonded self' = true ->
              (false = false /\ _bonded self = true)
              \/ (false = true /\ false = false))
      | inl _ => false = false /\ false = false
      end).
    { intros [e|ss]; cbn; auto. }
    cbn [lifecycle bonding is_disconnection is_bond_status orb].
    destruct (Uuid_len _ =? 128); [apply Hset|].
    destruct (UUID_STRING_TO_ATTRIBUTE_TYPE !! _) as [[| | |?]|];
      try apply Hset; try (cbn; auto; fail).
    destruct (UUID_STRING_TO_CHARACTERISTIC_TYPE !! _); [apply Hset|].
    destruct (UUID_STRING_TO_DESCRIPTOR_TYPE !! _); [apply Hset|].
    cbn; auto.
  - unfold _ble_evt_connection_status.
    destruct (_connection_status_flag _ _), (_connection_status_flag _ _);
      cbn; auto.
  - unfold _ble_evt_gap_scan_response.
    destruct (_scan_rsp_data data) as [e|[n d]]; cbn; auto.
  - unfold _ble_evt_sm_bond_status. destruct (_bond_expected self); cbn; auto.
Qed.

(** C8.  The handler of the disconnected event leaves [_connected],
    [_encrypted] and [_bonded] false and the reason of the event in
    [_event_return].  In every state the handlers reach from a state
    without encryption, [_encrypted] being true implies that the history
    has a most recent event of the life of the connection – status or
    disconnected – and that it is not a disconnection.  In every state
    they reach from a state without bond, [_bonded] being true implies
    that the history has a most recent event among the disconnected and
    the bond-status events and that it is not a disconnection: it is a
    bond-status event. *)
Theorem disconnected_clears_flags :
  (forall connection reason self,
     exists self',
       _packet_handlers
         (Packet.ble_evt_connection_disconnected connection reason) self
       = Ok self'
       /\ _connected self' = false
       /\ _encrypted self' = false
       /\ _bonded self' = false
       /\ _event_return self' = reason)
  /\ (forall self0 history,
        _encrypted self0 = false ->
        _encrypted (after_handlers history self0) = true ->
        exists packet,
          last_lifecycle history = Some packet
          /\ is_disconnection packet = false)
  /\ (forall self0 history,
        _bonded self0 = false ->
        _bonded (after_handlers history self0) = true ->
        exists packet,
          last_bonding history = Some packet
          /\ is_disconnection packet = false
          /\ is_bond_status packet = true).
Proof.
  split; [|split].
  - intros connection reason self. eexists. split; [reflexivity|].
    cbn. auto.
  - intros self0 history Henc0.
    induction history as [|packet history IH] using rev_ind.
    + cbn. rewrite Henc0. discriminate.
    + rewrite after_handlers_snoc, last_lifecycle_snoc.
      pose proof (handler_flags packet (after_handlers history self0))
        as Hstep.
      destruct (_packet_handlers packet (after_handlers history self0))
        as [e|self'].
      * destruct Hstep as [-> _]. exact IH.
      * destruct Hstep as [Henc' _].
        intros He. destruct (Henc' He) as [[Hl Hold]|[Hl Hd]].
        -- rewrite Hl. apply IH. exact Hold.
        -- rewrite Hl. eauto.
  - intros self0 history Hbonded0.
    induction history as [|packet history IH] using rev_ind.
    + cbn. rewrite Hbonded0. discriminate.
    + rewrite after_handlers_snoc, last_bonding_snoc.
      pose proof (handler_flags packet (after_handlers history self0))
        as Hstep.
      destruct (_packet_handlers packet (after_handlers history self0))
        as [e|self'].
      * destruct Hstep as [_ ->]. exact IH.
      * destruct Hstep as [_ Hbonded'].
        intros Hb. destruct (Hbonded' Hb) as [[Hl Hold]|[Hl Hd]].
        -- rewrite Hl. apply IH. exact Hold.
        -- rewrite Hl. exists packet. split; [reflexivity|].
           split; [exact Hd|].
           unfold bonding in Hl. rewrite Hd in Hl. exact Hl.
Qed.

End Disconnection.

Section DisconnectionExamples.

#[local] Existing Instance bluegiga.

(** C8, as the specification has it, fails for [_bonded].  [bond] sets
    [_bond_expected], and the handler of the disconnected event leaves it
    set: a bond-status event handled after the disconnection sets
    [_bonded], and the most recent event of the life of the connection
    is then the disconnection.  The second part has [bond] itself bring
    about such a state: the connection is lost while [bond] waits for
    its first response. *)
Lemma bonded_after_disconnection :
  _bonded
    (after_handlers
       [ Packet.ble_evt_connection_status 0 3 [] 0 0 0 0 0;
         Packet.ble_evt_connection_disconnected 0 520;
         Packet.ble_evt_sm_bond_status 0 16 0 7 ]
       (set_bond_expected true init))
  = true
  /\ last_lifecycle
       [ Packet.ble_evt_connection_status 0 3 [] 0 0 0 0 0;
         Packet.ble_evt_connection_disconnected 0 520;
         Packet.ble_evt_sm_bond_status 0 16 0 7 ]
     = Some (Packet.ble_evt_connection_disconnected 0 520)
  /\ is_disconnection (Packet.ble_evt_connection_disconnected 0 520) = true
  /\ exists s env',
       bond (set_connected true init)
         (mkEnv 0
            [ mkPoll 10 (Some (Packet.ble_evt_connection_disconnected 0 520)) ])
       = Raised NotConnectedError s env'
       /\ _bond_expected s = true
       /\ _bonded s = false
       /\ _bonded
            (after_handlers [ Packet.ble_evt_sm_bond_status 0 16 0 7 ] s)
          = true.
Proof.
  split; [reflexivity|]. split; [reflexivity|]. split; [reflexivity|].
  eexists _, _. split; [vm_compute; reflexivity|].
  repeat split; reflexivity.
Qed.

(** A connection that is encrypted, lost, and made again with
    encryption: the state is encrypted and the most recent event of the
    life of the connection is the second status event.  And a bond that
    is expected and confirmed after a disconnection: the most recent of
    the disconnected and bond-status events is the bond-status event. *)
Lemma disconnected_clears_flags_witness :
  (_encrypted
     (after_handlers
        [ Packet.ble_evt_connection_status 0 3 [] 0 0 0 0 0;
          Packet.ble_evt_connection_disconnected 0 520;
          Packet.ble_evt_connection_status 1 3 [] 0 0 0 0 0;
          Packet.ble_rsp_gap_set_mode 0 ]
        init)
   = true
   /\ exists packet,
        last_lifecycle
          [ Packet.ble_evt_connection_status 0 3 [] 0 0 0 0 0;
            Packet.ble_evt_connection_disconnected 0 520;
            Packet.ble_evt_connection_status 1 3 [] 0 0 0 0 0;
            Packet.ble_rsp_gap_set_mode 0 ]
        = Some packet
        /\ is_disconnection packet = false)
  /\ (_bonded
        (after_handlers
           [ Packet.ble_evt_connection_disconnected 0 520;
             Packet.ble_evt_sm_bond_status 0 16 0 7;
             Packet.ble_evt_connection_status 1 1 [] 0 0 0 0 0 ]
           (set_bond_expected true init))
      = true
      /\ exists packet,
           last_bonding
             [ Packet.ble_evt_connection_disconnected 0 520;
               Packet.ble_evt_sm_bond_status 0 16 0 7;
               Packet.ble_evt_connection_status 1 1 [] 0 0 0 0 0 ]
           = Some packet
           /\ is_disconnection packet = false
           /\ is_bond_status packet = true).
Proof.
  split; (split; [reflexivity|]).
  - apply (proj1 (proj2 disconnected_clears_flags) init); reflexivity.
  - apply (proj2 (proj2 disconnected_clears_flags)
             (set_bond_expected true init)); reflexivity.
Defined.

End DisconnectionExamples.

(** ** Bond *)

Section Bond.

Context {cat : Catalogue}.

(** A wait that returns has popped at least one poll. *)
Lemma process_packets_shrinks expected timeout exn start :
  forall queue now self a s e,
    process_packets expected timeout exn start queue now self
    = Returned a s e ->
    (length (polls e) < length queue)%nat.
Proof.
  induction queue as [|poll queue IH]; intros now self a s e; simpl.
  - destruct (timed_out _ _ _); discriminate.
  - destruct (timed_out _ _ _); [discriminate|].
    destruct (item poll) as [packet|].
    + destruct (_packet_handlers packet self) as [x|self']; [discriminate|].
      destruct (bool_decide _).
      * intros [= _ _ <-]. simpl. lia.
      * intros H. apply IH in H. lia.
    + intros H. apply IH in H. lia.
Qed.

Lemma wait_shrinks expected timeout exn self env a s e :
  _process_packets_until expected timeout exn self env = Returned a s e ->
  (length (polls e) < length (polls env))%nat.
Proof. apply process_packets_shrinks. Qed.

Lemma wait_empty expected exn self env :
  polls env = [] ->
  _process_packets_until expected None exn self env = Waiting self.
Proof. unfold _process_packets_until. intros ->. reflexivity. Qed.

Lemma bond_wait_step fuel self env :
  bond_wait_for_event (S fuel) self env
  = if bond_pending self
    then (_process_packets_until bond_events None BGAPIError;;
          bond_wait_for_event fuel) self env
    else Returned tt self env.
Proof. reflexivity. Qed.

(** The bound on the iterations is never what ends the loop. *)
Lemma bond_wait_fuel :
  forall n m self env,
    (length (polls env) <= n)%nat ->
    (length (polls env) <= m)%nat ->
    bond_wait_for_event n self env = bond_wait_for_event m self env.
Proof.
  assert (Hzero : forall m self env,
    polls env = [] ->
    bond_wait_for_event 0 self env = bond_wait_for_event m self env).
  { intros [|m] self env Hq; [reflexivity|].
    rewrite bond_wait_step. cbn [bond_wait_for_event].
    destruct (bond_pending self); [|reflexivity].
    rewrite bind_unfold, (wait_empty _ _ _ _ Hq). reflexivity. }
  induction n as [|n IH]; intros m self env Hn Hm.
  - apply Hzero. destruct (polls env); [reflexivity|simpl in Hn; lia].
  - destruct m as [|m].
    + symmetry. apply Hzero.
      destruct (polls env); [reflexivity|simpl in Hm; lia].
    + rewrite !bond_wait_step.
      destruct (bond_pending self); [|reflexivity].
      rewrite !bind_unfold.
      destruct (_process_packets_until bond_events None BGAPIError self env)
        as [[] s e|x s e|s] eqn:Hw; try reflexivity.
      apply wait_shrinks in Hw. apply IH; lia.
Qed.

Lemma bond_pending_false self :
  bond_pending self = false <->
  _bonding_fail self = true \/ _connected self = false
  \/ _bonded self = true \/ _encrypted self = true.
Proof.
  unfold bond_pending.
  destruct (_bonding_fail self), (_connected self), (_bonded self),
    (_encrypted self); cbn; intuition discriminate.
Qed.

Lemma bond_wait_exit fuel :
  forall self env s e,
    bond_wait_for_event fuel self env = Returned tt s e ->
    bond_pending s = false.
Proof.
  induction fuel as [|fuel IH]; intros self env s e.
  - cbn [bond_wait_for_event].
    destruct (bond_pending self) eqn:Hp; [discriminate|].
    intros [= <- _]. exact Hp.
  - rewrite bond_wait_step.
    destruct (bond_pending self) eqn:Hp.
    + rewrite bind_unfold.
      destruct (_process_packets_until bond_events None BGAPIError self env)
        as [[] s1 e1|x s1 e1|s1]; try discriminate.
      apply IH.
    + intros [= <- _]. exact Hp.
Qed.

(** C7, as the code has it.  The loop of [bond] returns only in a state
    where [_bonding_fail] is set, or the connection is down, or [_bonded]
    is set, or [_encrypted] is set; in such a state it returns at once,
    without a poll; in any other state it waits for a connection-status,
    bonding-fail or disconnected event and goes round again.  [bond] is
    its first part followed by the loop and the final checks, and when the
    loop ends in a state that is connected and has [_bonding_fail] set,
    these raise [BGAPIError]. *)
Theorem bond_loop_exit_condition :
  (forall self env s e,
     bond_loop self env = Returned tt s e ->
     _bonding_fail s = true \/ _connected s = false
     \/ _bonded s = true \/ _encrypted s = true)
  /\ (forall self env,
        _bonding_fail self = true \/ _connected self = false
        \/ _bonded self = true \/ _encrypted self = true ->
        bond_loop self env = Returned tt self env)
  /\ (forall self env,
        _bonding_fail self = false -> _connected self = true ->
        _bonded self = false -> _encrypted self = false ->
        bond_loop self env
        = (_process_packets_until bond_events None BGAPIError;; bond_loop)
            self env)
  /\ (forall self env s1 e1,
        bond_begin self env = Returned tt s1 e1 ->
        bond self env = bond_end s1 e1)
  /\ (forall self env s e,
        bond_loop self env = Returned tt s e ->
        _connected s = true ->
        _bonding_fail s = true ->
        bond_end self env = Raised BGAPIError s e).
Proof.
  split; [|split; [|split; [|split]]].
  - intros self env s e H. apply bond_pending_false.
    eapply bond_wait_exit. exact H.
  - intros self env H. apply bond_pending_false in H.
    unfold bond_loop. destruct (length (polls env));
      cbn [bond_wait_for_event]; rewrite H; reflexivity.
  - intros self env Hf Hc Hb He.
    assert (Hp : bond_pending self = true).
    { unfold bond_pending. rewrite Hf, Hc, Hb, He. reflexivity. }
    unfold bond_loop at 1.
    rewrite (bond_wait_fuel _ (S (length (polls env))) self env)
      by lia.
    rewrite bond_wait_step, Hp, !bind_unfold.
    destruct (_process_packets_until bond_events None BGAPIError self env)
      as [[] s1 e1|x s1 e1|s1] eqn:Hw; try reflexivity.
    unfold bond_loop. apply wait_shrinks in Hw. apply bond_wait_fuel; lia.
  - intros self env s1 e1 H. unfold bond.
    rewrite (bind_returned _ _ _ _ _ _ _ H). reflexivity.
  - intros self env s e H Hc Hf. unfold bond_end.
    change (fun self0 env0 =>
              bond_wait_for_event (length (polls env0)) self0 env0)
      with bond_loop.
    rewrite (bind_returned _ _ _ _ _ _ _ H).
    op_unfold. rewrite Hc. cbn [negb andb]. rewrite Hf. reflexivity.
Qed.

End Bond.

Section BondExamples.

#[local] Existing Instance bluegiga.

(** C7, as the specification has it, fails: the loop of [bond] ends, and
    [bond] returns, in a state that is connected, where [_bonded] and
    [_bonding_fail] are both false; the bond-status event is still in the
    queue. *)
Lemma bond_exits_without_bond :
  exists s e,
    bond (set_connected true init) (mkEnv 0 bonding_polls) = Returned tt s e
    /\ _bonded s = false
    /\ _bonding_fail s = false
    /\ _connected s = true
    /\ polls e = [ mkPoll 50 (Some (Packet.ble_evt_sm_bond_status 0 16 0 7)) ]
    /\ ~ (_bonded s = true \/ _bonding_fail s = true \/ _connected s = false).
Proof.
  eexists _, _. split; [vm_compute; reflexivity|].
  repeat split; try reflexivity.
  intros [H|[H|H]]; discriminate.
Qed.

(** The loop on its own: from a connected state it leaves on the status
    event that reports the encryption. *)
Lemma bond_loop_exit_condition_witness :
  bond_loop (set_connected true init)
    (mkEnv 0
       [ mkPoll 50 (Some (Packet.ble_evt_connection_status 0 3 [] 0 0 0 0 0));
         mkPoll 50 (Some (Packet.ble_evt_sm_bond_status 0 16 0 7)) ])
  = (_process_packets_until bond_events None BGAPIError;; bond_loop)
      (set_connected true init)
      (mkEnv 0
         [ mkPoll 50 (Some (Packet.ble_evt_connection_status 0 3 [] 0 0 0 0 0));
           mkPoll 50 (Some (Packet.ble_evt_sm_bond_status 0 16 0 7)) ]).
Proof.
  apply (proj1 (proj2 (proj2 bond_loop_exit_condition))); reflexivity.
Defined.

End BondExamples.

(** ** Subscribe *)

Section Subscribe.

Context {cat : Catalogue}.

Lemma find_cccd_None descriptors :
  find_cccd descriptors = None <->
  forall d, d ∈ descriptors ->
    gatt.descriptor_type d <> gatt.client_characteristic_configuration.
Proof.
  unfold find_cccd. induction descriptors as [|d ds IH]; simpl.
  - split; [|reflexivity]. intros _ d Hd. inversion Hd.
  - destruct (bool_decide_reflect
                (gatt.descriptor_type d
                 = gatt.client_characteristic_configuration)) as [Heq|Hne].
    + split; [discriminate|]. intros H. exfalso.
      apply (H d); [left|exact Heq].
    + rewrite IH. split.
      * intros H d' Hd'. inversion Hd'; subst; auto.
      * intros H d' Hd'. apply H. right. exact Hd'.
Qed.

Lemma find_cccd_Some descriptors cccd :
  find_cccd descriptors = Some cccd ->
  cccd ∈ descriptors
  /\ gatt.descriptor_type cccd = gatt.client_characteristic_configuration.
Proof.
  unfold find_cccd. induction descriptors as [|d ds IH]; simpl.
  - discriminate.
  - destruct (bool_decide_reflect
                (gatt.descriptor_type d
                 = gatt.client_characteristic_configuration)) as [Heq|Hne].
    + intros [= <-]. split; [left|exact Heq].
    + intros H. destruct (IH H) as [Hin Ht]. split; [right; exact Hin|exact Ht].
Qed.

(** A write that returns has written its command, and nothing else. *)
Lemma attribute_write_ser attribute_handle value self env s e :
  attribute_write attribute_handle value self env = Returned tt s e ->
  _ser s
  = _ser self
    ++ [ble_cmd_attclient_attribute_write (_connection_handle self)
          attribute_handle value].
Proof.
  unfold attribute_write. cbv zeta. op_unfold.
  destruct (_connected self); cbn [negb andb]; [|discriminate].
  set (sent := set_ser _ self).
  pose proof (wait_ser
    [PacketType.ble_rsp_attclient_attribute_write;
     PacketType.ble_evt_connection_disconnected] None BGAPIError sent env)
    as Hw1.
  destruct (_process_packets_until _ None BGAPIError sent env)
    as [[] s1 e1|x s1 e1|s1]; [|discriminate|discriminate].
  cbn [final_state] in Hw1.
  destruct (_connected s1); cbn [negb andb]; [|discriminate].
  destruct (negb (_response_return s1 =? 0)); [discriminate|].
  pose proof (wait_ser
    [PacketType.ble_evt_attclient_procedure_completed;
     PacketType.ble_evt_connection_disconnected] None BGAPIError s1 e1)
    as Hw2.
  destruct (_process_packets_until _ None BGAPIError s1 e1)
    as [[] s2 e2|x s2 e2|s2]; [|discriminate|discriminate].
  cbn [final_state] in Hw2.
  cbn [_connected set_procedure_completed].
  destruct (_connected s2); cbn [negb andb]; [|discriminate].
  cbn [_event_return set_procedure_completed].
  destruct (negb (_event_return s2 =? 0)); [discriminate|].
  intros [= <- _]. cbn [_ser set_procedure_completed].
  rewrite Hw2, Hw1. reflexivity.
Qed.

(** C9, as the code has it.  [subscribe] asserts that notifications or
    indications are asked for; raises [NotImplementedError] whenever
    indications are asked for, with or without notifications, before it
    looks at the descriptors; for notifications alone raises [BGAPIError]
    when no descriptor of the characteristic is a client characteristic
    configuration descriptor, nothing being written; and otherwise writes
    [[0x01, 0x00]] to the first such descriptor and then registers the
    callback, if there is one, under the handle of the characteristic: a
    write that returns has written its command to the dongle and is
    followed by the registration, a write that fails leaves the registry
    as it was. *)
Theorem subscribe_cases :
  (forall characteristic callback self env,
     subscribe characteristic false false callback self env
     = Raised AssertionError self env)
  /\ (forall characteristic notifications callback self env,
        subscribe characteristic notifications true callback self env
        = Raised NotImplementedError self env)
  /\ (forall characteristic callback self env,
        (forall d, d ∈ gatt.descriptors characteristic ->
           gatt.descriptor_type d
           <> gatt.client_characteristic_configuration) ->
        subscribe characteristic true false callback self env
        = Raised BGAPIError self env)
  /\ (forall characteristic callback self env cccd,
        find_cccd (gatt.descriptors characteristic) = Some cccd ->
        cccd ∈ gatt.descriptors characteristic
        /\ gatt.descriptor_type cccd = gatt.client_characteristic_configuration
        /\ subscribe characteristic true false callback self env
           = (attribute_write (gatt.d_handle cccd) [1; 0];;
              register_callback characteristic callback) self env)
  /\ (forall characteristic cb self env cccd s e,
        find_cccd (gatt.descriptors characteristic) = Some cccd ->
        attribute_write (gatt.d_handle cccd) [1; 0] self env
        = Returned tt s e ->
        subscribe characteristic true false (Some cb) self env
        = Returned tt
            (set_callbacks
               (<[gatt.c_handle characteristic := cb]> (_callbacks s)) s)
            e
        /\ _ser s
           = _ser self
             ++ [ble_cmd_attclient_attribute_write (_connection_handle self)
                   (gatt.d_handle cccd) [1; 0]])
  /\ (forall characteristic callback self env cccd x s e,
        find_cccd (gatt.descriptors characteristic) = Some cccd ->
        attribute_write (gatt.d_handle cccd) [1; 0] self env = Raised x s e ->
        subscribe characteristic true false callback self env
        = Raised x s e).
Proof.
  assert (Heq : forall characteristic callback self env cccd,
    find_cccd (gatt.descriptors characteristic) = Some cccd ->
    subscribe characteristic true false callback self env
    = (attribute_write (gatt.d_handle cccd) [1; 0];;
       register_callback characteristic callback) self env).
  { intros characteristic callback self env cccd Hc.
    unfold subscribe. cbn [orb negb]. rewrite Hc. reflexivity. }
  split; [|split; [|split; [|split; [|split]]]].
  - reflexivity.
  - intros characteristic [|] callback self env; reflexivity.
  - intros characteristic callback self env Hnone.
    apply find_cccd_None in Hnone.
    unfold subscribe. cbn [orb negb]. rewrite Hnone. reflexivity.
  - intros characteristic callback self env cccd Hc.
    destruct (find_cccd_Some _ _ Hc) as [Hin Ht].
    repeat split; [exact Hin|exact Ht|]. apply Heq. exact Hc.
  - intros characteristic cb self env cccd s e Hc Hw. split.
    + rewrite (Heq _ _ _ _ _ Hc), (bind_returned _ _ _ _ _ _ _ Hw).
      reflexivity.
    + eapply attribute_write_ser. exact Hw.
  - intros characteristic callback self env cccd x s e Hc Hw.
    rewrite (Heq _ _ _ _ _ Hc). apply bind_raised. exact Hw.
Qed.

End Subscribe.

Section SubscribeExamples.

#[local] Existing Instance bluegiga.

(** C9, as the specification has it, fails.  Notifications and indications
    are asked for together, on a characteristic that has the descriptor,
    over a connection on which the write would succeed: the call raises
    [NotImplementedError], writes nothing and registers nothing.  And with
    indications asked for on a characteristic without the descriptor the
    call raises [NotImplementedError], not [BGAPIError]. *)
Lemma subscribe_with_indications_unimplemented :
  find_cccd (gatt.descriptors heart_rate_measurement)
  = Some (gatt.mkDescriptor 3 (gatt.mkUuid "2902")
            gatt.client_characteristic_configuration)
  /\ subscribe heart_rate_measurement true true (Some 7%nat)
       (set_connected true init) (mkEnv 0 write_succeeds)
     = Raised NotImplementedError (set_connected true init)
         (mkEnv 0 write_succeeds)
  /\ _ser (set_connected true init) = []
  /\ _callbacks (set_connected true init) = ∅
  /\ subscribe (gatt.mkCharacteristic 2 (gatt.mkUuid "2a37") false None [])
       true true (Some 7%nat) (set_connected true init)
       (mkEnv 0 write_succeeds)
     = Raised NotImplementedError (set_connected true init)
         (mkEnv 0 write_succeeds).
Proof. repeat split. Qed.

(** Notifications alone on the same characteristic: the bitmask is
    written to the descriptor and the callback is registered under the
    handle of the characteristic. *)
Lemma subscribe_cases_witness :
  exists s,
    subscribe heart_rate_measurement true false (Some 7%nat)
      (set_connected true init) (mkEnv 0 write_succeeds)
    = Returned tt s (mkEnv 50 [])
    /\ _callbacks s = {[ 2 := 7%nat ]}
    /\ _ser s = [ ble_cmd_attclient_attribute_write 0 3 [1; 0] ].
Proof.
  destruct (proj1 (proj2 (proj2 (proj2 (proj2 subscribe_cases))))
              heart_rate_measurement 7%nat (set_connected true init)
              (mkEnv 0 write_succeeds)
              (gatt.mkDescriptor 3 (gatt.mkUuid "2902")
                 gatt.client_characteristic_configuration)
              (set_procedure_completed false
                 (set_event_return 0
                    (set_procedure_completed true
                       (set_response_return 0
                          (set_ser [ble_cmd_attclient_attribute_write 0 3 [1; 0]]
                             (set_connected true init))))))
              (mkEnv 50 []) eq_refl eq_refl) as [Hsub Hser].
  eexists. split; [exact Hsub|]. split; reflexivity.
Defined.

End SubscribeExamples.

(** * Further properties *)

(** ** The wait loop: what it leaves alone and when it raises *)

Section WaitFrame.

Context {cat : Catalogue}.

(** A handler changes neither the registry of callbacks nor the handle
    expected after a read. *)
Lemma handler_registry packet self self' :
  _packet_handlers packet self = inr self' ->
  _callbacks self' = _callbacks self
  /\ _expected_attribute_handle self' = _expected_attribute_handle self.
Proof.
  destruct packet; cbn [_packet_handlers];
    try (intros [= <-]; split; reflexivity).
  - unfold _ble_evt_attclient_find_information_found.
    assert (Hset : forall r : Result (list gatt.Service),
      and_then r (fun ss => Ok (set_services ss self)) = inr self' ->
      _callbacks self' = _callbacks self
      /\ _expected_attribute_handle self' = _expected_attribute_handle self).
    { intros [e|ss]; simpl; [discriminate|]. intros [= <-].
      split; reflexivity. }
    destruct (Uuid_len _ =? 128); [apply Hset|].
    destruct (UUID_STRING_TO_ATTRIBUTE_TYPE !! _) as [[| | |?]|];
      try (intros [= <-]; split; reflexivity); try apply Hset.
    destruct (UUID_STRING_TO_CHARACTERISTIC_TYPE !! _); [apply Hset|].
    destruct (UUID_STRING_TO_DESCRIPTOR_TYPE !! _); [apply Hset|].
    intros [= <-]. split; reflexivity.
  - unfold _ble_evt_connection_status.
    destruct (_connection_status_flag _ _), (_connection_status_flag _ _);
      intros [= <-]; split; reflexivity.
  - unfold _ble_evt_gap_scan_response.
    destruct (_scan_rsp_data data) as [e|[n d]]; simpl; [discriminate|].
    intros [= <-]. split; reflexivity.
  - unfold _ble_evt_sm_bond_status. destruct (_bond_expected self);
      intros [= <-]; split; reflexivity.
Qed.

Lemma process_packets_registry expected timeout exn start :
  forall queue now self,
    _callbacks
      (final_state (process_packets expected timeout exn start queue now self))
    = _callbacks self
    /\ _expected_attribute_handle
         (final_state
            (process_packets expected timeout exn start queue now self))
       = _expected_attribute_handle self.
Proof.
  induction queue as [|poll queue IH]; intros now self; simpl.
  - destruct (timed_out _ _ _); split; reflexivity.
  - destruct (timed_out _ _ _); [split; reflexivity|].
    destruct (item poll) as [packet|]; [|apply IH].
    destruct (_packet_handlers packet self) as [e|self'] eqn:Hh;
      [split; reflexivity|].
    apply handler_registry in Hh. destruct Hh as [Hc He].
    destruct (bool_decide _); [split; assumption|].
    destruct (IH (now + took poll) self') as [Hc' He'].
    rewrite Hc', He'. split; assumption.
Qed.

(** X1.  However a wait ends – it returns, raises, or is left waiting –
    it has written nothing to the dongle and has changed neither the
    registry of callbacks nor the handle expected after a read. *)
Theorem wait_changes_no_registry expected timeout exn self env :
  _ser (final_state (_process_packets_until expected timeout exn self env))
  = _ser self
  /\ _callbacks
       (final_state (_process_packets_until expected timeout exn self env))
     = _callbacks self
  /\ _expected_attribute_handle
       (final_state (_process_packets_until expected timeout exn self env))
     = _expected_attribute_handle self.
Proof.
  split; [apply wait_ser|]. apply process_packets_registry.
Qed.

(** X2.  A wait whose timeout is zero or negative raises the exception of
    the caller's choice at once: no packet is popped, no handler runs. *)
Theorem wait_with_no_time_raises expected timeout exn self env :
  timeout <= 0 ->
  _process_packets_until expected (Some timeout) exn self env
  = Raised exn self env.
Proof.
  intros Ht. unfold _process_packets_until.
  destruct env as [now queue]. cbn [clock polls].
  assert (Hto : timed_out (Some timeout) now now = true).
  { cbn. apply bool_decide_eq_true_2. lia. }
  destruct queue; cbn [process_packets]; rewrite Hto; reflexivity.
Qed.

(** Only the handlers of find-information and scan-response events
    raise. *)
Lemma handler_raises_fragile packet self e :
  _packet_handlers packet self = inl e -> fragile packet = true.
Proof.
  destruct packet; cbn [_packet_handlers fragile];
    try discriminate; try reflexivity.
  unfold _ble_evt_sm_bond_status. destruct (_bond_expected self);
    discriminate.
Qed.

Lemma process_packets_sturdy expected exn start :
  forall queue now self e s env',
    Forall (fun packet => fragile packet = false) (delivered queue) ->
    process_packets expected None exn start queue now self
    <> Raised e s env'.
Proof.
  induction queue as [|poll queue IH]; intros now self e s env' Hq; simpl.
  - discriminate.
  - unfold delivered in Hq. cbn [omap list_omap] in Hq.
    destruct (item poll) as [packet|] eqn:Hitem.
    + cbn in Hq. apply Forall_cons in Hq. destruct Hq as [Hp Hq].
      destruct (_packet_handlers packet self) as [x|self'] eqn:Hh.
      * apply handler_raises_fragile in Hh. congruence.
      * destruct (bool_decide _); [discriminate|]. apply IH. exact Hq.
    + apply IH. exact Hq.
Qed.

(** X3.  A wait without a timeout raises nothing of its own: what it
    raises is an [IndexError], an [AttributeError] or a
    [UnicodeDecodeError] of a handler, and it raises nothing at all when
    no find-information and no scan-response event is delivered. *)
Theorem wait_without_timeout_raises_only_handler_errors
    expected exn self env :
  (forall e s env',
     _process_packets_until expected None exn self env = Raised e s env' ->
     e = IndexError \/ e = AttributeError \/ e = UnicodeDecodeError)
  /\ (Forall (fun packet => fragile packet = false) (delivered (polls env)) ->
      forall e s env',
        _process_packets_until expected None exn self env
        <> Raised e s env').
Proof.
  split.
  - intros e s env' H. exact (wait_raises _ _ _ _ _ _ _ H).
  - intros Hq e s env'. apply process_packets_sturdy. exact Hq.
Qed.

(** X4.  A wait without a timeout that is delivered no packet of an
    expected kind neither returns nor raises on its own: when the
    handlers complete, it is left waiting in the state they built. *)
Theorem wait_without_match_keeps_waiting expected exn self env self' :
  Forall (unexpected expected) (polls env) ->
  apply_all (delivered (polls env)) self = Ok self' ->
  _process_packets_until expected None exn self env = Waiting self'.
Proof.
  intros Hq Hok. unfold _process_packets_until.
  rewrite process_packets_waiting.
  - rewrite (apply_handlers_ok _ _ _ _ self') by exact Hok. reflexivity.
  - exact Hq.
  - intros k _. reflexivity.
Qed.

End WaitFrame.

Section WaitFrameExamples.

#[local] Existing Instance bluegiga.

Lemma wait_with_no_time_raises_witness :
  _process_packets_until [PacketType.ble_evt_connection_status] (Some 0)
    NotConnectedError init
    (mkEnv 5
       [ mkPoll 0 (Some (Packet.ble_evt_connection_status 0 1 [] 0 0 0 0 0)) ])
  = Raised NotConnectedError init
      (mkEnv 5
         [ mkPoll 0
             (Some (Packet.ble_evt_connection_status 0 1 [] 0 0 0 0 0)) ]).
Proof. apply wait_with_no_time_raises. lia. Defined.

Lemma wait_without_timeout_raises_only_handler_errors_witness :
  match
    _process_packets_until [PacketType.ble_evt_connection_status] None
      BGAPIError init
      (mkEnv 0
         [ mkPoll 100 None; mkPoll 5 (Some (Packet.ble_rsp_gap_set_mode 0)) ])
  with
  | Raised _ _ _ => False
  | _ => True
  end.
Proof.
  pose proof
    (proj2 (wait_without_timeout_raises_only_handler_errors
              [PacketType.ble_evt_connection_status] BGAPIError init
              (mkEnv 0
                 [ mkPoll 100 None;
                   mkPoll 5 (Some (Packet.ble_rsp_gap_set_mode 0)) ])))
    as H.
  destruct (_process_packets_until [PacketType.ble_evt_connection_status]
              None BGAPIError init _) as [a s env'|e s env'|s].
  - exact I.
  - apply (H ltac:(repeat constructor) e s env'). reflexivity.
  - exact I.
Defined.

Lemma wait_without_match_keeps_waiting_witness :
  _process_packets_until [PacketType.ble_evt_connection_status] None
    BGAPIError init
    (mkEnv 0
       [ mkPoll 100 None; mkPoll 5 (Some (Packet.ble_rsp_gap_set_mode 3)) ])
  = Waiting (set_response_return 3 init).
Proof.
  apply wait_without_match_keeps_waiting.
  - repeat constructor; intros packet [= <-]; simpl;
      rewrite list_elem_of_singleton; discriminate.
  - reflexivity.
Defined.

End WaitFrameExamples.

(** ** Event handlers *)

Section HandlerProperties.

Context {cat : Catalogue}.

Lemma land_pow2 (flags k : Z) :
  0 <= k ->
  Z.land flags (2 ^ k) = if Z.testbit flags k then 2 ^ k else 0.
Proof.
  intros Hk. apply Z.bits_inj'. intros n Hn.
  rewrite Z.land_spec, Z.pow2_bits_eqb by exact Hk.
  destruct (Z.eqb_spec k n) as [->|Hne].
  - destruct (Z.testbit flags n).
    + rewrite Z.pow2_bits_true by exact Hn. reflexivity.
    + rewrite Z.bits_0. reflexivity.
  - rewrite andb_false_r. destruct (Z.testbit flags k).
    + rewrite Z.pow2_bits_false by exact Hne. reflexivity.
    + rewrite Z.bits_0. reflexivity.
Qed.

(** X5.  For a flag that is a single bit, [_connection_status_flag] is the
    test of that bit of the status flags, whatever the other bits; and the
    empty flag 0 is found in every status. *)
Theorem connection_status_flag_tests_bit :
  (forall flags k,
     0 <= k -> _connection_status_flag flags (2 ^ k) = Z.testbit flags k)
  /\ (forall flags, _connection_status_flag flags 0 = true).
Proof.
  split.
  - intros flags k Hk. unfold _connection_status_flag.
    rewrite (land_pow2 _ _ Hk).
    assert (Hpos : 0 < 2 ^ k) by (apply Z.pow_pos_nonneg; lia).
    destruct (Z.testbit flags k).
    + apply Z.eqb_refl.
    + apply Z.eqb_neq. lia.
  - intros flags. unfold _connection_status_flag.
    rewrite Z.land_0_r. reflexivity.
Qed.

(** X6.  The handler of the connection-status event records the connection
    handle and only ever sets [_connected] and [_encrypted]: each is true
    afterwards exactly when it was true before or its flag is in the
    status.  A status without the connected flag does not mark the
    connection as lost. *)
Theorem connection_status_only_sets connection flags self :
  exists self',
    _ble_evt_connection_status connection flags self = Ok self'
    /\ _connection_handle self' = connection
    /\ _connected self'
       = _connected self
         || _connection_status_flag flags ConnectionStatusFlag_connected
    /\ _encrypted self'
       = _encrypted self
         || _connection_status_flag flags ConnectionStatusFlag_encrypted
    /\ _bonded self' = _bonded self.
Proof.
  unfold _ble_evt_connection_status.
  destruct (_connection_status_flag flags ConnectionStatusFlag_connected),
    (_connection_status_flag flags ConnectionStatusFlag_encrypted);
    eexists; (split; [reflexivity|]); cbn;
    rewrite ?orb_true_r, ?orb_false_r; auto.
Qed.

Lemma apply_all_bond_status bonds :
  forall self,
    _bond_expected self = false ->
    apply_all (bond_status_events bonds) self
    = Ok (set_stored_bonds (_stored_bonds self ++ bonds) self).
Proof.
  induction bonds as [|bond bonds IH]; intros self Hexp.
  - cbn. rewrite app_nil_r. destruct self; reflexivity.
  - cbn [bond_status_events map apply_all _packet_handlers].
    unfold _ble_evt_sm_bond_status. rewrite Hexp. cbn [and_then Ok].
    fold (bond_status_events bonds). rewrite IH by exact Hexp.
    cbn [_stored_bonds set_stored_bonds]. rewrite <- app_assoc.
    reflexivity.
Qed.

(** X7.  Bond-status events are listed in the order of arrival when no
    bond is expected.  When one is expected, the first event is taken as
    the confirmation of the bond – [_bonded] is set, the expectation is
    cleared, its handle is not listed – and those after it are listed. *)
Theorem bond_status_lists_or_confirms :
  (forall bonds self,
     _bond_expected self = false ->
     apply_all (bond_status_events bonds) self
     = Ok (set_stored_bonds (_stored_bonds self ++ bonds) self))
  /\ (forall bond bonds self,
        _bond_expected self = true ->
        apply_all (bond_status_events (bond :: bonds)) self
        = Ok (set_stored_bonds (_stored_bonds self ++ bonds)
                (set_bonded true (set_bond_expected false self)))).
Proof.
  split; [exact apply_all_bond_status|].
  intros bond bonds self Hexp.
  cbn [bond_status_events map apply_all _packet_handlers].
  unfold _ble_evt_sm_bond_status. rewrite Hexp. cbn [and_then Ok].
  fold (bond_status_events bonds).
  rewrite apply_all_bond_status by reflexivity. reflexivity.
Qed.

(** No handler changes the address or the RSSI stored for a device. *)
Lemma handler_keeps_rssi packet self self' address dev :
  _packet_handlers packet self = inr self' ->
  _devices_discovered self !! address = Some dev ->
  exists dev',
    _devices_discovered self' !! address = Some dev'
    /\ dev_rssi dev' = dev_rssi dev
    /\ dev_address dev' = dev_address dev.
Proof.
  assert (Hsame : forall s : Backend,
    _devices_discovered s = _devices_discovered self ->
    _devices_discovered self !! address = Some dev ->
    exists dev',
      _devices_discovered s !! address = Some dev'
      /\ dev_rssi dev' = dev_rssi dev /\ dev_address dev' = dev_address dev).
  { intros s -> H. eauto. }
  destruct packet; cbn [_packet_handlers];
    try (intros [= <-]; apply Hsame; reflexivity).
  - unfold _ble_evt_attclient_find_information_found.
    assert (Hset : forall r : Result (list gatt.Service),
      and_then r (fun ss => Ok (set_services ss self)) = inr self' ->
      _devices_discovered self' = _devices_discovered self).
    { intros [e|ss]; simpl; [discriminate|]. intros [= <-]. reflexivity. }
    destruct (Uuid_len _ =? 128); [intros H; apply Hsame, (Hset _ H)|].
    destruct (UUID_STRING_TO_ATTRIBUTE_TYPE !! _) as [[| | |?]|];
      try (intros [= <-]; apply Hsame; reflexivity);
      try (intros H; apply Hsame, (Hset _ H)).
    destruct (UUID_STRING_TO_CHARACTERISTIC_TYPE !! _);
      [intros H; apply Hsame, (Hset _ H)|].
    destruct (UUID_STRING_TO_DESCRIPTOR_TYPE !! _);
      [intros H; apply Hsame, (Hset _ H)|].
    intros [= <-]; apply Hsame; reflexivity.
  - unfold _ble_evt_connection_status.
    destruct (_connection_status_flag _ _), (_connection_status_flag _ _);
      intros [= <-]; apply Hsame; reflexivity.
  - unfold _ble_evt_gap_scan_response. fold (address_of sender).
    destruct (_scan_rsp_data data) as [e|[n d]]; cbn [and_then];
      [discriminate|].
    intros [= <-] Hdev.
    cbn [_devices_discovered set_devices_discovered].
    destruct (decide (address_of sender = address)) as [<-|Hneq].
    + rewrite lookup_insert_eq, Hdev. eexists. split; [reflexivity|].
      destruct (bool_decide (dev_name dev = EmptyString));
        cbn [packet_data dev_rssi dev_address dev_name];
        destruct (packet_data dev !! scan_response_packet_type packet_type);
        try destruct (bool_decide _); split; reflexivity.
    + rewrite lookup_insert_ne by exact Hneq. eauto.
  - unfold _ble_evt_sm_bond_status. destruct (_bond_expected self);
      intros [= <-]; apply Hsame; reflexivity.
Qed.

(** X8.  The RSSI and the address stored for a device are those of the
    event that first reported it: the handlers of later packets, further
    scan responses of the device included, leave them as they are, and
    never remove the device. *)
Theorem scan_response_keeps_first_rssi :
  (forall rssi pt sender data self name data_dict,
     _scan_rsp_data data = Ok (name, data_dict) ->
     _devices_discovered self !! address_of sender = None ->
     exists self' dev,
       _ble_evt_gap_scan_response rssi pt sender data self = Ok self'
       /\ _devices_discovered self' !! address_of sender = Some dev
       /\ dev_rssi dev = rssi
       /\ dev_address dev = address_of sender
       /\ dev_name dev = name)
  /\ (forall packets self address dev,
        _devices_discovered self !! address = Some dev ->
        exists dev',
          _devices_discovered (after_handlers packets self) !! address
          = Some dev'
          /\ dev_rssi dev' = dev_rssi dev
          /\ dev_address dev' = dev_address dev).
Proof.
  split.
  - intros rssi pt sender data self name data_dict Hd Hnone.
    unfold _ble_evt_gap_scan_response. fold (address_of sender).
    rewrite Hd, Hnone. cbn [and_then Ok]. cbv beta iota. cbn [dev_name].
    destruct (bool_decide_reflect (name = EmptyString)) as [Hn|Hn];
      cbn [packet_data]; rewrite lookup_empty;
      eexists _, _; (split; [reflexivity|]);
      cbn [_devices_discovered set_devices_discovered];
      rewrite lookup_insert_eq; repeat split; reflexivity.
  - intros packets. induction packets as [|packet packets IH];
      intros self address dev Hdev.
    + eauto.
    + cbn [after_handlers fold_left].
      destruct (_packet_handlers packet self) as [e|self'] eqn:Hh.
      * apply IH. exact Hdev.
      * destruct (handler_keeps_rssi _ _ _ _ _ Hh Hdev)
          as (dev1 & Hdev1 & Hr1 & Ha1).
        destruct (IH self' address dev1 Hdev1) as (dev' & Hdev' & Hr & Ha).
        exists dev'. split; [exact Hdev'|]. split; congruence.
Qed.

End HandlerProperties.

Section HandlerPropertiesExamples.

#[local] Existing Instance bluegiga.

Lemma connection_status_flag_tests_bit_witness :
  _connection_status_flag 6 (2 ^ 1) = Z.testbit 6 1.
Proof. apply (proj1 connection_status_flag_tests_bit). lia. Defined.

Lemma bond_status_lists_or_confirms_witness :
  apply_all (bond_status_events [4; 0; 2]) init
  = Ok (set_stored_bonds [4; 0; 2] init).
Proof. apply (proj1 bond_status_lists_or_confirms). reflexivity. Defined.

(** A device seen at -40 dBm and then at -70 dBm keeps -40. *)
Lemma scan_response_keeps_first_rssi_witness :
  exists dev',
    _devices_discovered
      (after_handlers
         [ Packet.ble_evt_gap_scan_response (-70) 4 [1; 2; 3; 4; 5; 6] 0 255
             [2; 1; 6] ]
         (set_devices_discovered
            {[ "06:05:04:03:02:01"
               := mkDevice "ABC" "06:05:04:03:02:01" (-40) ∅ ]} init))
    !! "06:05:04:03:02:01" = Some dev'
    /\ dev_rssi dev' = -40
    /\ dev_address dev' = "06:05:04:03:02:01".
Proof.
  apply (proj2 scan_response_keeps_first_rssi
           [ Packet.ble_evt_gap_scan_response (-70) 4 [1; 2; 3; 4; 5; 6] 0 255
               [2; 1; 6] ]
           (set_devices_discovered
              {[ "06:05:04:03:02:01"
                 := mkDevice "ABC" "06:05:04:03:02:01" (-40) ∅ ]} init)
           "06:05:04:03:02:01"
           (mkDevice "ABC" "06:05:04:03:02:01" (-40) ∅)).
  vm_compute. reflexivity.
Defined.

End HandlerPropertiesExamples.

(** ** Advertising data *)

Section AdvertisingData.

Context {cat : Catalogue}.

Lemma scan_rsp_loop_boundary data fv acc :
  scan_rsp_loop data 0 fv acc = scan_rsp_loop data 0 [] acc.
Proof. destruct data; reflexivity. Qed.

Lemma scan_payload rest acc :
  forall payload left fv,
    payload <> [] ->
    left = Z.of_nat (length payload) ->
    scan_rsp_loop (payload ++ rest) left fv acc
    = and_then (end_of_field (fv ++ payload) acc)
        (fun acc' => scan_rsp_loop rest 0 [] acc').
Proof.
  induction payload as [|b payload IH]; intros left fv Hne Hlen;
    [contradiction|].
  cbn [app scan_rsp_loop].
  assert (Hpos : (left =? 0) = false).
  { apply Z.eqb_neq. cbn [length] in Hlen. lia. }
  rewrite Hpos. cbv zeta.
  destruct payload as [|b' payload].
  - assert (Hone : (left - 1 =? 0) = true).
    { apply Z.eqb_eq. cbn [length] in Hlen. lia. }
    rewrite Hone. cbn [app].
    destruct (end_of_field (fv ++ [b]) acc) as [e|acc']; cbn [and_then];
      [reflexivity|].
    apply scan_rsp_loop_boundary.
  - assert (Hmore : (left - 1 =? 0) = false).
    { apply Z.eqb_neq. cbn [length] in Hlen. lia. }
    rewrite Hmore.
    rewrite (IH (left - 1) (fv ++ [b])).
    + rewrite <- app_assoc. reflexivity.
    + discriminate.
    + cbn [length] in Hlen |- *. lia.
Qed.

Lemma scan_new_field b data fv acc :
  scan_rsp_loop (b :: data) 0 fv acc = scan_rsp_loop data b [] acc.
Proof. reflexivity. Qed.

(** The parser takes the data field by field. *)
Lemma scan_field type_byte payload rest fv acc :
  scan_rsp_loop (encode_field type_byte payload ++ rest) 0 fv acc
  = and_then (end_of_field (type_byte :: payload) acc)
      (fun acc' => scan_rsp_loop rest 0 [] acc').
Proof.
  unfold encode_field.
  change (((Z.of_nat (length payload) + 1) :: type_byte :: payload) ++ rest)
    with ((Z.of_nat (length payload) + 1) :: (type_byte :: payload) ++ rest).
  rewrite scan_new_field.
  rewrite (scan_payload rest acc (type_byte :: payload) _ []).
  - reflexivity.
  - discriminate.
  - cbn [length]. lia.
Qed.

Lemma scan_cut_short :
  forall partial left fv acc,
    Z.of_nat (length partial) < left ->
    scan_rsp_loop partial left fv acc = Ok acc.
Proof.
  induction partial as [|b partial IH]; intros left fv acc Hlen.
  - reflexivity.
  - cbn [scan_rsp_loop]. cbn [length] in Hlen.
    assert (H0 : (left =? 0) = false) by (apply Z.eqb_neq; lia).
    assert (H1 : (left - 1 =? 0) = false) by (apply Z.eqb_neq; lia).
    rewrite H0. cbv zeta. rewrite H1. apply IH. lia.
Qed.

Lemma scan_truncated_tail tail fv acc :
  truncated tail -> scan_rsp_loop tail 0 fv acc = Ok acc.
Proof.
  intros [->|(len & partial & -> & Hlen)]; [reflexivity|].
  rewrite scan_new_field. apply scan_cut_short. exact Hlen.
Qed.

Lemma end_of_plain_field type_byte member payload dev_name data_dict :
  plain_type type_byte member ->
  end_of_field (type_byte :: payload) (dev_name, data_dict)
  = Ok (dev_name, <[name member := field_bytearray payload]> data_dict).
Proof.
  intros (Hfind & Hc & Hs & Hu). unfold end_of_field.
  fold (data_type_of type_byte). rewrite Hfind.
  rewrite !bool_decide_eq_false_2 by congruence. reflexivity.
Qed.

Lemma scan_plain_fields tail :
  truncated tail ->
  forall fields dev_name data_dict rest,
    Forall (fun field => plain_type (value (fst field)) (fst field)) fields ->
    scan_rsp_loop
      (encode_fields (map (fun field => (value (fst field), snd field)) fields)
       ++ rest) 0 [] (dev_name, data_dict)
    = scan_rsp_loop rest 0 [] (dev_name, store_plain fields data_dict).
Proof.
  intros _ fields. induction fields as [|[member payload] fields IH];
    intros dev_name data_dict rest Hf.
  - reflexivity.
  - apply Forall_cons in Hf. destruct Hf as [Hm Hf]. cbn [fst snd] in Hm.
    unfold encode_fields. cbn [map concat fst snd].
    rewrite <- app_assoc, scan_field.
    rewrite (end_of_plain_field _ member) by exact Hm.
    cbn [and_then Ok]. fold (encode_fields
      (map (fun field => (value (fst field), snd field)) fields)).
    rewrite IH by exact Hf. reflexivity.
Qed.

(** X9.  Advertising data made of fields of plain types – each the length
    byte, the type byte of a member of [ScanResponseDataType] that is
    neither a local name nor the 128-bit UUID list, and the payload –
    parses to the empty device name and the dictionary that maps the name
    of each member to its payload, a later field replacing an earlier one
    of the same type.  A last field that is cut short, its length byte
    announcing more bytes than follow, is dropped without an error. *)
Theorem scan_rsp_data_plain_fields fields tail :
  Forall (fun field => plain_type (value (fst field)) (fst field)) fields ->
  truncated tail ->
  _scan_rsp_data
    (encode_fields (map (fun field => (value (fst field), snd field)) fields)
     ++ tail)
  = Ok (EmptyString, store_plain fields ∅).
Proof.
  intros Hf Ht. unfold _scan_rsp_data.
  rewrite (scan_plain_fields tail Ht) by exact Hf.
  apply scan_truncated_tail. exact Ht.
Qed.

(** X10.  A complete field whose type byte is the value of no member of
    [ScanResponseDataType] makes the parser raise [AttributeError],
    whatever follows it, and with it the handler of the scan-response
    event that carries the data: its device is not stored. *)
Theorem scan_rsp_data_unknown_type fields type_byte payload rest :
  Forall (fun field => plain_type (value (fst field)) (fst field)) fields ->
  data_type_of type_byte = None ->
  _scan_rsp_data
    (encode_fields (map (fun field => (value (fst field), snd field)) fields)
     ++ encode_field type_byte payload ++ rest)
  = Err AttributeError
  /\ forall rssi pt sender self,
       _ble_evt_gap_scan_response rssi pt sender
         (encode_fields
            (map (fun field => (value (fst field), snd field)) fields)
          ++ encode_field type_byte payload ++ rest) self
       = Err AttributeError.
Proof.
  intros Hf Hnone.
  assert (He : _scan_rsp_data
    (encode_fields (map (fun field => (value (fst field), snd field)) fields)
     ++ encode_field type_byte payload ++ rest) = Err AttributeError).
  { unfold _scan_rsp_data.
    rewrite (scan_plain_fields [] (or_introl eq_refl)) by exact Hf.
    rewrite scan_field. unfold end_of_field.
    fold (data_type_of type_byte). rewrite Hnone.
    rewrite !bool_decide_eq_false_2 by discriminate. reflexivity. }
  split; [exact He|].
  intros rssi pt sender self. apply scan_response_raises. exact He.
Qed.

(** X11.  A field of the complete or the shortened local name gives the
    device name: its payload decoded as UTF-8 is returned as the name and
    stored under the name of the member; a payload that is not UTF-8
    makes the parser raise [UnicodeDecodeError]. *)
Theorem scan_rsp_data_local_name fields type_byte member payload tail :
  Forall (fun field => plain_type (value (fst field)) (fst field)) fields ->
  data_type_of type_byte = Some member ->
  member = complete_local_name \/ member = shortened_local_name ->
  truncated tail ->
  _scan_rsp_data
    (encode_fields (map (fun field => (value (fst field), snd field)) fields)
     ++ encode_field type_byte payload ++ tail)
  = match decode_utf8 payload with
    | Some dev_name =>
        Ok (dev_name,
            <[name member := field_str dev_name]> (store_plain fields ∅))
    | None => Err UnicodeDecodeError
    end.
Proof.
  intros Hf Hfind Hname Ht. unfold _scan_rsp_data.
  rewrite (scan_plain_fields [] (or_introl eq_refl)) by exact Hf.
  rewrite scan_field. unfold end_of_field.
  fold (data_type_of type_byte). rewrite Hfind.
  assert (Hb : bool_decide (Some member = Some complete_local_name)
               || bool_decide (Some member = Some shortened_local_name)
               = true).
  { destruct Hname as [->| ->].
    - rewrite bool_decide_eq_true_2 by reflexivity. reflexivity.
    - rewrite (bool_decide_eq_true_2
                 (Some shortened_local_name = Some shortened_local_name))
        by reflexivity.
      apply orb_true_r. }
  rewrite Hb.
  destruct (decode_utf8 payload) as [dev_name|]; [|reflexivity].
  cbn [and_then Ok]. apply scan_truncated_tail. exact Ht.
Qed.

End AdvertisingData.

Section AdvertisingDataExamples.

#[local] Existing Instance bluegiga.

(** Flags and a TX power level, then a field that announces five bytes
    and has two. *)
Lemma scan_rsp_data_plain_fields_witness :
  _scan_rsp_data [2; 1; 6; 2; 10; 4; 5; 255; 76]
  = Ok (EmptyString,
        <[ "tx_power_level" := field_bytearray [4] ]>
          {[ "flags" := field_bytearray [6] ]}).
Proof.
  apply (scan_rsp_data_plain_fields
           [ (mkEnumMember "flags" 1, [6]);
             (mkEnumMember "tx_power_level" 10, [4]) ]
           [5; 255; 76]).
  - repeat constructor; discriminate.
  - right. exists 5, [255; 76]. split; [reflexivity|]. cbn. lia.
Defined.

(** A field of type 0x16 (service data), which the enumeration of this
    catalogue does not have. *)
Lemma scan_rsp_data_unknown_type_witness :
  _scan_rsp_data [2; 1; 6; 3; 22; 1; 2] = Err AttributeError.
Proof.
  refine (proj1 (scan_rsp_data_unknown_type
                   [ (mkEnumMember "flags" 1, [6]) ] 22 [1; 2] [] _ _)).
  - repeat constructor; discriminate.
  - reflexivity.
Defined.

Lemma scan_rsp_data_local_name_witness :
  _scan_rsp_data [2; 1; 6; 4; 9; 65; 66; 67]
  = Ok ("ABC",
        <[ "complete_local_name" := field_str "ABC" ]>
          {[ "flags" := field_bytearray [6] ]}).
Proof.
  assert (H : _) by
    (refine (scan_rsp_data_local_name
               [ (mkEnumMember "flags" 1, [6]) ] 9
               (mkEnumMember "complete_local_name" 9) [65; 66; 67] []
               _ _ _ _);
     [ repeat constructor; discriminate
     | reflexivity
     | left; reflexivity
     | left; reflexivity ]).
  exact H.
Defined.

End AdvertisingDataExamples.

(** ** The receiver thread *)

Section ReceiverProperties.

Lemma recv_packet_cases callbacks packet r :
  recv_packet callbacks packet r
  = match notification_of callbacks packet with
    | Some thread => mkReceiver (queued r) (started r ++ [thread])
    | None => mkReceiver (queued r ++ [packet]) (started r)
    end.
Proof.
  destruct packet; cbn [recv_packet notification_of]; try reflexivity.
  destruct (callbacks !! atthandle) as [callback|]; reflexivity.
Qed.

Lemma is_notification_of callbacks packet :
  is_notification callbacks packet
  = bool_decide (is_Some (notification_of callbacks packet)).
Proof.
  destruct packet; cbn [is_notification notification_of];
    try (symmetry; apply bool_decide_eq_false_2; intros [? ?]; discriminate).
  apply bool_decide_ext. rewrite fmap_is_Some. reflexivity.
Qed.

Lemma recv_packets_snoc arrivals callbacks packet r :
  _recv_packets (arrivals ++ [(callbacks, packet)]) r
  = recv_packet callbacks packet (_recv_packets arrivals r).
Proof. unfold _recv_packets. rewrite fold_left_app. reflexivity. Qed.

(** X12.  The receiver thread either puts a packet on the queue or starts
    one callback thread for it, never both and never neither.  After any
    arrivals the packets queued are those that are not attribute-value
    events for a handle in the registry of their moment, in the order of
    arrival; and the threads started are, in the order of arrival, one for
    each attribute-value event whose handle is in the registry of its
    moment, running the callback registered for the handle on the value of
    the event. *)
Theorem receiver_routes_each_packet_once arrivals r :
  queued (_recv_packets arrivals r)
  = queued r
    ++ map snd
         (filter (fun a => is_notification (fst a) (snd a) = false) arrivals)
  /\ started (_recv_packets arrivals r)
     = started r
       ++ omap (fun a => notification_of (fst a) (snd a)) arrivals.
Proof.
  induction arrivals as [|[callbacks packet] arrivals IH] using rev_ind.
  - cbn. rewrite !app_nil_r. split; reflexivity.
  - destruct IH as [IHq IHs].
    rewrite recv_packets_snoc, recv_packet_cases, filter_app, omap_app.
    cbn [omap list_omap fst snd].
    pose proof (is_notification_of callbacks packet) as Hn.
    destruct (notification_of callbacks packet) as [thread|].
    + rewrite bool_decide_eq_true_2 in Hn by eauto.
      rewrite (filter_cons_False _ (callbacks, packet))
        by (cbn; rewrite Hn; discriminate).
      rewrite filter_nil, app_nil_r. cbn [queued started].
      rewrite IHs, app_assoc. split; [exact IHq|reflexivity].
    + rewrite bool_decide_eq_false_2 in Hn by (intros [? ?]; discriminate).
      rewrite (filter_cons_True _ (callbacks, packet)) by exact Hn.
      rewrite filter_nil, map_app, app_nil_r. cbn [queued started map snd].
      rewrite IHq, app_assoc. split; [reflexivity|exact IHs].
Qed.

End ReceiverProperties.

(** ** Runs of operations *)

Section Runs.

Context {cat : Catalogue}.

Lemma wait_leads expected exn self now pre dt m post self' :
  leads_to expected pre m self self' ->
  _process_packets_until expected None exn self
    (mkEnv now (pre ++ mkPoll dt (Some m) :: post))
  = Returned tt self' (mkEnv (now + elapsed pre + dt) post).
Proof.
  intros (Hpre & Hm & Hok).
  refine (proj2 (wait_match expected None exn self (mkEnv now _) pre dt m post
                   eq_refl Hpre Hm _) _ Hok).
  intros k _. reflexivity.
Qed.

(** Only the disconnected event clears [_connected]. *)
Lemma handler_stays_connected packet self self' :
  Packet.packet_type packet <> PacketType.ble_evt_connection_disconnected ->
  _packet_handlers packet self = inr self' ->
  _connected self = true ->
  _connected self' = true.
Proof.
  intros Hne.
  destruct packet; cbn [_packet_handlers];
    try (intros [= <-]; intros H; exact H).
  - unfold _ble_evt_attclient_find_information_found.
    assert (Hset : forall r : Result (list gatt.Service),
      and_then r (fun ss => Ok (set_services ss self)) = inr self' ->
      _connected self = true -> _connected self' = true).
    { intros [e|ss]; simpl; [discriminate|]. intros [= <-] H. exact H. }
    destruct (Uuid_len _ =? 128); [apply Hset|].
    destruct (UUID_STRING_TO_ATTRIBUTE_TYPE !! _) as [[| | |?]|];
      try (intros [= <-]; intros H; exact H); try apply Hset.
    destruct (UUID_STRING_TO_CHARACTERISTIC_TYPE !! _); [apply Hset|].
    destruct (UUID_STRING_TO_DESCRIPTOR_TYPE !! _); [apply Hset|].
    intros [= <-]; intros H; exact H.
  - unfold _ble_evt_connection_status.
    destruct (_connection_status_flag _ _), (_connection_status_flag _ _);
      intros [= <-]; intros H; try exact H; reflexivity.
  - contradiction Hne. reflexivity.
  - unfold _ble_evt_gap_scan_response.
    destruct (_scan_rsp_data data) as [e|[n d]]; simpl; [discriminate|].
    intros [= <-] H. exact H.
  - unfold _ble_evt_sm_bond_status. destruct (_bond_expected self);
      intros [= <-]; intros H; exact H.
Qed.

Lemma polls_stay_connected expected :
  PacketType.ble_evt_connection_disconnected ∈ expected ->
  forall pre self self',
    Forall (unexpected expected) pre ->
    apply_all (delivered pre) self = Ok self' ->
    _connected self = true ->
    _connected self' = true.
Proof.
  intros Hin pre. induction pre as [|poll pre IH]; intros self self' Hpre Hok Hc.
  - cbn in Hok. injection Hok as <-. exact Hc.
  - apply Forall_cons in Hpre. destruct Hpre as [Hpoll Hpre].
    unfold delivered in Hok. cbn [omap list_omap] in Hok.
    destruct (item poll) as [packet|] eqn:Hitem.
    + cbn [apply_all] in Hok.
      destruct (_packet_handlers packet self) as [e|s] eqn:Hh;
        cbn [and_then] in Hok; [discriminate|].
      apply (IH s self' Hpre Hok).
      eapply handler_stays_connected; [|exact Hh|exact Hc].
      intros Heq. apply (Hpoll packet Hitem). rewrite Heq. exact Hin.
    + apply (IH self self' Hpre Hok Hc).
Qed.

(** What a wait that ends on an expected packet other than the
    disconnected event knows of the state. *)
Lemma leads_to_connected expected pre m self self' :
  PacketType.ble_evt_connection_disconnected ∈ expected ->
  Packet.packet_type m <> PacketType.ble_evt_connection_disconnected ->
  leads_to expected pre m self self' ->
  _connected self = true ->
  _connected self' = true.
Proof.
  intros Hin Hm (Hpre & _ & Hok) Hc.
  apply apply_all_snoc in Hok. destruct Hok as (s & Hs & Hh).
  eapply handler_stays_connected; [exact Hm|exact Hh|].
  eapply polls_stay_connected; eassumption.
Qed.

Lemma leads_to_last expected pre m self self' :
  leads_to expected pre m self self' ->
  exists s, _packet_handlers m s = Ok self'.
Proof.
  intros (_ & _ & Hok). apply apply_all_snoc in Hok.
  destruct Hok as (s & _ & Hh). eauto.
Qed.

Lemma in_or_disconnected kind :
  PacketType.ble_evt_connection_disconnected ∈ or_disconnected kind.
Proof. unfold or_disconnected. apply list_elem_of_In. right. left. reflexivity. Qed.

(** X13.  The operations that need a connection check for it first: on a
    state that is not connected [bond], [encrypt], [attribute_write],
    [_get_rssi_once], [get_rssi] and a [subscribe] for notifications on a
    characteristic that has a client characteristic configuration
    descriptor raise [NotConnectedError] at once, and leave the state and
    the queue as they are – no command is written, no packet is popped,
    no bond is expected and no callback is registered.  [subscribe] looks
    for the descriptor before it checks the connection: on a
    characteristic without one it raises [BGAPIError] on such a state,
    not [NotConnectedError]. *)
Theorem operations_need_connection self env :
  _connected self = false ->
  bond self env = Raised NotConnectedError self env
  /\ (forall bondable_no do_not_create_bonding,
        encrypt bondable_no do_not_create_bonding self env
        = Raised NotConnectedError self env)
  /\ (forall attribute_handle value,
        attribute_write attribute_handle value self env
        = Raised NotConnectedError self env)
  /\ _get_rssi_once self env = Raised NotConnectedError self env
  /\ get_rssi self env = Raised NotConnectedError self env
  /\ (forall characteristic callback cccd,
        find_cccd (gatt.descriptors characteristic) = Some cccd ->
        subscribe characteristic true false callback self env
        = Raised NotConnectedError self env)
  /\ (forall characteristic callback,
        find_cccd (gatt.descriptors characteristic) = None ->
        subscribe characteristic true false callback self env
        = Raised BGAPIError self env).
Proof.
  intros Hc.
  assert (Hw : forall attribute_handle value,
    attribute_write attribute_handle value self env
    = Raised NotConnectedError self env).
  { intros. unfold attribute_write. op_unfold. rewrite Hc. reflexivity. }
  assert (Ho : _get_rssi_once self env = Raised NotConnectedError self env).
  { unfold _get_rssi_once. op_unfold. rewrite Hc. reflexivity. }
  repeat split.
  - unfold bond, bond_begin. op_unfold. rewrite Hc. reflexivity.
  - intros. unfold encrypt. op_unfold. rewrite Hc. reflexivity.
  - exact Hw.
  - exact Ho.
  - unfold get_rssi. cbv zeta. rewrite get_rssi_attempts_step, Ho.
    reflexivity.
  - intros characteristic callback cccd Hcccd.
    unfold subscribe. cbn [orb negb]. rewrite Hcccd. cbv zeta.
    rewrite bind_unfold, Hw. reflexivity.
  - intros characteristic callback Hnone.
    unfold subscribe. cbn [orb negb]. rewrite Hnone. reflexivity.
Qed.

End Runs.

Section RunsExamples.

#[local] Existing Instance bluegiga.

Lemma operations_need_connection_witness :
  bond init (mkEnv 0 bonding_polls)
  = Raised NotConnectedError init (mkEnv 0 bonding_polls)
  /\ subscribe heart_rate_measurement true false (Some 7%nat) init
       (mkEnv 0 write_succeeds)
     = Raised NotConnectedError init (mkEnv 0 write_succeeds)
  /\ subscribe (gatt.mkCharacteristic 2 (gatt.mkUuid "2a37") false None [])
       true false (Some 7%nat) init (mkEnv 0 write_succeeds)
     = Raised BGAPIError init (mkEnv 0 write_succeeds).
Proof.
  split; [|split].
  - apply (proj1 (operations_need_connection init (mkEnv 0 bonding_polls)
                    eq_refl)).
  - apply (proj1 (proj2 (proj2 (proj2 (proj2 (proj2
             (operations_need_connection init (mkEnv 0 write_succeeds)
                eq_refl))))))
             heart_rate_measurement (Some 7%nat)
             (gatt.mkDescriptor 3 (gatt.mkUuid "2902")
                gatt.client_characteristic_configuration)).
    reflexivity.
  - apply (proj2 (proj2 (proj2 (proj2 (proj2 (proj2
             (operations_need_connection init (mkEnv 0 write_succeeds)
                eq_refl))))))).
    reflexivity.
Defined.

End RunsExamples.

(** ** Connect and attribute write, packet by packet *)

Section ConnectAndWrite.

Context {cat : Catalogue}.

Lemma response_recorded expected pre m self self' result :
  leads_to expected pre m self self' ->
  (forall s, _packet_handlers m s = Ok (set_response_return result s)) ->
  _response_return self' = result.
Proof.
  intros Hl Hm. destruct (leads_to_last _ _ _ _ _ Hl) as [s Hs].
  rewrite Hm in Hs. injection Hs as <-. reflexivity.
Qed.

(** X14.  [connect] gives up on a response to [connect_direct] whose
    result is not 0: it raises [BGAPIError] right after the handler of the
    response and does not wait for a status event.  After a response with
    result 0 it returns as soon as a connection-status event is popped
    within the timeout, whatever the flags of the event: the state is the
    one the handlers built, and what is queued after the event stays
    queued. *)
Theorem connect_runs address timeout addr_type self now pre dt r h self1 :
  leads_to [PacketType.ble_rsp_gap_connect_direct] pre
    (Packet.ble_rsp_gap_connect_direct r h)
    (connect_sent address addr_type self) self1 ->
  (r <> 0 ->
   forall post,
     connect address timeout addr_type self
       (mkEnv now
          (pre ++ mkPoll dt (Some (Packet.ble_rsp_gap_connect_direct r h))
               :: post))
     = Raised BGAPIError self1 (mkEnv (now + elapsed pre + dt) post))
  /\ (r = 0 ->
      forall wait dt' status post self2,
        Packet.packet_type status = PacketType.ble_evt_connection_status ->
        Forall (unexpected [PacketType.ble_evt_connection_status]) wait ->
        in_time (Some timeout) wait ->
        apply_all (delivered wait ++ [status]) self1 = Ok self2 ->
        connect address timeout addr_type self
          (mkEnv now
             (pre ++ mkPoll dt (Some (Packet.ble_rsp_gap_connect_direct r h))
                  :: wait ++ mkPoll dt' (Some status) :: post))
        = Returned tt self2
            (mkEnv (now + elapsed pre + dt + elapsed wait + dt') post)).
Proof.
  intros Hl.
  assert (Hr : _response_return self1 = r).
  { eapply response_recorded; [exact Hl|]. reflexivity. }
  assert (Hstep : forall rest,
    connect address timeout addr_type self
      (mkEnv now
         (pre ++ mkPoll dt (Some (Packet.ble_rsp_gap_connect_direct r h))
              :: rest))
    = (if negb (r =? 0) then raise BGAPIError
       else _process_packets_until [PacketType.ble_evt_connection_status]
              (Some timeout) NotConnectedError)
        self1 (mkEnv (now + elapsed pre + dt) rest)).
  { intros rest. unfold connect. cbv zeta.
    rewrite (bind_returned _ _ _ _ tt (connect_sent address addr_type self)
               (mkEnv now _)) by reflexivity.
    rewrite (bind_returned _ _ _ _ _ _ _
               (wait_leads _ BGAPIError _ now pre dt _ rest _ Hl)).
    rewrite (bind_returned _ _ _ _ self1 self1 (mkEnv _ rest))
      by reflexivity.
    rewrite Hr. reflexivity. }
  split.
  - intros Hne post. rewrite Hstep.
    destruct (Z.eqb_spec r 0) as [->|_]; [contradiction|]. reflexivity.
  - intros -> wait dt' status post self2 Hst Hwait Htime Hok.
    rewrite Hstep. cbn [Z.eqb negb].
    refine (proj2 (wait_match _ (Some timeout) NotConnectedError self1
                     (mkEnv _ _) wait dt' status post eq_refl Hwait _ Htime)
              _ Hok).
    rewrite Hst. apply list_elem_of_singleton. reflexivity.
Qed.

(** The run of [attribute_write] up to the check of the response. *)
Lemma attribute_write_response attribute_handle value self now pre dt m rest
    self1 :
  _connected self = true ->
  leads_to (or_disconnected PacketType.ble_rsp_attclient_attribute_write)
    pre m
    (after_send
       (ble_cmd_attclient_attribute_write (_connection_handle self)
          attribute_handle value) self)
    self1 ->
  attribute_write attribute_handle value self
    (mkEnv now (pre ++ mkPoll dt (Some m) :: rest))
  = (if negb (_connected self1) then raise NotConnectedError
     else if negb (_response_return self1 =? 0) then raise BGAPIError
     else
       _process_packets_until
         (or_disconnected PacketType.ble_evt_attclient_procedure_completed)
         None BGAPIError;;
       modify (set_procedure_completed false);;
       _check_connection true;;
       self ← get_self;
       if negb (_event_return self =? 0) then raise BGAPIError else mret tt)
      self1 (mkEnv (now + elapsed pre + dt) rest).
Proof.
  intros Hc Hl. unfold attribute_write. cbv zeta.
  pose proof (wait_leads _ BGAPIError _ now pre dt m rest _ Hl) as Hw.
  unfold or_disconnected, after_send in Hw.
  op_unfold. rewrite Hc. cbn [negb andb]. rewrite Hw.
  destruct (_connected self1); cbn [negb andb]; reflexivity.
Qed.

(** X15.  [attribute_write] on a connected state, packet by packet.  A
    response with a result other than 0 makes it raise [BGAPIError]
    without waiting for the end of the procedure.  After a response with
    result 0 it waits for the procedure-completed event, clears
    [_procedure_completed], and returns when the result of the event is 0
    and raises [BGAPIError] otherwise.  The one command it writes is the
    write of the value to the handle over the current connection. *)
Theorem attribute_write_runs attribute_handle value self now
    pre dt c r self1 :
  _connected self = true ->
  leads_to (or_disconnected PacketType.ble_rsp_attclient_attribute_write)
    pre (Packet.ble_rsp_attclient_attribute_write c r)
    (after_send
       (ble_cmd_attclient_attribute_write (_connection_handle self)
          attribute_handle value) self)
    self1 ->
  (r <> 0 ->
   forall post,
     attribute_write attribute_handle value self
       (mkEnv now
          (pre ++ mkPoll dt
                    (Some (Packet.ble_rsp_attclient_attribute_write c r))
               :: post))
     = Raised BGAPIError self1 (mkEnv (now + elapsed pre + dt) post))
  /\ (r = 0 ->
      forall wait dt' c' result chrhandle post self2,
        leads_to
          (or_disconnected PacketType.ble_evt_attclient_procedure_completed)
          wait
          (Packet.ble_evt_attclient_procedure_completed c' result chrhandle)
          self1 self2 ->
        attribute_write attribute_handle value self
          (mkEnv now
             (pre ++ mkPoll dt
                       (Some (Packet.ble_rsp_attclient_attribute_write c r))
                  :: wait
                  ++ mkPoll dt'
                       (Some (Packet.ble_evt_attclient_procedure_completed
                                c' result chrhandle))
                  :: post))
        = (if result =? 0
           then Returned tt (set_procedure_completed false self2)
           else Raised BGAPIError (set_procedure_completed false self2))
            (mkEnv (now + elapsed pre + dt + elapsed wait + dt') post)
          /\ _ser self2
             = _ser self
               ++ [ble_cmd_attclient_attribute_write
                     (_connection_handle self) attribute_handle value]).
Proof.
  intros Hc Hl.
  assert (Hc1 : _connected self1 = true).
  { eapply leads_to_connected; [apply in_or_disconnected| |exact Hl|exact Hc].
    discriminate. }
  assert (Hr : _response_return self1 = r).
  { eapply response_recorded; [exact Hl|]. reflexivity. }
  split.
  - intros Hne post.
    rewrite (attribute_write_response _ _ _ _ _ _ _ _ _ Hc Hl), Hc1, Hr.
    cbn [negb]. destruct (Z.eqb_spec r 0) as [->|_]; [contradiction|].
    reflexivity.
  - intros -> wait dt' c' result chrhandle post self2 Hl2.
    assert (Hc2 : _connected self2 = true).
    { eapply leads_to_connected;
        [apply in_or_disconnected| |exact Hl2|exact Hc1]. discriminate. }
    assert (He : _event_return self2 = result).
    { destruct (leads_to_last _ _ _ _ _ Hl2) as [s Hs].
      injection Hs as <-. reflexivity. }
    split.
    + rewrite (attribute_write_response _ _ _ _ _ _ _ _ _ Hc Hl), Hc1, Hr.
      cbn [negb Z.eqb].
      rewrite (bind_returned _ _ _ _ _ _ _
                 (wait_leads _ BGAPIError _ _ wait dt' _ post _ Hl2)).
      op_unfold. cbn [_connected set_procedure_completed].
      rewrite Hc2. cbn [negb andb _event_return set_procedure_completed].
      rewrite He. destruct (result =? 0); reflexivity.
    + pose proof (wait_leads _ BGAPIError _ 0 pre 0 _ [] _ Hl) as Hw1.
      pose proof (wait_leads _ BGAPIError _ 0 wait 0 _ [] _ Hl2) as Hw2.
      pose proof (wait_ser
        (or_disconnected PacketType.ble_evt_attclient_procedure_completed)
        None BGAPIError self1 (mkEnv 0 (wait ++ [mkPoll 0
        (Some (Packet.ble_evt_attclient_procedure_completed c' result
                 chrhandle))]))) as Hs2.
      rewrite Hw2 in Hs2. cbn [final_state] in Hs2. rewrite Hs2.
      pose proof (wait_ser
        (or_disconnected PacketType.ble_rsp_attclient_attribute_write)
        None BGAPIError
        (after_send
           (ble_cmd_attclient_attribute_write (_connection_handle self)
              attribute_handle value) self)
        (mkEnv 0 (pre ++ [mkPoll 0
           (Some (Packet.ble_rsp_attclient_attribute_write c 0))]))) as Hs1.
      rewrite Hw1 in Hs1. cbn [final_state] in Hs1. rewrite Hs1.
      reflexivity.
Qed.

End ConnectAndWrite.

Section ConnectAndWriteExamples.

#[local] Existing Instance bluegiga.

(** The device answers within the timeout of 5 s: the call returns on the
    status event and the state is connected, with the handle of the
    event. *)
Lemma connect_runs_witness :
  exists s,
    connect [1; 2; 3; 4; 5; 6] 5000 0 init
      (mkEnv 0
         [ mkPoll 10 (Some (Packet.ble_rsp_gap_connect_direct 0 1));
           mkPoll 100 None;
           mkPoll 20
             (Some (Packet.ble_evt_connection_status 1 5 [] 0 6 20 0 255)) ])
    = Returned tt s (mkEnv 130 [])
    /\ _connected s = true
    /\ _connection_handle s = 1.
Proof.
  eexists. split.
  - refine (proj2
      (connect_runs [1; 2; 3; 4; 5; 6] 5000 0 init 0 [] 10 0 1 _ _) eq_refl
      [ mkPoll 100 None ] 20
      (Packet.ble_evt_connection_status 1 5 [] 0 6 20 0 255) [] _ _ _ _ _).
    + split; [constructor|]. split; [|reflexivity].
      apply list_elem_of_singleton. reflexivity.
    + reflexivity.
    + repeat constructor; intros packet [= <-].
    + intros k Hk. destruct k as [|[|k]]; reflexivity.
    + reflexivity.
  - split; reflexivity.
Defined.

(** A write of [[1, 0]] to handle 3 that the device acknowledges. *)
Lemma attribute_write_runs_witness :
  attribute_write 3 [1; 0] (set_connected true init)
    (mkEnv 0 write_succeeds)
  = Returned tt
      (set_procedure_completed false
         (set_event_return 0
            (set_procedure_completed true
               (set_response_return 0
                  (after_send (ble_cmd_attclient_attribute_write 0 3 [1; 0])
                     (set_connected true init))))))
      (mkEnv 50 []).
Proof.
  refine (proj1
    (proj2
       (attribute_write_runs 3 [1; 0] (set_connected true init) 0 [] 10 0 0
          _ eq_refl _) eq_refl [] 40 0 0 3 [] _ _)).
  - split; [constructor|]. split; [|reflexivity].
    apply list_elem_of_In. left. reflexivity.
  - split; [constructor|]. split; [|reflexivity].
    apply list_elem_of_In. left. reflexivity.
Defined.

End ConnectAndWriteExamples.

(** ** Disconnection during an operation, encryption and bonding *)

Section SecureRuns.

Context {cat : Catalogue}.

Lemma leads_to_disconnected expected pre c reason self self' :
  leads_to expected pre (Packet.ble_evt_connection_disconnected c reason)
    self self' ->
  _connected self' = false /\ _event_return self' = reason.
Proof.
  intros Hl. destruct (leads_to_last _ _ _ _ _ Hl) as [s Hs].
  injection Hs as <-. split; reflexivity.
Qed.

(** X16.  A disconnected event that arrives while an operation waits for
    its response ends the wait, and the check that follows raises
    [NotConnectedError]: so for [attribute_write], and so for [get_rssi],
    which then makes no further attempt – one command has been written. *)
Theorem disconnection_ends_operation self now pre dt c reason post :
  _connected self = true ->
  (forall attribute_handle value self1,
     leads_to (or_disconnected PacketType.ble_rsp_attclient_attribute_write)
       pre (Packet.ble_evt_connection_disconnected c reason)
       (after_send
          (ble_cmd_attclient_attribute_write (_connection_handle self)
             attribute_handle value) self)
       self1 ->
     attribute_write attribute_handle value self
       (mkEnv now
          (pre ++ mkPoll dt
                    (Some (Packet.ble_evt_connection_disconnected c reason))
               :: post))
     = Raised NotConnectedError self1 (mkEnv (now + elapsed pre + dt) post))
  /\ (forall self1,
        leads_to (or_disconnected PacketType.ble_rsp_connection_get_rssi)
          pre (Packet.ble_evt_connection_disconnected c reason)
          (after_send (ble_cmd_connection_get_rssi (_connection_handle self))
             self)
          self1 ->
        get_rssi self
          (mkEnv now
             (pre ++ mkPoll dt
                       (Some (Packet.ble_evt_connection_disconnected c reason))
                  :: post))
        = Raised NotConnectedError self1 (mkEnv (now + elapsed pre + dt) post)
        /\ count_get_rssi (_ser self1) = S (count_get_rssi (_ser self))).
Proof.
  intros Hc. split.
  - intros attribute_handle value self1 Hl.
    rewrite (attribute_write_response _ _ _ _ _ _ _ _ _ Hc Hl).
    destruct (leads_to_disconnected _ _ _ _ _ _ Hl) as [-> _]. reflexivity.
  - intros self1 Hl.
    destruct (leads_to_disconnected _ _ _ _ _ _ Hl) as [Hc1 _].
    pose proof (wait_leads _ BGAPIError _ now pre dt _ post _ Hl) as Hw.
    unfold or_disconnected, after_send in Hw.
    assert (Honce : _get_rssi_once self
      (mkEnv now
         (pre ++ mkPoll dt
                   (Some (Packet.ble_evt_connection_disconnected c reason))
              :: post))
      = Raised NotConnectedError self1 (mkEnv (now + elapsed pre + dt) post)).
    { unfold _get_rssi_once. op_unfold. rewrite Hc. cbn [negb andb].
      rewrite Hw, Hc1. reflexivity. }
    split.
    + unfold get_rssi. cbv zeta. rewrite get_rssi_attempts_step, Honce.
      reflexivity.
    + pose proof (wait_ser
        [PacketType.ble_rsp_connection_get_rssi;
         PacketType.ble_evt_connection_disconnected] None BGAPIError
        (set_ser
           (_ser self ++ [ble_cmd_connection_get_rssi (_connection_handle self)])
           self)
        (mkEnv now
           (pre ++ mkPoll dt
                     (Some (Packet.ble_evt_connection_disconnected c reason))
                :: post))) as Hs.
      rewrite Hw in Hs. cbn [final_state _ser set_ser] in Hs.
      rewrite Hs. apply count_get_rssi_snoc.
Qed.

(** X17.  [encrypt] on a connected state, packet by packet: after the
    response to the bondable mode it starts the encryption without
    bonding; a response with a result other than 0 makes it raise
    [BGAPIError] without waiting for an event; after a response with
    result 0 the first connection-status event decides: the call returns
    when [_encrypted] is set after the handler of the event, and raises
    [BGAPIError] when it is not. *)
Theorem encrypt_runs bondable_no do_not_create_bonding self now
    pre1 dt1 pre2 dt2 hdl r self1 self2 :
  _connected self = true ->
  leads_to (or_disconnected PacketType.ble_rsp_sm_set_bondable_mode)
    pre1 Packet.ble_rsp_sm_set_bondable_mode
    (after_send (ble_cmd_sm_set_bondable_mode bondable_no) self) self1 ->
  leads_to (or_disconnected PacketType.ble_rsp_sm_encrypt_start)
    pre2 (Packet.ble_rsp_sm_encrypt_start hdl r)
    (after_send
       (ble_cmd_sm_encrypt_start (_connection_handle self1)
          do_not_create_bonding) self1)
    self2 ->
  (r <> 0 ->
   forall post,
     encrypt bondable_no do_not_create_bonding self
       (mkEnv now
          (pre1 ++ mkPoll dt1 (Some Packet.ble_rsp_sm_set_bondable_mode)
                :: pre2
                ++ mkPoll dt2 (Some (Packet.ble_rsp_sm_encrypt_start hdl r))
                :: post))
     = Raised BGAPIError self2
         (mkEnv (now + elapsed pre1 + dt1 + elapsed pre2 + dt2) post))
  /\ (r = 0 ->
      forall pre3 dt3 status post self3,
        Packet.packet_type status = PacketType.ble_evt_connection_status ->
        leads_to (or_disconnected PacketType.ble_evt_connection_status)
          pre3 status self2 self3 ->
        encrypt bondable_no do_not_create_bonding self
          (mkEnv now
             (pre1 ++ mkPoll dt1 (Some Packet.ble_rsp_sm_set_bondable_mode)
                   :: pre2
                   ++ mkPoll dt2
                        (Some (Packet.ble_rsp_sm_encrypt_start hdl r))
                   :: pre3 ++ mkPoll dt3 (Some status) :: post))
        = (if _encrypted self3 then Returned tt self3
           else Raised BGAPIError self3)
            (mkEnv
               (now + elapsed pre1 + dt1 + elapsed pre2 + dt2
                + elapsed pre3 + dt3) post)).
Proof.
  intros Hc Hl1 Hl2.
  assert (Hc1 : _connected self1 = true).
  { eapply leads_to_connected; [apply in_or_disconnected| |exact Hl1|exact Hc].
    discriminate. }
  assert (Hc2 : _connected self2 = true).
  { eapply leads_to_connected; [apply in_or_disconnected| |exact Hl2|exact Hc1].
    discriminate. }
  assert (Hr : _response_return self2 = r).
  { eapply response_recorded; [exact Hl2|]. reflexivity. }
  assert (Hstep : forall rest,
    encrypt bondable_no do_not_create_bonding self
      (mkEnv now
         (pre1 ++ mkPoll dt1 (Some Packet.ble_rsp_sm_set_bondable_mode)
               :: pre2
               ++ mkPoll dt2 (Some (Packet.ble_rsp_sm_encrypt_start hdl r))
               :: rest))
    = (if negb (r =? 0) then raise BGAPIError
       else
         _process_packets_until
           (or_disconnected PacketType.ble_evt_connection_status)
           None BGAPIError;;
         _check_connection true;;
         self ← get_self;
         if negb (_encrypted self) then raise BGAPIError else mret tt)
        self2
        (mkEnv (now + elapsed pre1 + dt1 + elapsed pre2 + dt2) rest)).
  { intros rest.
    pose proof (wait_leads _ BGAPIError _ now pre1 dt1 _
                  (pre2 ++ mkPoll dt2
                             (Some (Packet.ble_rsp_sm_encrypt_start hdl r))
                        :: rest) _ Hl1) as Hw1.
    pose proof (wait_leads _ BGAPIError _ (now + elapsed pre1 + dt1)
                  pre2 dt2 _ rest _ Hl2) as Hw2.
    unfold or_disconnected, after_send in Hw1, Hw2.
    unfold encrypt. op_unfold. rewrite Hc. cbn [negb andb].
    rewrite Hw1, Hc1. cbn [negb andb]. rewrite Hw2, Hc2. cbn [negb andb].
    rewrite Hr. destruct (negb (r =? 0)); reflexivity. }
  split.
  - intros Hne post. rewrite Hstep.
    destruct (Z.eqb_spec r 0) as [->|_]; [contradiction|]. reflexivity.
  - intros -> pre3 dt3 status post self3 Hst Hl3.
    assert (Hc3 : _connected self3 = true).
    { eapply leads_to_connected;
        [apply in_or_disconnected| |exact Hl3|exact Hc2].
      rewrite Hst. discriminate. }
    rewrite Hstep. cbn [Z.eqb negb].
    rewrite (bind_returned _ _ _ _ _ _ _
               (wait_leads _ BGAPIError _ _ pre3 dt3 _ post _ Hl3)).
    op_unfold. rewrite Hc3. cbn [negb andb].
    destruct (_encrypted self3); reflexivity.
Qed.

End SecureRuns.

Section SecureRunsExamples.

#[local] Existing Instance bluegiga.

(** The link is lost while the write waits for its response. *)
Lemma disconnection_ends_operation_witness :
  attribute_write 3 [1; 0] (set_connected true init)
    (mkEnv 0
       [ mkPoll 30 (Some (Packet.ble_evt_connection_disconnected 0 520)) ])
  = Raised NotConnectedError
      (set_event_return 520
         (set_bonded false
            (set_encrypted false
               (set_connected false
                  (after_send (ble_cmd_attclient_attribute_write 0 3 [1; 0])
                     (set_connected true init))))))
      (mkEnv 30 []).
Proof.
  refine (proj1
    (disconnection_ends_operation (set_connected true init) 0 [] 30 0 520 []
       eq_refl) 3 [1; 0] _ _).
  split; [constructor|]. split; [|reflexivity].
  apply list_elem_of_In. right. left. reflexivity.
Defined.

(** An encryption that the device completes: the status event carries the
    connected and the encrypted flag. *)
Lemma encrypt_runs_witness :
  encrypt 0 0 (set_connected true init)
    (mkEnv 0
       [ mkPoll 10 (Some Packet.ble_rsp_sm_set_bondable_mode);
         mkPoll 10 (Some (Packet.ble_rsp_sm_encrypt_start 0 0));
         mkPoll 50
           (Some (Packet.ble_evt_connection_status 0 3 [] 0 6 20 0 255)) ])
  = Returned tt
      (set_encrypted true
         (set_connected true
            (set_connection_handle 0
               (set_response_return 0
                  (after_send (ble_cmd_sm_encrypt_start 0 0)
                     (after_send (ble_cmd_sm_set_bondable_mode 0)
                        (set_connected true init)))))))
      (mkEnv 70 []).
Proof.
  assert (H : _) by
    (refine (proj2
       (encrypt_runs 0 0 (set_connected true init) 0 [] 10 [] 10 0 0
          (after_send (ble_cmd_sm_set_bondable_mode 0)
             (set_connected true init))
          (set_response_return 0
             (after_send (ble_cmd_sm_encrypt_start 0 0)
                (after_send (ble_cmd_sm_set_bondable_mode 0)
                   (set_connected true init))))
          eq_refl _ _) eq_refl [] 50
       (Packet.ble_evt_connection_status 0 3 [] 0 6 20 0 255) []
       (set_encrypted true
          (set_connected true
             (set_connection_handle 0
                (set_response_return 0
                   (after_send (ble_cmd_sm_encrypt_start 0 0)
                      (after_send (ble_cmd_sm_set_bondable_mode 0)
                         (set_connected true init)))))))
       eq_refl _);
     (split; [constructor|]; split; [|reflexivity];
      apply list_elem_of_In; left; reflexivity)).
  exact H.
Defined.

End SecureRunsExamples.

(** ** Bonding, packet by packet *)

Section BondRuns.

Context {cat : Catalogue}.

Lemma bond_loop_once self now pre dt m post self' :
  bond_pending self = true ->
  leads_to bond_events pre m self self' ->
  bond_pending self' = false ->
  bond_loop self (mkEnv now (pre ++ mkPoll dt (Some m) :: post))
  = Returned tt self' (mkEnv (now + elapsed pre + dt) post).
Proof.
  intros Hp Hl Hp'. unfold bond_loop. cbn [polls].
  rewrite length_app. cbn [length]. rewrite Nat.add_succ_r.
  rewrite bond_wait_step, Hp.
  rewrite (bind_returned _ _ _ _ _ _ _
             (wait_leads _ BGAPIError _ now pre dt m post _ Hl)).
  destruct (length pre + length post)%nat;
    cbn [bond_wait_for_event]; rewrite Hp'; reflexivity.
Qed.

(** The run of [bond] up to the check of the response to
    [encrypt_start]. *)
Lemma bond_begin_runs self now pre1 dt1 pre2 dt2 hdl r rest self1 self2 :
  _connected self = true ->
  leads_to (or_disconnected PacketType.ble_rsp_sm_set_bondable_mode)
    pre1 Packet.ble_rsp_sm_set_bondable_mode
    (after_send (ble_cmd_sm_set_bondable_mode Bondable_yes)
       (set_bond_expected true self))
    self1 ->
  leads_to (or_disconnected PacketType.ble_rsp_sm_encrypt_start)
    pre2 (Packet.ble_rsp_sm_encrypt_start hdl r)
    (after_send
       (ble_cmd_sm_encrypt_start (_connection_handle self1)
          Bonding_create_bonding)
       (set_bonding_fail false self1))
    self2 ->
  bond_begin self
    (mkEnv now
       (pre1 ++ mkPoll dt1 (Some Packet.ble_rsp_sm_set_bondable_mode)
             :: pre2
             ++ mkPoll dt2 (Some (Packet.ble_rsp_sm_encrypt_start hdl r))
             :: rest))
  = (if negb (r =? 0) then Raised BGAPIError self2 else Returned tt self2)
      (mkEnv (now + elapsed pre1 + dt1 + elapsed pre2 + dt2) rest)
  /\ _connected self2 = true.
Proof.
  intros Hc Hl1 Hl2.
  assert (Hc1 : _connected self1 = true).
  { eapply leads_to_connected; [apply in_or_disconnected| |exact Hl1|exact Hc].
    discriminate. }
  assert (Hc2 : _connected self2 = true).
  { eapply leads_to_connected; [apply in_or_disconnected| |exact Hl2|exact Hc1].
    discriminate. }
  assert (Hr : _response_return self2 = r).
  { eapply response_recorded; [exact Hl2|]. reflexivity. }
  split; [|exact Hc2].
  pose proof (wait_leads _ BGAPIError _ now pre1 dt1 _
                (pre2 ++ mkPoll dt2
                           (Some (Packet.ble_rsp_sm_encrypt_start hdl r))
                      :: rest) _ Hl1) as Hw1.
  pose proof (wait_leads _ BGAPIError _ (now + elapsed pre1 + dt1)
                pre2 dt2 _ rest _ Hl2) as Hw2.
  unfold or_disconnected, after_send in Hw1, Hw2.
  unfold bond_begin. op_unfold. rewrite Hc. cbn [negb andb].
  cbn [_ser _connection_handle set_bond_expected] in Hw1 |- *.
  rewrite Hw1, Hc1. cbn [negb andb].
  cbn [_ser _connection_handle set_bonding_fail] in Hw2 |- *.
  rewrite Hw2, Hc2. cbn [negb andb].
  rewrite Hr. destruct (negb (r =? 0)); reflexivity.
Qed.

(** X18.  [bond] on a connected state, packet by packet.  It first marks a
    bond as expected and sets the bondable mode, then starts the
    encryption with bonding.  A response to [encrypt_start] with a result
    other than 0 makes it raise [BGAPIError] before any event is waited
    for.  After a response with result 0, in a state that is not yet
    encrypted or bonded, the first event that ends the loop decides: a
    bonding-fail event makes the call raise [BGAPIError], a disconnected
    event makes it raise [NotConnectedError], and a connection-status
    event with the encrypted flag makes it return. *)
Theorem bond_runs self now pre1 dt1 pre2 dt2 hdl r self1 self2 :
  _connected self = true ->
  leads_to (or_disconnected PacketType.ble_rsp_sm_set_bondable_mode)
    pre1 Packet.ble_rsp_sm_set_bondable_mode
    (after_send (ble_cmd_sm_set_bondable_mode Bondable_yes)
       (set_bond_expected true self))
    self1 ->
  leads_to (or_disconnected PacketType.ble_rsp_sm_encrypt_start)
    pre2 (Packet.ble_rsp_sm_encrypt_start hdl r)
    (after_send
       (ble_cmd_sm_encrypt_start (_connection_handle self1)
          Bonding_create_bonding)
       (set_bonding_fail false self1))
    self2 ->
  (r <> 0 ->
   forall post,
     bond self
       (mkEnv now
          (pre1 ++ mkPoll dt1 (Some Packet.ble_rsp_sm_set_bondable_mode)
                :: pre2
                ++ mkPoll dt2 (Some (Packet.ble_rsp_sm_encrypt_start hdl r))
                :: post))
     = Raised BGAPIError self2
         (mkEnv (now + elapsed pre1 + dt1 + elapsed pre2 + dt2) post))
  /\ (r = 0 ->
      _bonding_fail self2 = false ->
      _bonded self2 = false ->
      _encrypted self2 = false ->
      forall pre3 dt3 m post self3,
        leads_to bond_events pre3 m self2 self3 ->
        (exists result, m = Packet.ble_evt_sm_bonding_fail result)
        \/ (exists c reason, m = Packet.ble_evt_connection_disconnected c reason)
        \/ (Packet.packet_type m = PacketType.ble_evt_connection_status
            /\ _encrypted self3 = true /\ _bonding_fail self3 = false) ->
        bond self
          (mkEnv now
             (pre1 ++ mkPoll dt1 (Some Packet.ble_rsp_sm_set_bondable_mode)
                   :: pre2
                   ++ mkPoll dt2
                        (Some (Packet.ble_rsp_sm_encrypt_start hdl r))
                   :: pre3 ++ mkPoll dt3 (Some m) :: post))
        = match m with
          | Packet.ble_evt_sm_bonding_fail _ => Raised BGAPIError self3
          | Packet.ble_evt_connection_disconnected _ _ =>
              Raised NotConnectedError self3
          | _ => Returned tt self3
          end
            (mkEnv
               (now + elapsed pre1 + dt1 + elapsed pre2 + dt2
                + elapsed pre3 + dt3) post)).
Proof.
  intros Hc Hl1 Hl2. split.
  - intros Hne post.
    destruct (bond_begin_runs self now pre1 dt1 pre2 dt2 hdl r post
                self1 self2 Hc Hl1 Hl2) as [Hb _].
    unfold bond. rewrite bind_unfold, Hb.
    destruct (Z.eqb_spec r 0) as [->|_]; [contradiction|]. reflexivity.
  - intros -> Hf Hb He pre3 dt3 m post self3 Hl3 Hm.
    destruct (bond_begin_runs self now pre1 dt1 pre2 dt2 hdl 0
                (pre3 ++ mkPoll dt3 (Some m) :: post)
                self1 self2 Hc Hl1 Hl2) as [Hbegin Hc2].
    cbn [Z.eqb negb] in Hbegin.
    assert (Hp2 : bond_pending self2 = true).
    { unfold bond_pending. rewrite Hf, Hc2, Hb, He. reflexivity. }
    unfold bond. rewrite (bind_returned _ _ _ _ _ _ _ Hbegin).
    unfold bond_end.
    change (fun self0 env0 =>
              bond_wait_for_event (length (polls env0)) self0 env0)
      with bond_loop.
    destruct Hm as [[result ->]|[(c & reason & ->)|(Hst & He3 & Hf3)]].
    + destruct (leads_to_last _ _ _ _ _ Hl3) as [s Hs].
      assert (Hf3 : _bonding_fail self3 = true)
        by (injection Hs as <-; reflexivity).
      assert (Hc3 : _connected self3 = true).
      { refine (leads_to_connected _ _ _ _ _ _ _ Hl3 Hc2); [|discriminate].
        unfold bond_events. apply list_elem_of_In. right. right. left.
        reflexivity. }
      rewrite (bind_returned _ _ _ _ tt self3
                 (mkEnv (now + elapsed pre1 + dt1 + elapsed pre2 + dt2
                         + elapsed pre3 + dt3) post)).
      * op_unfold. rewrite Hc3. cbn [negb andb]. rewrite Hf3. reflexivity.
      * apply bond_loop_once; [exact Hp2|exact Hl3|].
        apply bond_pending_false. left. exact Hf3.
    + destruct (leads_to_disconnected _ _ _ _ _ _ Hl3) as [Hc3 _].
      rewrite (bind_returned _ _ _ _ tt self3
                 (mkEnv (now + elapsed pre1 + dt1 + elapsed pre2 + dt2
                         + elapsed pre3 + dt3) post)).
      * op_unfold. rewrite Hc3. reflexivity.
      * apply bond_loop_once; [exact Hp2|exact Hl3|].
        apply bond_pending_false. right. left. exact Hc3.
    + assert (Hc3 : _connected self3 = true).
      { refine (leads_to_connected _ _ _ _ _ _ _ Hl3 Hc2).
        - unfold bond_events. apply list_elem_of_In. right. right. left.
          reflexivity.
        - rewrite Hst. discriminate. }
      rewrite (bind_returned _ _ _ _ tt self3
                 (mkEnv (now + elapsed pre1 + dt1 + elapsed pre2 + dt2
                         + elapsed pre3 + dt3) post)).
      * op_unfold. rewrite Hc3. cbn [negb andb]. rewrite Hf3.
        destruct m; try discriminate Hst. reflexivity.
      * apply bond_loop_once; [exact Hp2|exact Hl3|].
        apply bond_pending_false. right. right. right. exact He3.
Qed.

End BondRuns.

Section BondRunsExamples.

#[local] Existing Instance bluegiga.

(** The device refuses the pairing: a bonding-fail event with result
    0x0305 ends the loop and [bond] raises. *)
Lemma bond_runs_witness :
  bond (set_connected true init)
    (mkEnv 0
       [ mkPoll 10 (Some Packet.ble_rsp_sm_set_bondable_mode);
         mkPoll 10 (Some (Packet.ble_rsp_sm_encrypt_start 0 0));
         mkPoll 50 (Some (Packet.ble_evt_sm_bonding_fail 773)) ])
  = Raised BGAPIError
      (set_event_return 773
         (set_bonding_fail true
            (set_response_return 0
               (after_send (ble_cmd_sm_encrypt_start 0 1)
                  (set_bonding_fail false
                     (after_send (ble_cmd_sm_set_bondable_mode 1)
                        (set_bond_expected true
                           (set_connected true init))))))))
      (mkEnv 70 []).
Proof.
  assert (H : _) by
    (refine (proj2
       (bond_runs (set_connected true init) 0 [] 10 [] 10 0 0
          (after_send (ble_cmd_sm_set_bondable_mode 1)
             (set_bond_expected true (set_connected true init)))
          (set_response_return 0
             (after_send (ble_cmd_sm_encrypt_start 0 1)
                (set_bonding_fail false
                   (after_send (ble_cmd_sm_set_bondable_mode 1)
                      (set_bond_expected true (set_connected true init))))))
          eq_refl _ _) eq_refl eq_refl eq_refl eq_refl [] 50
       (Packet.ble_evt_sm_bonding_fail 773) []
       (set_event_return 773
          (set_bonding_fail true
             (set_response_return 0
                (after_send (ble_cmd_sm_encrypt_start 0 1)
                   (set_bonding_fail false
                      (after_send (ble_cmd_sm_set_bondable_mode 1)
                         (set_bond_expected true
                            (set_connected true init))))))))
       _ _);
     [ split; [constructor|]; split; [|reflexivity];
       apply list_elem_of_In; left; reflexivity
     | split; [constructor|]; split; [|reflexivity];
       apply list_elem_of_In; left; reflexivity
     | split; [constructor|]; split; [|reflexivity];
       apply list_elem_of_In; right; left; reflexivity
     | left; eexists; reflexivity ]).
  exact H.
Defined.

End BondRunsExamples.

(** ** Disconnect that reports failure, and what discovery events touch *)

Section MoreRuns.

Context {cat : Catalogue}.

(** X19.  [disconnect] with [fail_quietly=False] reports a refusal: a
    response with a result other than 0 makes it raise [BGAPIError] right
    after the response.  After a response with result 0 it waits, without
    a timeout, for the disconnected event and returns after its handler:
    the state is then not connected, not encrypted and not bonded, and
    [_event_return] holds the reason of the event.  The one command it
    writes is the disconnect of the current connection handle. *)
Theorem disconnect_runs self now pre dt c r self1 :
  leads_to [PacketType.ble_rsp_connection_disconnect] pre
    (Packet.ble_rsp_connection_disconnect c r) (disconnect_sent self) self1 ->
  (r <> 0 ->
   forall post,
     disconnect false self
       (mkEnv now
          (pre ++ mkPoll dt (Some (Packet.ble_rsp_connection_disconnect c r))
               :: post))
     = Raised BGAPIError self1 (mkEnv (now + elapsed pre + dt) post))
  /\ (r = 0 ->
      forall wait dt' c' reason post self2,
        leads_to [PacketType.ble_evt_connection_disconnected] wait
          (Packet.ble_evt_connection_disconnected c' reason) self1 self2 ->
        disconnect false self
          (mkEnv now
             (pre ++ mkPoll dt
                       (Some (Packet.ble_rsp_connection_disconnect c r))
                  :: wait
                  ++ mkPoll dt'
                       (Some (Packet.ble_evt_connection_disconnected c' reason))
                  :: post))
        = Returned tt self2
            (mkEnv (now + elapsed pre + dt + elapsed wait + dt') post)
        /\ _connected self2 = false
        /\ _encrypted self2 = false
        /\ _bonded self2 = false
        /\ _event_return self2 = reason
        /\ _ser self2
           = _ser self
             ++ [ble_cmd_connection_disconnect (_connection_handle self)]).
Proof.
  intros Hl.
  assert (Hr : _response_return self1 = r).
  { eapply response_recorded; [exact Hl|]. reflexivity. }
  assert (Hstep : forall rest,
    disconnect false self
      (mkEnv now
         (pre ++ mkPoll dt (Some (Packet.ble_rsp_connection_disconnect c r))
              :: rest))
    = (if negb (r =? 0) then raise BGAPIError
       else _process_packets_until
              [PacketType.ble_evt_connection_disconnected] None BGAPIError)
        self1 (mkEnv (now + elapsed pre + dt) rest)).
  { intros rest. unfold disconnect.
    rewrite (bind_returned _ _ _ _ self self (mkEnv now _)) by reflexivity.
    rewrite (bind_returned _ _ _ _ tt (disconnect_sent self) (mkEnv now _))
      by reflexivity.
    rewrite (bind_returned _ _ _ _ _ _ _
               (wait_leads _ BGAPIError _ now pre dt _ rest _ Hl)).
    rewrite (bind_returned _ _ _ _ self1 self1 (mkEnv _ rest))
      by reflexivity.
    rewrite Hr. reflexivity. }
  split.
  - intros Hne post. rewrite Hstep.
    destruct (Z.eqb_spec r 0) as [->|_]; [contradiction|]. reflexivity.
  - intros -> wait dt' c' reason post self2 Hl2.
    rewrite Hstep. cbn [Z.eqb negb].
    split; [apply wait_leads; exact Hl2|].
    destruct (leads_to_last _ _ _ _ _ Hl2) as [s Hs].
    pose proof (wait_leads _ BGAPIError _ 0 pre 0 _ [] _ Hl) as Hw1.
    pose proof (wait_leads _ BGAPIError _ 0 wait 0 _ [] _ Hl2) as Hw2.
    pose proof (wait_ser [PacketType.ble_evt_connection_disconnected]
      None BGAPIError self1
      (mkEnv 0 (wait ++ [mkPoll 0
         (Some (Packet.ble_evt_connection_disconnected c' reason))])))
      as Hs2.
    rewrite Hw2 in Hs2. cbn [final_state] in Hs2.
    pose proof (wait_ser [PacketType.ble_rsp_connection_disconnect]
      None BGAPIError (disconnect_sent self)
      (mkEnv 0 (pre ++ [mkPoll 0
         (Some (Packet.ble_rsp_connection_disconnect c 0))]))) as Hs1.
    rewrite Hw1 in Hs1. cbn [final_state] in Hs1.
    rewrite Hs2, Hs1.
    injection Hs as <-. repeat split; reflexivity.
Qed.

(** X20.  Only the find-information event changes the services
    discovered, and only the scan-response event changes the devices
    discovered: the handler of any other packet leaves both as they are,
    so packets that arrive between the events of a discovery or of a scan
    do not disturb what is being accumulated. *)
Theorem handlers_keep_accumulators packet self self' :
  _packet_handlers packet self = Ok self' ->
  (Packet.packet_type packet
   <> PacketType.ble_evt_attclient_find_information_found ->
   _services self' = _services self)
  /\ (Packet.packet_type packet <> PacketType.ble_evt_gap_scan_response ->
      _devices_discovered self' = _devices_discovered self).
Proof.
  destruct packet; cbn [_packet_handlers Packet.packet_type];
    try (intros [= <-]; split; reflexivity).
  - intros H. split; [intros Hne; contradiction Hne; reflexivity|intros _].
    revert H. unfold _ble_evt_attclient_find_information_found.
    assert (Hset : forall r : Result (list gatt.Service),
      and_then r (fun ss => Ok (set_services ss self)) = Ok self' ->
      _devices_discovered self' = _devices_discovered self).
    { intros [e|ss]; cbn; [discriminate|]. intros [= <-]. reflexivity. }
    destruct (Uuid_len _ =? 128); [apply Hset|].
    destruct (UUID_STRING_TO_ATTRIBUTE_TYPE !! _) as [[| | |?]|];
      try (intros [= <-]; reflexivity); try apply Hset.
    destruct (UUID_STRING_TO_CHARACTERISTIC_TYPE !! _); [apply Hset|].
    destruct (UUID_STRING_TO_DESCRIPTOR_TYPE !! _); [apply Hset|].
    intros [= <-]. reflexivity.
  - unfold _ble_evt_connection_status.
    destruct (_connection_status_flag _ _), (_connection_status_flag _ _);
      intros [= <-]; split; reflexivity.
  - intros H. split; [intros _|intros Hne; contradiction Hne; reflexivity].
    revert H. unfold _ble_evt_gap_scan_response.
    destruct (_scan_rsp_data data) as [e|[n d]]; cbn; [discriminate|].
    intros [= <-]. reflexivity.
  - unfold _ble_evt_sm_bond_status. destruct (_bond_expected self);
      intros [= <-]; split; reflexivity.
Qed.

(** X21.  A find-information event with a 128-bit UUID or with the UUID of
    a characteristic type rewrites the last characteristic of the last
    service in place: the former gives it the UUID and the handle of the
    event and marks it custom, the latter gives it the type; in both cases
    its descriptors, the other characteristics and the other services are
    kept. *)
Theorem find_information_rewrites_last_characteristic
    self chrhandle uuid front s cfront c :
  _services self = front ++ [s] ->
  gatt.characteristics s = cfront ++ [c] ->
  (Uuid_len (uuid_of uuid) = 128 ->
   _ble_evt_attclient_find_information_found chrhandle uuid self
   = Ok (set_services
           (front ++
            [with_last_characteristic s cfront
               (gatt.mkCharacteristic chrhandle (uuid_of uuid) true
                  (gatt.characteristic_type_of c) (gatt.descriptors c))])
           self))
  /\ (forall char_type,
        Uuid_len (uuid_of uuid) <> 128 ->
        UUID_STRING_TO_ATTRIBUTE_TYPE !! Uuid_str (uuid_of uuid) = None ->
        UUID_STRING_TO_CHARACTERISTIC_TYPE !! Uuid_str (uuid_of uuid)
        = Some char_type ->
        _ble_evt_attclient_find_information_found chrhandle uuid self
        = Ok (set_services
                (front ++
                 [with_last_characteristic s cfront
                    (gatt.mkCharacteristic (gatt.c_handle c) (gatt.c_uuid c)
                       (gatt.custom c) (Some char_type)
                       (gatt.descriptors c))])
                self)).
Proof.
  intros Hs Hc. split.
  - intros Hlen. unfold _ble_evt_attclient_find_information_found.
    fold (uuid_of uuid). rewrite Hlen. cbn [Z.eqb Pos.eqb].
    rewrite Hs, update_last_snoc. unfold on_last_characteristic.
    rewrite Hc, update_last_snoc. reflexivity.
  - intros char_type Hlen Hatt Hchar.
    unfold _ble_evt_attclient_find_information_found.
    fold (uuid_of uuid). rewrite (neq_128 _ Hlen), Hatt, Hchar.
    rewrite Hs, update_last_snoc. unfold on_last_characteristic.
    rewrite Hc, update_last_snoc. reflexivity.
Qed.

End MoreRuns.

Section MoreRunsExamples.

#[local] Existing Instance bluegiga.

(** The dongle refuses the disconnect with result 0x0186. *)
Lemma disconnect_runs_witness :
  disconnect false init
    (mkEnv 0 [ mkPoll 10 (Some (Packet.ble_rsp_connection_disconnect 0 390)) ])
  = Raised BGAPIError (set_response_return 390 (disconnect_sent init))
      (mkEnv 10 []).
Proof.
  refine (proj1
    (disconnect_runs init 0 [] 10 0 390 _ _) _ []).
  - split; [constructor|]. split; [|reflexivity].
    apply list_elem_of_singleton. reflexivity.
  - discriminate.
Defined.

Lemma handlers_keep_accumulators_witness :
  _services
    (set_connection_handle 1
       (set_services [gatt.mkService 1 (gatt.mkUuid "2800") false []] init))
  = _services
      (set_services [gatt.mkService 1 (gatt.mkUuid "2800") false []] init).
Proof.
  refine (proj1
    (handlers_keep_accumulators
       (Packet.ble_evt_connection_status 1 0 [] 0 6 20 0 255)
       (set_services [gatt.mkService 1 (gatt.mkUuid "2800") false []] init)
       _ eq_refl) _).
  discriminate.
Defined.

(** A custom 128-bit UUID after a characteristic declaration. *)
Lemma find_information_rewrites_last_characteristic_witness :
  _ble_evt_attclient_find_information_found 9
    [1; 2; 3; 4; 5; 6; 7; 8; 9; 10; 11; 12; 13; 14; 15; 16]
    (set_services
       [ gatt.mkService 1 (gatt.mkUuid "2800") false
           [ gatt.mkCharacteristic 2 (gatt.mkUuid "2803") false None [] ] ]
       init)
  = Ok (set_services
          [ gatt.mkService 1 (gatt.mkUuid "2800") false
              [ gatt.mkCharacteristic 9
                  (gatt.mkUuid "100f0e0d0c0b0a090807060504030201") true None
                  [] ] ]
          init).
Proof.
  refine (proj1
    (find_information_rewrites_last_characteristic
       (set_services
          [ gatt.mkService 1 (gatt.mkUuid "2800") false
              [ gatt.mkCharacteristic 2 (gatt.mkUuid "2803") false None [] ] ]
          init)
       9 [1; 2; 3; 4; 5; 6; 7; 8; 9; 10; 11; 12; 13; 14; 15; 16]
       [] (gatt.mkService 1 (gatt.mkUuid "2800") false
             [ gatt.mkCharacteristic 2 (gatt.mkUuid "2803") false None [] ])
       [] (gatt.mkCharacteristic 2 (gatt.mkUuid "2803") false None [])
       eq_refl eq_refl) _).
  reflexivity.
Defined.

End MoreRunsExamples.
